(** * InitialCMCTable: initial conditions for the CMC star-cluster code

    A shallow embedding of [cosmic/sample/initialcmctable.py]: the N-body
    unit rescaling ([ScaleToNBodyUnits]), the injection of black holes
    ([AddBlackHoles]) and the serializer ([write], [read]), followed by the
    properties the specification states about them.

    Conventions of the embedding.
    - A float64 cell is an exact rational ([Q]); rounding, overflow, infinities
      and NaN are not represented.  [Qinv 0] is [0], whereas numpy yields a
      non-finite value: a theorem about the value of a quotient carries the
      hypotheses that keep its denominator away from zero, or leaves the
      quotient as the expression the code evaluates.  The one NaN the
      code can meet on well-formed data, the maximum or minimum of an empty
      column, is an explicit [None].
    - A pandas DataFrame is the list of its rows in order, each with its index
      label; the columns are the fields of a record.
    - The tables are mutated in place and an exception aborts a call without
      undoing what was already mutated: every operation returns the tables
      (and the files) as they stand when it returns or raises, together with
      the exception raised, if any. *)

From Stdlib Require Import QArith Qabs Lqa ZArith List String Ascii Bool.
From Stdlib Require Import Permutation SetoidList SetoidPermutation Sorted Lia.
Import ListNotations.
Open Scope string_scope.
Open Scope list_scope.
Open Scope Q_scope.

(** ** Python exceptions *)

Inductive PyExn : Type :=
| ValueError (msg : string)
| TypeError (msg : string)
| AttributeError (msg : string)
| ZeroDivisionError (msg : string)
| OSError (msg : string).

Definition is_TypeError (e : PyExn) : bool :=
  match e with TypeError _ => true | _ => false end.

(** ** numpy and builtin reductions on float arrays *)

Module Np.

(** Elementwise binary operation on two arrays of one length (on lengths 0
    and 1 it is numpy's broadcast, the only mixed lengths the code meets). *)
Fixpoint map2 {A B C : Type} (f : A -> B -> C) (a : list A) (b : list B) : list C :=
  match a, b with
  | x :: a', y :: b' => f x y :: map2 f a' b'
  | _, _ => []
  end.

(** [np.sum]. *)
Definition sum (a : list Q) : Q := fold_right Qplus 0 a.

(** The builtin [sum]: a left fold that starts from the integer 0. *)
Definition py_sum (a : list Q) : Q := fold_left Qplus a 0.

Fixpoint cumsum_from (acc : Q) (a : list Q) : list Q :=
  match a with
  | [] => []
  | x :: a' => (acc + x) :: cumsum_from (acc + x) a'
  end.

(** [np.cumsum]. *)
Definition cumsum (a : list Q) : list Q := cumsum_from 0 a.

Definition ltb (x y : Q) : bool := negb (Qle_bool y x).

(** [Series.max()] and [Series.min()]: NaN ([None]) on an empty column. *)
Definition series_max (a : list Q) : option Q :=
  match a with
  | [] => None
  | x :: a' => Some (fold_left (fun cur y => if ltb cur y then y else cur) a' x)
  end.

Definition series_min (a : list Q) : option Q :=
  match a with
  | [] => None
  | x :: a' => Some (fold_left (fun cur y => if ltb y cur then y else cur) a' x)
  end.

(** The builtin [max(cur, y)] continued over one more argument: the running
    maximum is replaced only when [y > cur], which is false for a NaN. *)
Definition py_max (cur : Q) (y : option Q) : Q :=
  match y with
  | Some v => if ltb cur v then v else cur
  | None => cur
  end.

(** The builtin [min(x, y)]. *)
Definition py_min (x y : Q) : Q := if ltb y x then y else x.

(** [np.arange(start, start + n)] for a float [start]. *)
Fixpoint arange (start : Q) (n : nat) : list Q :=
  match n with
  | O => []
  | S n' => start :: arange (start + 1) n'
  end.

End Np.

(** [np.sqrt] is taken as an interface: the development never relies on more
    than the defining equation of a square root at the one argument it is
    applied to. *)
Class NumpySqrt : Type := np_sqrt : Q -> Q.

(** A square root on the rationals that is exact on squares of rationals
    (numerator and denominator are rooted separately), used to run the model
    on concrete clusters. *)
Definition rational_sqrt : NumpySqrt :=
  fun x => let y := Qred x in Z.sqrt (Qnum y) # Pos.sqrt (Qden y).

(** A square root taken to 53 binary digits, rounded down: a stand-in for
    [np.sqrt] on arguments that have no rational root. *)
Definition rounded_sqrt : NumpySqrt :=
  fun x => let y := Qred x in
           Z.sqrt (Qnum y * 2 ^ 106 / Zpos (Qden y)) # (2 ^ 53).

(** ** Data model *)

(** A row of the Singles table: the columns
    [id, k, m, Reff, r, vr, vt, binind]. *)
Record SinglesRow : Type := mkSingle {
  s_id : Q; s_k : Q; s_m : Q; s_Reff : Q;
  s_r : Q; s_vr : Q; s_vt : Q; s_binind : Q
}.

(** A row of the Binaries table: the columns
    [index, id1, k1, m1, Reff1, id2, k2, m2, Reff2, a, e]. *)
Record BinariesRow : Type := mkBinary {
  b_index : Q; b_id1 : Q; b_k1 : Q; b_m1 : Q; b_Reff1 : Q;
  b_id2 : Q; b_k2 : Q; b_m2 : Q; b_Reff2 : Q; b_a : Q; b_e : Q
}.

(** Rows in order, each with its pandas index label. *)
Definition DataFrame (R : Type) : Type := list (Z * R).

Definition labels {R : Type} (df : DataFrame R) : list Z := map fst df.
Definition values {R : Type} (df : DataFrame R) : list R := map snd df.

(** [df[name]] as an array. *)
Definition col {R : Type} (f : R -> Q) (df : DataFrame R) : list Q :=
  map (fun p => f (snd p)) df.

(** In-place update of the rows, labels and order kept. *)
Definition on_rows {R : Type} (f : R -> R) (df : DataFrame R) : DataFrame R :=
  map (fun p => (fst p, f (snd p))) df.

(** The class attributes of [InitialCMCTable], with their defaults. *)
Record Attributes : Type := mkAttributes {
  scaled_to_nbody_units : bool;
  metallicity : option Q;
  mass_of_cluster : option Q;
  virial_radius : option Q;
  tidal_radius : option Q;
  central_bh : Q;
  scale_with_central_bh : bool
}.

Definition default_attributes : Attributes :=
  {| scaled_to_nbody_units := false;
     metallicity := None;
     mass_of_cluster := None;
     virial_radius := None;
     tidal_radius := None;
     central_bh := 0.0;
     scale_with_central_bh := false |}.

Record InitialCMCTable (R : Type) : Type := mkTable {
  data : DataFrame R;
  attrs : Attributes
}.
Arguments mkTable {R} _ _.
Arguments data {R} _.
Arguments attrs {R} _.

Definition with_attrs {R : Type} (t : InitialCMCTable R) (a : Attributes) : InitialCMCTable R :=
  mkTable (data t) a.

Definition set_scaled_to_nbody_units (v : bool) (a : Attributes) : Attributes :=
  {| scaled_to_nbody_units := v;
     metallicity := metallicity a;
     mass_of_cluster := mass_of_cluster a;
     virial_radius := virial_radius a;
     tidal_radius := tidal_radius a;
     central_bh := central_bh a;
     scale_with_central_bh := scale_with_central_bh a |}.

Definition set_mass_of_cluster (v : option Q) (a : Attributes) : Attributes :=
  {| scaled_to_nbody_units := scaled_to_nbody_units a;
     metallicity := metallicity a;
     mass_of_cluster := v;
     virial_radius := virial_radius a;
     tidal_radius := tidal_radius a;
     central_bh := central_bh a;
     scale_with_central_bh := scale_with_central_bh a |}.

Definition set_central_bh (v : Q) (a : Attributes) : Attributes :=
  {| scaled_to_nbody_units := scaled_to_nbody_units a;
     metallicity := metallicity a;
     mass_of_cluster := mass_of_cluster a;
     virial_radius := virial_radius a;
     tidal_radius := tidal_radius a;
     central_bh := v;
     scale_with_central_bh := scale_with_central_bh a |}.

(** Column updates of a Singles row. *)
Definition upd_m (f : Q -> Q) (x : SinglesRow) : SinglesRow :=
  mkSingle (s_id x) (s_k x) (f (s_m x)) (s_Reff x) (s_r x) (s_vr x) (s_vt x) (s_binind x).
Definition upd_Reff (f : Q -> Q) (x : SinglesRow) : SinglesRow :=
  mkSingle (s_id x) (s_k x) (s_m x) (f (s_Reff x)) (s_r x) (s_vr x) (s_vt x) (s_binind x).
Definition upd_r (f : Q -> Q) (x : SinglesRow) : SinglesRow :=
  mkSingle (s_id x) (s_k x) (s_m x) (s_Reff x) (f (s_r x)) (s_vr x) (s_vt x) (s_binind x).
Definition upd_vr (f : Q -> Q) (x : SinglesRow) : SinglesRow :=
  mkSingle (s_id x) (s_k x) (s_m x) (s_Reff x) (s_r x) (f (s_vr x)) (s_vt x) (s_binind x).
Definition upd_vt (f : Q -> Q) (x : SinglesRow) : SinglesRow :=
  mkSingle (s_id x) (s_k x) (s_m x) (s_Reff x) (s_r x) (s_vr x) (f (s_vt x)) (s_binind x).

(** Column updates of a Binaries row. *)
Definition upd_m1 (f : Q -> Q) (x : BinariesRow) : BinariesRow :=
  mkBinary (b_index x) (b_id1 x) (b_k1 x) (f (b_m1 x)) (b_Reff1 x)
           (b_id2 x) (b_k2 x) (b_m2 x) (b_Reff2 x) (b_a x) (b_e x).
Definition upd_m2 (f : Q -> Q) (x : BinariesRow) : BinariesRow :=
  mkBinary (b_index x) (b_id1 x) (b_k1 x) (b_m1 x) (b_Reff1 x)
           (b_id2 x) (b_k2 x) (f (b_m2 x)) (b_Reff2 x) (b_a x) (b_e x).
Definition upd_Reff1 (f : Q -> Q) (x : BinariesRow) : BinariesRow :=
  mkBinary (b_index x) (b_id1 x) (b_k1 x) (b_m1 x) (f (b_Reff1 x))
           (b_id2 x) (b_k2 x) (b_m2 x) (b_Reff2 x) (b_a x) (b_e x).
Definition upd_Reff2 (f : Q -> Q) (x : BinariesRow) : BinariesRow :=
  mkBinary (b_index x) (b_id1 x) (b_k1 x) (b_m1 x) (b_Reff1 x)
           (b_id2 x) (b_k2 x) (b_m2 x) (f (b_Reff2 x)) (b_a x) (b_e x).
Definition upd_a (f : Q -> Q) (x : BinariesRow) : BinariesRow :=
  mkBinary (b_index x) (b_id1 x) (b_k1 x) (b_m1 x) (b_Reff1 x)
           (b_id2 x) (b_k2 x) (b_m2 x) (b_Reff2 x) (f (b_a x)) (b_e x).

(** What a mutating call leaves behind: both tables, and the exception it
    raised, if any. *)
Record Mutation : Type := mkMutation {
  Singles' : InitialCMCTable SinglesRow;
  Binaries' : InitialCMCTable BinariesRow;
  raised : option PyExn
}.

(** ** Unit-scaling engine *)

(** [ScaleCentralBHMass]: [self.central_bh /= Mtotal].  On Python floats the
    division raises at [Mtotal = 0], where the rational quotient is 0: what is
    proved of a call that scales takes a total mass other than zero. *)
Definition ScaleCentralBHMass (self : Attributes) (Mtotal : Q) : Attributes :=
  set_central_bh (central_bh self / Mtotal) self.

(** The outer boundary [1e100] that closes [radius_p1]. *)
Definition outer_radius : Q := 1e100.

(** [KE = 0.5 * np.sum(mass * (vr ** 2 + vt ** 2))]. *)
Definition kinetic_energy (mass vr vt : list Q) : Q :=
  0.5 * Np.sum (Np.map2 Qmult mass
                  (Np.map2 Qplus (map (fun v => v ^ 2) vr) (map (fun v => v ^ 2) vt))).

(** The potential energy of lines 113-134: the reverse cumulative shell sum,
    plus the central black hole's term when [scale_with_central_bh]. *)
Definition potential_energy (mass radius : list Q) (bh : Q) (with_bh : bool) : Q :=
  let radius_p1 := tl radius ++ [outer_radius] in
  let cumul_mass := Np.cumsum mass in
  let PE :=
    0.5 * Np.sum
            (Np.map2 Qmult (rev mass)
               (Np.cumsum
                  (rev (Np.map2 Qmult cumul_mass
                          (Np.map2 Qminus (map (fun x => 1.0 / x) radius)
                                          (map (fun x => 1.0 / x) radius_p1)))))) in
  if with_bh
  then PE + Np.sum (Np.map2 Qdiv (map (fun x => bh * x) mass) radius)
  else PE.

(** The energies of a Singles table, by the engine's formulas. *)
Definition KE_of (Singles : InitialCMCTable SinglesRow) : Q :=
  kinetic_energy (col s_m (data Singles)) (col s_vr (data Singles)) (col s_vt (data Singles)).

Definition PE_of (Singles : InitialCMCTable SinglesRow) (with_bh : bool) : Q :=
  potential_energy (col s_m (data Singles)) (col s_r (data Singles))
                   (central_bh (attrs Singles)) with_bh.

Definition PARSEC_PER_RSUN : Q := 2.2546101516664447e-08.

(** Lines 104, 105 and 111 on Singles: the masses and the central black
    hole divided by the total mass. *)
Definition normalize_masses (Singles : InitialCMCTable SinglesRow) : InitialCMCTable SinglesRow :=
  let M_total := Np.py_sum (col s_m (data Singles)) in
  mkTable (on_rows (upd_m (fun x => x / M_total)) (data Singles))
          (ScaleCentralBHMass (attrs Singles) M_total).

(** Lines 136-138: the position and velocity scalings, from the energies of
    the normalized cluster. *)
Definition rfac_of (Singles : InitialCMCTable SinglesRow) (with_bh : bool) : Q :=
  2 * PE_of (normalize_masses Singles) with_bh.

Definition vfac_of `{NumpySqrt} (Singles : InitialCMCTable SinglesRow) : Q :=
  1.0 / np_sqrt (4 * KE_of (normalize_masses Singles)).

(** [ScaleToNBodyUnits(Singles, Binaries, virial_radius, central_bh,
    scale_with_central_bh)].  [virial_radius] is [None] when [write] hands on
    an unset attribute; the [central_bh] argument is accepted and never read
    (the engine uses the table's own attribute). *)
Definition ScaleToNBodyUnits `{NumpySqrt}
    (Singles : InitialCMCTable SinglesRow) (Binaries : InitialCMCTable BinariesRow)
    (virial_radius : option Q) (central_bh_arg : Q) (scale_with_central_bh : bool)
    : Mutation :=
  (* Normalize the masses to the total cluster mass *)
  let M_total := Np.py_sum (col s_m (data Singles)) in
  let Singles1 := normalize_masses Singles in
  let B1 := on_rows (upd_m2 (fun x => x / M_total))
              (on_rows (upd_m1 (fun x => x / M_total)) (data Binaries)) in
  (* Compute the position and velocity scalings *)
  let rfac := rfac_of Singles scale_with_central_bh in
  let vfac := vfac_of Singles in
  (* Scale the positions and velocities s.t. KE=0.25, PE=-0.5 *)
  let S2 := on_rows (upd_vt (fun x => x * vfac))
              (on_rows (upd_vr (fun x => x * vfac))
                 (on_rows (upd_r (fun x => x * rfac)) (data Singles1))) in
  (* Finally, scale the radii and seperations from BSE into code units *)
  match virial_radius with
  | None =>
      mkMutation (mkTable S2 (attrs Singles1)) (mkTable B1 (attrs Binaries))
        (Some (TypeError "unsupported operand type(s) for /: 'float' and 'NoneType'"))
  | Some rvir =>
      if Qeq_bool rvir 0 then
        mkMutation (mkTable S2 (attrs Singles1)) (mkTable B1 (attrs Binaries))
          (Some (ZeroDivisionError "float division by zero"))
      else
        let DistConv := PARSEC_PER_RSUN / rvir in
        let S3 := on_rows (upd_Reff (fun x => x * DistConv)) S2 in
        let B2 := on_rows (upd_Reff2 (fun x => x * DistConv))
                    (on_rows (upd_Reff1 (fun x => x * DistConv))
                       (on_rows (upd_a (fun x => x * DistConv)) B1)) in
        mkMutation (mkTable S3 (set_scaled_to_nbody_units true (attrs Singles1)))
                   (mkTable B2 (set_scaled_to_nbody_units true (attrs Binaries)))
                   None
  end.

(** ** Table constructors *)

(** The default [RangeIndex] of a frame built from an array. *)
Definition range_index {R : Type} (rows : list R) : DataFrame R :=
  combine (map Z.of_nat (seq 0 (List.length rows))) rows.

(** [np.vstack([...]).T] over the eight Singles arrays: the rows, or [None]
    where numpy refuses arrays of different lengths. *)
Fixpoint vstack_singles (id_idx k m Reff r vr vt binind : list Q) : option (list SinglesRow) :=
  match id_idx, k, m, Reff, r, vr, vt, binind with
  | [], [], [], [], [], [], [], [] => Some []
  | x1 :: l1, x2 :: l2, x3 :: l3, x4 :: l4, x5 :: l5, x6 :: l6, x7 :: l7, x8 :: l8 =>
      option_map (cons (mkSingle x1 x2 x3 x4 x5 x6 x7 x8))
                 (vstack_singles l1 l2 l3 l4 l5 l6 l7 l8)
  | _, _, _, _, _, _, _, _ => None
  end.

(** [InitialCMCSingles]. *)
Definition InitialCMCSingles (id_idx k m Reff r vr vt binind : list Q)
    : InitialCMCTable SinglesRow + PyExn :=
  match vstack_singles id_idx k m Reff r vr vt binind with
  | Some rows => inl (mkTable (range_index rows) default_attributes)
  | None => inr (ValueError "all the input array dimensions must match exactly")
  end.

(** [np.vstack([...]).T] over the eleven Binaries arrays. *)
Fixpoint vstack_binaries (index id1 k1 m1 Reff1 id2 k2 m2 Reff2 a e : list Q)
    : option (list BinariesRow) :=
  match index, id1, k1, m1, Reff1, id2, k2, m2, Reff2, a, e with
  | [], [], [], [], [], [], [], [], [], [], [] => Some []
  | x1 :: l1, x2 :: l2, x3 :: l3, x4 :: l4, x5 :: l5, x6 :: l6, x7 :: l7, x8 :: l8,
    x9 :: l9, x10 :: l10, x11 :: l11 =>
      option_map (cons (mkBinary x1 x2 x3 x4 x5 x6 x7 x8 x9 x10 x11))
                 (vstack_binaries l1 l2 l3 l4 l5 l6 l7 l8 l9 l10 l11)
  | _, _, _, _, _, _, _, _, _, _, _ => None
  end.

(** [InitialCMCBinaries]. *)
Definition InitialCMCBinaries (index id1 k1 m1 Reff1 id2 k2 m2 Reff2 a e : list Q)
    : InitialCMCTable BinariesRow + PyExn :=
  match vstack_binaries index id1 k1 m1 Reff1 id2 k2 m2 Reff2 a e with
  | Some rows => inl (mkTable (range_index rows) default_attributes)
  | None => inr (ValueError "all the input array dimensions must match exactly")
  end.

(** ** Black-hole injector *)

(** What a caller may pass for [masses] and [radii]: an int or a float, or a
    list whose items are numbers ([PyNum]), strings that spell no number
    ([PyStr]), or objects that have no float conversion ([PyObject]).  Items
    that numpy converts without being numbers (a string that spells a number,
    [None], which becomes NaN) are not represented. *)
Inductive PyObj : Type :=
| PyNum (x : Q)
| PyStr (s : string)
| PyObject.

Inductive PyArg : Type :=
| Scalar (x : Q)
| ListLike (items : list PyObj).

(** [np.array(items, dtype=float)]: numpy raises [ValueError] on a string
    that spells no number and [TypeError] on an object with no float
    conversion. *)
Fixpoint np_array_float (items : list PyObj) : list Q + PyExn :=
  match items with
  | [] => inl []
  | PyNum x :: rest =>
      match np_array_float rest with
      | inl a => inl (x :: a)
      | inr e => inr e
      end
  | PyStr s :: _ => inr (ValueError ("could not convert string to float: " ++ s))
  | PyObject :: _ => inr (TypeError "float() argument must be a string or a real number")
  end.

(** Lines 478-489. *)
Definition check_masses (masses : PyArg) : list Q + PyExn :=
  match masses with
  | Scalar x =>
      if Qle_bool x 0 then inr (ValueError "Mass must be greater than 0")
      else inl [x]
  | ListLike items =>
      match np_array_float items with
      | inr (AttributeError _) => inr (TypeError "List of masses must all be numeric")
      | inr e => inr e
      | inl arr =>
          if existsb (fun x => Qle_bool x 0) arr
          then inr (ValueError "Masses must be greater than 0")
          else inl arr
      end
  end.

(** Lines 491-502. *)
Definition check_radii (radii : PyArg) : list Q + PyExn :=
  match radii with
  | Scalar x =>
      if Qle_bool x 0 then inr (ValueError "Radius must be greater than 0")
      else inl [x]
  | ListLike items =>
      match np_array_float items with
      | inr (AttributeError _) => inr (TypeError "List of radii must all be numeric")
      | inr e => inr e
      | inl arr =>
          if existsb (fun x => Qle_bool x 0) arr
          then inr (ValueError "Radii must be greater than 0")
          else inl arr
      end
  end.

(** One row of [singles_bh]: stellar type 14, [Reff = 2*m*2.122e-6], both
    velocities [v], and [binind] left at 0. *)
Definition black_hole (id m r v : Q) : SinglesRow :=
  mkSingle id 14 m (2 * m * 2.122e-6) r v v 0.

(** [singles_bh]: one row per black hole, labelled from [label] on. *)
Fixpoint bh_frame (label : Z) (ids masses radii : list Q) (v : Q) : DataFrame SinglesRow :=
  match ids, masses, radii with
  | i :: ids', m :: masses', r :: radii' =>
      (label, black_hole i m r v) :: bh_frame (label + 1) ids' masses' radii' v
  | _, _, _ => []
  end.

(** [df.loc[i] = row]: every row labelled [i] is overwritten; a label the
    index does not hold yet is appended. *)
Definition loc_set {R : Type} (df : DataFrame R) (p : Z * R) : DataFrame R :=
  if existsb (fun q => Z.eqb (fst q) (fst p)) df
  then map (fun q => if Z.eqb (fst q) (fst p) then (fst q, snd p) else q) df
  else df ++ [p].

(** [sort_values(by='r', ascending=True)] as an insertion sort.  pandas'
    default sort is not stable; nothing below depends on how rows of equal
    [r] are ordered. *)
Fixpoint insert_by_r (p : Z * SinglesRow) (df : DataFrame SinglesRow) : DataFrame SinglesRow :=
  match df with
  | [] => [p]
  | q :: df' =>
      if Qle_bool (s_r (snd p)) (s_r (snd q)) then p :: df
      else q :: insert_by_r p df'
  end.

Definition sort_values_by_r (df : DataFrame SinglesRow) : DataFrame SinglesRow :=
  fold_right insert_by_r [] df.

(** [AddBlackHoles(Singles, Binaries, masses, radii)].  The maximum of
    [Singles.id] and the minima of [vr] and [vt] are NaN exactly when Singles
    has no row; [starting_id] is then NaN and [np.arange] raises. *)
Definition AddBlackHoles
    (Singles : InitialCMCTable SinglesRow) (Binaries : InitialCMCTable BinariesRow)
    (masses radii : PyArg) : Mutation :=
  match check_masses masses with
  | inr e => mkMutation Singles Binaries (Some e)
  | inl masses =>
  match check_radii radii with
  | inr e => mkMutation Singles Binaries (Some e)
  | inl radii =>
  if negb (Nat.eqb (List.length masses) (List.length radii)) then
    mkMutation Singles Binaries
      (Some (ValueError "masses and radii must be the same length"))
  else
    let Nbhs := List.length masses in
    let start_index := Z.of_nat (List.length (data Singles)) in
    match Np.series_max (col s_id (data Singles)),
          Np.series_min (col s_vr (data Singles)),
          Np.series_min (col s_vt (data Singles)) with
    | Some id_max, Some vr_min, Some vt_min =>
        let starting_id :=
          Np.py_max (Np.py_max id_max (Np.series_max (col b_id1 (data Binaries))))
                    (Np.series_max (col b_id2 (data Binaries))) + 1 in
        (* in order to prevent weirdness, give the black holes small but
           nonzero velocity *)
        let min_velocity := Np.py_min (Qabs vr_min) (Qabs vt_min) in
        let singles_bh :=
          bh_frame start_index (Np.arange starting_id Nbhs) masses radii
                   (0.01 * min_velocity) in
        let appended := fold_left loc_set singles_bh (data Singles) in
        let sorted := sort_values_by_r appended in
        match mass_of_cluster (attrs Singles) with
        | None =>
            mkMutation (mkTable sorted (attrs Singles)) Binaries
              (Some (TypeError "unsupported operand type(s) for +=: 'NoneType' and 'float'"))
        | Some M =>
            mkMutation
              (mkTable sorted (set_mass_of_cluster (Some (M + Np.sum masses)) (attrs Singles)))
              Binaries None
        end
    | _, _, _ =>
        mkMutation Singles Binaries (Some (ValueError "arange: cannot compute length"))
    end
  end
  end.

(** ** Serializer and deserializer *)

(** [sub in s] on Python strings. *)
Fixpoint str_in (sub s : string) : bool :=
  String.prefix sub s ||
  match s with
  | EmptyString => false
  | String _ s' => str_in sub s'
  end.

(** The pair of flags [savehdf5], [savefits]. *)
Inductive Format : Type := savehdf5 | savefits.

Definition extension_error : PyExn :=
  ValueError "File extension not recognized, valid file types are fits and hdf5".

(** Lines 284-294 of [write]. *)
Definition write_format (filename : string) : Format + PyExn :=
  if str_in ".hdf5" filename || str_in ".h5" filename then inl savehdf5
  else if str_in ".fits" filename then inl savefits
  else inr extension_error.

(** Lines 409-419 of [read]. *)
Definition read_format (filename : string) : Format + PyExn :=
  if str_in ".hdf5" filename || str_in ".h5" filename then inl savehdf5
  else if str_in ".fits" filename then inl savefits
  else inr extension_error.

(** The header fields attached to the Singles block ([Zmet] is the field
    named Z). *)
Record Header : Type := mkHeader {
  EXTNAME : string;
  NOBJ : Z;
  NBINARY : Z;
  MCLUS : option Q;
  RVIR : option Q;
  RTID : option Q;
  Zmet : option Q
}.

(** What the two encoders keep of a written pair.  They are external to the
    repository and are taken to store what they are handed without loss: the
    HDF5 store keeps the frames with their index, the FITS tables keep the rows
    only ([Table.from_pandas] drops the index). *)
Inductive StoredFile : Type :=
| HDF5File (CLUS_OBJ_DATA : DataFrame SinglesRow)
           (CLUS_BINARY_DATA : DataFrame BinariesRow)
           (block0_attrs : Header)
| FITSFile (comments : list string)
           (hdu1 : list SinglesRow) (hdu1_header : Header)
           (hdu2 : list BinariesRow).

Definition FileSystem : Type := string -> option StoredFile.

Definition store (fs : FileSystem) (filename : string) (f : StoredFile) : FileSystem :=
  fun name => if String.eqb name filename then Some f else fs name.

(** The keyword overrides of [write]; [None] is an override not passed. *)
Record Kwargs : Type := mkKwargs {
  kw_virial_radius : option Q;
  kw_tidal_radius : option Q;
  kw_metallicity : option Q;
  kw_central_bh : option Q;
  kw_scale_with_central_bh : option bool
}.

Definition no_kwargs : Kwargs := mkKwargs None None None None None.

(** [kwargs.pop(name, default)]. *)
Definition pop {A : Type} (kw : option A) (default : A) : A :=
  match kw with
  | Some v => v
  | None => default
  end.

Definition pop_opt {A : Type} (kw : option A) (default : option A) : option A :=
  match kw with
  | Some v => Some v
  | None => default
  end.

Definition zero_single : SinglesRow := mkSingle 0 0 0 0 0 0 0 0.
Definition zero_binary : BinariesRow := mkBinary 0 0 0 0 0 0 0 0 0 0 0.

(** [df[c].iloc[0] = v] and [df[c].iloc[-1] = v], as positional updates of
    the frame (the chained assignment writes through to the frame in the
    pandas versions the module was written for). *)
Definition iloc_first {R : Type} (f : R -> R) (df : DataFrame R) : DataFrame R :=
  match df with
  | [] => []
  | p :: df' => (fst p, f (snd p)) :: df'
  end.

Fixpoint iloc_last {R : Type} (f : R -> R) (df : DataFrame R) : DataFrame R :=
  match df with
  | [] => []
  | [p] => [(fst p, f (snd p))]
  | p :: df' => p :: iloc_last f df'
  end.

(** The smallest positive normal double, as written on line 336, and the
    outer sentinel of line 335. *)
Definition tiny_radius : Q := 2.2250738585072014e-308.
Definition huge_radius : Q := 1e40.

(** Lines 326-337: the on-disk Singles block. *)
Definition singles_block (Singles : InitialCMCTable SinglesRow) : DataFrame SinglesRow :=
  let singles := [(0%Z, zero_single)] in
  let singles_bottom := [(0%Z, zero_single)] in
  let singles := singles ++ data Singles in
  let singles := singles ++ singles_bottom in
  let singles := iloc_last (upd_r (fun _ => huge_radius)) singles in
  let singles := iloc_first (upd_r (fun _ => tiny_radius)) singles in
  iloc_first (upd_m (fun _ => central_bh (attrs Singles))) singles.

(** Lines 339-343: the on-disk Binaries block. *)
Definition binaries_block (Binaries : InitialCMCTable BinariesRow) : DataFrame BinariesRow :=
  [(0%Z, zero_binary)] ++ data Binaries.

(** What [write] leaves behind: the tables, the files, the exception. *)
Record Written : Type := mkWritten {
  w_Singles : InitialCMCTable SinglesRow;
  w_Binaries : InitialCMCTable BinariesRow;
  w_files : FileSystem;
  w_raised : option PyExn
}.

(** Lines 302-319 of [write]: the cluster is scaled unless it already is,
    and its physical mass is recorded first unless it already is. *)
Definition scale_before_write `{NumpySqrt}
    (Singles : InitialCMCTable SinglesRow) (Binaries : InitialCMCTable BinariesRow)
    (virial_radius : option Q) (central_bh : Q) (scale_with_central_bh : bool)
    : Mutation :=
  match scaled_to_nbody_units (attrs Singles), mass_of_cluster (attrs Singles) with
  | false, None =>
      let Singles :=
        with_attrs Singles
          (set_mass_of_cluster (Some (Np.sum (col s_m (data Singles)) + central_bh))
             (attrs Singles)) in
      ScaleToNBodyUnits Singles Binaries virial_radius central_bh scale_with_central_bh
  | false, Some _ =>
      ScaleToNBodyUnits Singles Binaries virial_radius central_bh scale_with_central_bh
  | true, None =>
      (* we cannot get the pre-scaled mass of the cluster *)
      mkMutation Singles Binaries
        (Some (ValueError
           ("In order to save the initial conditions correctly, " ++
            "you cannot feed in Singles and Binaries which have already been scaled")))
  | true, Some _ => mkMutation Singles Binaries None
  end.

(** Lines 345-389 of [write]: what the chosen encoder is handed.  The HDF5
    branch writes the file in three steps (the Singles frame, the Binaries
    frame, the attributes); they are one step here, the encoders being taken
    not to fail.  h5py does refuse a header value that is [None]: what is
    proved of a [write] that returns, beyond the layout of what it stored,
    takes the radii handed to it to be numbers. *)
Definition encode (format : Format)
    (singles : DataFrame SinglesRow) (binaries : DataFrame BinariesRow)
    (mclus virial_radius tidal_radius metallicity : option Q) : StoredFile :=
  match format with
  | savehdf5 =>
      HDF5File singles binaries
        (mkHeader "CLUS_OBJ_DATA"
           (Z.of_nat (List.length singles) - 2) (Z.of_nat (List.length binaries) - 1)
           mclus virial_radius tidal_radius metallicity)
  | savefits =>
      let Singles_fits := values singles in
      let Binaries_fits := values binaries in
      FITSFile ["CMC Configured Initial Conditions"; "Produced by COSMIC"]
        Singles_fits
        (mkHeader "CLUS_OBJ_DATA"
           (Z.of_nat (List.length Singles_fits) - 2)
           (Z.of_nat (List.length Binaries_fits) - 1)
           mclus virial_radius tidal_radius metallicity)
        Binaries_fits
  end.

(** [write(Singles, Binaries, filename, **kwargs)]. *)
Definition write `{NumpySqrt}
    (Singles : InitialCMCTable SinglesRow) (Binaries : InitialCMCTable BinariesRow)
    (fs : FileSystem) (filename : string) (kwargs : Kwargs) : Written :=
  (* verify parameters *)
  match write_format filename with
  | inr e => mkWritten Singles Binaries fs (Some e)
  | inl format =>
    let virial_radius := pop_opt (kw_virial_radius kwargs) (virial_radius (attrs Singles)) in
    let tidal_radius := pop_opt (kw_tidal_radius kwargs) (tidal_radius (attrs Singles)) in
    let metallicity_ := pop_opt (kw_metallicity kwargs) (metallicity (attrs Singles)) in
    let central_bh := pop (kw_central_bh kwargs) (central_bh (attrs Singles)) in
    let scale_with_central_bh :=
      pop (kw_scale_with_central_bh kwargs) (scale_with_central_bh (attrs Singles)) in
    let scaled :=
      scale_before_write Singles Binaries virial_radius central_bh scale_with_central_bh in
    let Singles := Singles' scaled in
    let Binaries := Binaries' scaled in
    match raised scaled with
    | Some e => mkWritten Singles Binaries fs (Some e)
    | None =>
      match metallicity (attrs Singles) with
      | None =>
          mkWritten Singles Binaries fs
            (Some (ValueError
               ("The user has not supplied a metallicity for the cluster. " ++
                "Please set the Singles.metallicity attribute")))
      | Some _ =>
          mkWritten Singles Binaries
            (store fs filename
               (encode format (singles_block Singles) (binaries_block Binaries)
                  (mass_of_cluster (attrs Singles))
                  virial_radius tidal_radius metallicity_))
            None
      end
    end
  end.

(** What [read] returns: plain frames from the HDF5 store (pandas rebuilds
    [DataFrame]s, which carry no cluster attribute), or two fresh
    [InitialCMCTable]s from the FITS tables. *)
Inductive ReadResult : Type :=
| PlainFrames (Singles : DataFrame SinglesRow) (Binaries : DataFrame BinariesRow)
| CMCTables (Singles : InitialCMCTable SinglesRow) (Binaries : InitialCMCTable BinariesRow).

(** [read(filename)].  A missing file, or one of the other kind, is the
    decoder's failure. *)
Definition read (fs : FileSystem) (filename : string) : ReadResult + PyExn :=
  match read_format filename with
  | inr e => inr e
  | inl savehdf5 =>
      match fs filename with
      | Some (HDF5File Singles Binaries _) => inl (PlainFrames Singles Binaries)
      | _ => inr (OSError "cannot read the file")
      end
  | inl savefits =>
      match fs filename with
      | Some (FITSFile _ hdu1 _ hdu2) =>
          inl (CMCTables (mkTable (range_index hdu1) default_attributes)
                         (mkTable (range_index hdu2) default_attributes))
      | _ => inr (OSError "cannot read the file")
      end
  end.

(** The rows a [read] hands back, whichever the kind. *)
Definition read_singles (r : ReadResult) : list SinglesRow :=
  match r with
  | PlainFrames singles _ => values singles
  | CMCTables singles _ => values (data singles)
  end.

Definition read_binaries (r : ReadResult) : list BinariesRow :=
  match r with
  | PlainFrames _ binaries => values binaries
  | CMCTables _ binaries => values (data binaries)
  end.

(** ** Vocabulary of the specification *)

(** Ascending order of a column, ties allowed. *)
Definition ascending (a : list Q) : Prop := Sorted Qle a.

Definition sorted_by_r (Singles : InitialCMCTable SinglesRow) : Prop :=
  ascending (col s_r (data Singles)).

(** The minimum absolute velocity present in the [vr] and [vt] columns
    ([None] on an empty table). *)
Definition min_abs_velocity (Singles : InitialCMCTable SinglesRow) : option Q :=
  Np.series_min (map Qabs (col s_vr (data Singles) ++ col s_vt (data Singles))).

(** The index holds the labels 0, ..., N-1, in some order: what the
    constructors hand out, whatever the rows are sorted by. *)
Definition default_index {R : Type} (df : DataFrame R) : Prop :=
  Permutation (labels df) (map Z.of_nat (seq 0 (List.length df))).

(** Every id in use: [Singles.id], [Binaries.id1] and [Binaries.id2]. *)
Definition ids_in_use (Singles : InitialCMCTable SinglesRow)
    (Binaries : InitialCMCTable BinariesRow) : list Q :=
  col s_id (data Singles) ++ col b_id1 (data Binaries) ++ col b_id2 (data Binaries).

(** What a stored file holds. *)
Definition disk_singles (f : StoredFile) : list SinglesRow :=
  match f with
  | HDF5File singles _ _ => values singles
  | FITSFile _ hdu1 _ _ => hdu1
  end.

Definition disk_binaries (f : StoredFile) : list BinariesRow :=
  match f with
  | HDF5File _ binaries _ => values binaries
  | FITSFile _ _ _ hdu2 => hdu2
  end.

Definition disk_header (f : StoredFile) : Header :=
  match f with
  | HDF5File _ _ h => h
  | FITSFile _ _ h _ => h
  end.

(** The two sentinel rows of the on-disk Singles block. *)
Definition inner_sentinel (bh : Q) : SinglesRow := mkSingle 0 0 bh 0 tiny_radius 0 0 0.
Definition outer_sentinel : SinglesRow := mkSingle 0 0 0 0 huge_radius 0 0 0.

(** The cluster attributes a [read] result carries: none on plain frames. *)
Definition read_attributes (r : ReadResult) : option Attributes :=
  match r with
  | PlainFrames _ _ => None
  | CMCTables singles _ => Some (attrs singles)
  end.

(** The shell sum of the potential energy in closed form: with [c] the mass
    enclosed so far and [s] the inverse of the outer boundary, each star
    contributes [C_i * (C_i * (1/r_i - 1/r_(i+1)))], where [C_i] is the
    cumulative mass up to and including it. *)
Definition next_inv (s : Q) (l : list (Q * Q)) : Q :=
  match l with
  | [] => s
  | p :: _ => 1.0 / snd p
  end.

Fixpoint gaps (s : Q) (l : list (Q * Q)) : list Q :=
  match l with
  | [] => []
  | p :: l' => (1.0 / snd p - next_inv s l') :: gaps s l'
  end.

Fixpoint shell_sum (c s : Q) (l : list (Q * Q)) : Q :=
  match l with
  | [] => 0
  | p :: l' =>
      (c + fst p) * ((c + fst p) * (1.0 / snd p - next_inv s l')) + shell_sum (c + fst p) s l'
  end.

(** The sum of [m_i / r_i] behind the central black hole's term. *)
Definition central_sum (l : list (Q * Q)) : Q :=
  Np.sum (map (fun p => fst p / snd p) l).

(** The pairs (mass, radius) of a Singles frame. *)
Definition mass_radius (df : DataFrame SinglesRow) : list (Q * Q) :=
  map (fun p => (s_m (snd p), s_r (snd p))) df.


(** A Singles row in N-body units, as lines 105 and 141-149 leave it: the
    mass divided by the total mass [M], the radius multiplied by [rfac], both
    velocities by [vfac], and Reff by the length conversion [DistConv]. *)
Definition scaled_single (M rfac vfac DistConv : Q) (x : SinglesRow) : SinglesRow :=
  mkSingle (s_id x) (s_k x) (s_m x / M) (s_Reff x * DistConv) (s_r x * rfac)
           (s_vr x * vfac) (s_vt x * vfac) (s_binind x).

(** A Binaries row in N-body units, as lines 106-107 and 150-152 leave it. *)
Definition scaled_binary (M DistConv : Q) (x : BinariesRow) : BinariesRow :=
  mkBinary (b_index x) (b_id1 x) (b_k1 x) (b_m1 x / M) (b_Reff1 x * DistConv)
           (b_id2 x) (b_k2 x) (b_m2 x / M) (b_Reff2 x * DistConv)
           (b_a x * DistConv) (b_e x).

(** ** Sample clusters *)

Definition no_files : FileSystem := fun _ => None.

(** Two stars of one solar mass on radii 1 and 2, in physical units. *)
Definition two_stars : DataFrame SinglesRow :=
  [ (0%Z, mkSingle 1 1 1 1 1 1 1 0);
    (1%Z, mkSingle 2 1 1 1 2 (-1) 1 0) ].

Definition one_binary : DataFrame BinariesRow :=
  [ (0%Z, mkBinary 1 3 1 1 1 4 1 1 1 10 0.5) ].

(** As a sampler leaves them: radii and metallicity set, not yet scaled. *)
Definition sampled_attributes : Attributes :=
  {| scaled_to_nbody_units := false;
     metallicity := Some 0.02;
     mass_of_cluster := Some 2;
     virial_radius := Some 1;
     tidal_radius := Some 1e6;
     central_bh := 0;
     scale_with_central_bh := false |}.

Definition sample_Singles : InitialCMCTable SinglesRow := mkTable two_stars sampled_attributes.
Definition sample_Binaries : InitialCMCTable BinariesRow := mkTable one_binary sampled_attributes.

(** The same cluster with no metallicity recorded. *)
Definition no_metallicity_Singles : InitialCMCTable SinglesRow :=
  mkTable two_stars
    {| scaled_to_nbody_units := false;
       metallicity := None;
       mass_of_cluster := Some 2;
       virial_radius := Some 1;
       tidal_radius := Some 1e6;
       central_bh := 0;
       scale_with_central_bh := false |}.

(** An already scaled cluster with no metallicity recorded. *)
Definition scaled_no_metallicity_Singles : InitialCMCTable SinglesRow :=
  mkTable two_stars
    {| scaled_to_nbody_units := true;
       metallicity := None;
       mass_of_cluster := Some 2;
       virial_radius := Some 1;
       tidal_radius := Some 1e6;
       central_bh := 0;
       scale_with_central_bh := false |}.


Definition no_Binaries : InitialCMCTable BinariesRow := mkTable [] default_attributes.

(** Two stars beyond the outer boundary [1e100] of the potential sum. *)
Definition far_Singles : InitialCMCTable SinglesRow :=
  mkTable [ (0%Z, mkSingle 1 1 1 1 2e100 1 1 0);
            (1%Z, mkSingle 2 1 1 1 3e100 1 1 0) ] sampled_attributes.

(** A cluster with no star. *)
Definition empty_Singles : InitialCMCTable SinglesRow := mkTable [] sampled_attributes.

(** The two stars as the constructor leaves them: no attribute set. *)
Definition fresh_Singles : InitialCMCTable SinglesRow := mkTable two_stars default_attributes.

(** Two stars, one of them falling inwards at speed 5. *)
Definition infalling_Singles : InitialCMCTable SinglesRow :=
  mkTable [ (0%Z, mkSingle 1 1 1 1 1 (-5) 2 0);
            (1%Z, mkSingle 2 1 1 1 2 1 3 0) ] sampled_attributes.

(** A cluster that has lost its middle star: the rows labelled 0 and 2 of a
    three-star table, as row selection leaves them. *)
Definition thinned_Singles : InitialCMCTable SinglesRow :=
  mkTable [ (0%Z, mkSingle 1 1 1 1 1 1 1 0);
            (2%Z, mkSingle 3 1 1 1 3 (-1) 1 0) ] sampled_attributes.


(** * Arithmetic the proofs share *)

(** ** Order on the rationals, as the code tests it *)

Lemma ltb_true (x y : Q) : Np.ltb x y = true <-> x < y.
Proof.
  unfold Np.ltb. rewrite negb_true_iff, <- not_true_iff_false, Qle_bool_iff.
  split; [apply Qnot_le_lt | apply Qlt_not_le].
Qed.

Lemma ltb_false (x y : Q) : Np.ltb x y = false <-> y <= x.
Proof.
  unfold Np.ltb. rewrite negb_false_iff. apply Qle_bool_iff.
Qed.

(** Comparisons of closed rationals, by computation. *)
Ltac qle := apply Qle_bool_iff; vm_compute; reflexivity.
Ltac qlt := apply ltb_true; vm_compute; reflexivity.

(** The running maximum of [Series.max]. *)
Lemma running_max_spec (a : list Q) (x : Q) :
  let r := fold_left (fun cur y => if Np.ltb cur y then y else cur) a x in
  (r = x \/ In r a) /\ x <= r /\ (forall y, In y a -> y <= r).
Proof.
  revert x. induction a as [|z a IH]; intros x; cbn.
  - split; [auto|]. split; [apply Qle_refl|]. intros y [].
  - destruct (Np.ltb x z) eqn:Hlt.
    + apply ltb_true in Hlt. destruct (IH z) as (Hin & Hle & Hall).
      split; [destruct Hin; auto|].
      split; [apply Qle_trans with z; [apply Qlt_le_weak|]; assumption|].
      intros y [<-|Hy]; auto.
    + apply ltb_false in Hlt. destruct (IH x) as (Hin & Hle & Hall).
      split; [destruct Hin; auto|]. split; [assumption|].
      intros y [<-|Hy]; [apply Qle_trans with x; assumption | auto].
Qed.

Lemma series_max_spec (a : list Q) (x : Q) :
  Np.series_max a = Some x -> In x a /\ (forall y, In y a -> y <= x).
Proof.
  destruct a as [|z a]; [discriminate|]. cbn. intros [= <-].
  destruct (running_max_spec a z) as (Hin & Hle & Hall).
  split; [destruct Hin as [->|Hin]; auto|].
  intros y [<-|Hy]; auto.
Qed.

Lemma py_max_spec (cur : Q) (col : list Q) :
  let r := Np.py_max cur (Np.series_max col) in
  (r = cur \/ In r col) /\ cur <= r /\ (forall y, In y col -> y <= r).
Proof.
  unfold Np.py_max. destruct (Np.series_max col) as [v|] eqn:Hmax.
  - apply series_max_spec in Hmax. destruct Hmax as [Hin Hall].
    destruct (Np.ltb cur v) eqn:Hlt.
    + apply ltb_true in Hlt. split; [auto|]. split; [apply Qlt_le_weak; assumption|auto].
    + apply ltb_false in Hlt. split; [auto|]. split; [apply Qle_refl|].
      intros y Hy. apply Qle_trans with v; auto.
  - destruct col; [|discriminate]. split; [auto|]. split; [apply Qle_refl|]. intros y [].
Qed.

(** The id the first black hole gets is one above the largest id in use. *)
Lemma starting_id_spec (Singles : InitialCMCTable SinglesRow)
    (Binaries : InitialCMCTable BinariesRow) (id_max : Q) :
  Np.series_max (col s_id (data Singles)) = Some id_max ->
  let top := Np.py_max (Np.py_max id_max (Np.series_max (col b_id1 (data Binaries))))
                       (Np.series_max (col b_id2 (data Binaries))) in
  In top (ids_in_use Singles Binaries) /\
  (forall x, In x (ids_in_use Singles Binaries) -> x <= top).
Proof.
  intros Hmax top. apply series_max_spec in Hmax. destruct Hmax as [Hin Hall].
  destruct (py_max_spec id_max (col b_id1 (data Binaries))) as (H1in & H1le & H1all).
  set (t1 := Np.py_max id_max (Np.series_max (col b_id1 (data Binaries)))) in *.
  destruct (py_max_spec t1 (col b_id2 (data Binaries))) as (H2in & H2le & H2all).
  fold top in H2in, H2le, H2all. unfold ids_in_use. split.
  - rewrite !in_app_iff. destruct H2in as [->|H2in]; [|auto].
    destruct H1in as [->|H1in]; auto.
  - intros x. rewrite !in_app_iff. intros [Hx|[Hx|Hx]].
    + apply Qle_trans with id_max; [auto|]. apply Qle_trans with t1; assumption.
    + apply Qle_trans with t1; auto.
    + auto.
Qed.

(** * The unit-scaling engine *)

(** ** Columns under row updates *)

Lemma col_on_rows {R : Type} (f : R -> Q) (g : R -> R) (df : DataFrame R) :
  col f (on_rows g df) = col (fun x => f (g x)) df.
Proof.
  unfold col, on_rows. rewrite map_map. reflexivity.
Qed.

Lemma col_untouched {R : Type} (f : R -> Q) (g : R -> R) (df : DataFrame R) :
  (forall x, f (g x) = f x) -> col f (on_rows g df) = col f df.
Proof.
  intros Hfg. rewrite col_on_rows. unfold col.
  apply map_ext. intros p. apply Hfg.
Qed.

Lemma labels_on_rows {R : Type} (g : R -> R) (df : DataFrame R) :
  labels (on_rows g df) = labels df.
Proof.
  unfold labels, on_rows. rewrite map_map. reflexivity.
Qed.

Lemma length_on_rows {R : Type} (g : R -> R) (df : DataFrame R) :
  List.length (on_rows g df) = List.length df.
Proof. unfold on_rows. apply length_map. Qed.

Create Rewrite HintDb frame.
#[local] Hint Rewrite @labels_on_rows @length_on_rows : frame.

(** The Singles frame the engine leaves behind, whatever the outcome: each
    row has its mass divided by the total mass, its radius multiplied by
    [rfac] and its velocities by [vfac]; id, k and binind are not written. *)
Lemma scaled_singles_rows `{NumpySqrt} Singles Binaries rvir bh flag :
  exists g : SinglesRow -> SinglesRow,
    data (Singles' (ScaleToNBodyUnits Singles Binaries rvir bh flag)) = on_rows g (data Singles) /\
    (forall x, s_id (g x) = s_id x) /\ (forall x, s_k (g x) = s_k x) /\
    (forall x, s_binind (g x) = s_binind x) /\
    (forall x, s_m (g x) = s_m x / Np.py_sum (col s_m (data Singles))) /\
    (forall x, s_r (g x) = s_r x * rfac_of Singles flag) /\
    (forall x, s_vr (g x) = s_vr x * vfac_of Singles) /\
    (forall x, s_vt (g x) = s_vt x * vfac_of Singles).
Proof.
  set (M := Np.py_sum (col s_m (data Singles))).
  set (rf := rfac_of Singles flag). set (vf := vfac_of Singles).
  pose (g0 := fun x => upd_vt (fun v => v * vf) (upd_vr (fun v => v * vf)
                 (upd_r (fun v => v * rf) (upd_m (fun v => v / M) x)))).
  assert (Hcomp : forall (f h : SinglesRow -> SinglesRow) (df : DataFrame SinglesRow),
             on_rows f (on_rows h df) = on_rows (fun x => f (h x)) df).
  { intros f h df. unfold on_rows. rewrite map_map. reflexivity. }
  unfold ScaleToNBodyUnits. fold M rf vf. destruct rvir as [rv|].
  - destruct (Qeq_bool rv 0).
    + exists g0. cbn [Singles' data normalize_masses]. fold M.
      rewrite !Hcomp. repeat split.
    + exists (fun x => upd_Reff (fun v => v * (PARSEC_PER_RSUN / rv)) (g0 x)).
      cbn [Singles' data normalize_masses]. fold M.
      rewrite !Hcomp. repeat split.
  - exists g0. cbn [Singles' data normalize_masses]. fold M.
    rewrite !Hcomp. repeat split.
Qed.

Lemma scaled_binaries_data `{NumpySqrt} Singles Binaries rvir bh flag :
  exists g : BinariesRow -> BinariesRow,
    data (Binaries' (ScaleToNBodyUnits Singles Binaries rvir bh flag)) = on_rows g (data Binaries) /\
    (forall x, b_index (g x) = b_index x) /\ (forall x, b_id1 (g x) = b_id1 x) /\
    (forall x, b_id2 (g x) = b_id2 x) /\ (forall x, b_k1 (g x) = b_k1 x) /\
    (forall x, b_k2 (g x) = b_k2 x) /\ (forall x, b_e (g x) = b_e x).
Proof.
  set (M := Np.py_sum (col s_m (data Singles))).
  pose (g0 := fun x => upd_m2 (fun v => v / M) (upd_m1 (fun v => v / M) x)).
  assert (Hcomp : forall (f h : BinariesRow -> BinariesRow) (df : DataFrame BinariesRow),
             on_rows f (on_rows h df) = on_rows (fun x => f (h x)) df).
  { intros f h df. unfold on_rows. rewrite map_map. reflexivity. }
  unfold ScaleToNBodyUnits. fold M. destruct rvir as [rv|].
  - destruct (Qeq_bool rv 0).
    + exists g0. cbn [Binaries' data]. rewrite !Hcomp. repeat split.
    + exists (fun x => upd_Reff2 (fun v => v * (PARSEC_PER_RSUN / rv))
                (upd_Reff1 (fun v => v * (PARSEC_PER_RSUN / rv))
                   (upd_a (fun v => v * (PARSEC_PER_RSUN / rv)) (g0 x)))).
      cbn [Binaries' data]. rewrite !Hcomp. repeat split.
  - exists g0. cbn [Binaries' data]. rewrite !Hcomp. repeat split.
Qed.

(** C10. [ScaleToNBodyUnits] leaves the Singles columns id, k and binind and
    the Binaries columns index, id1, id2, k1, k2 and e as they were, row by
    row, and keeps the index labels, hence the number and the order of the
    rows of both tables.  This holds for every input and every outcome of the
    call, the two in which it raises included. *)
Theorem ScaleToNBodyUnits_frame `{NumpySqrt}
    (Singles : InitialCMCTable SinglesRow) (Binaries : InitialCMCTable BinariesRow)
    (virial_radius : option Q) (central_bh_arg : Q) (scale_with_central_bh : bool) :
  let out := ScaleToNBodyUnits Singles Binaries virial_radius central_bh_arg
               scale_with_central_bh in
  (col s_id (data (Singles' out)) = col s_id (data Singles) /\
   col s_k (data (Singles' out)) = col s_k (data Singles) /\
   col s_binind (data (Singles' out)) = col s_binind (data Singles) /\
   labels (data (Singles' out)) = labels (data Singles) /\
   List.length (data (Singles' out)) = List.length (data Singles)) /\
  (col b_index (data (Binaries' out)) = col b_index (data Binaries) /\
   col b_id1 (data (Binaries' out)) = col b_id1 (data Binaries) /\
   col b_id2 (data (Binaries' out)) = col b_id2 (data Binaries) /\
   col b_k1 (data (Binaries' out)) = col b_k1 (data Binaries) /\
   col b_k2 (data (Binaries' out)) = col b_k2 (data Binaries) /\
   col b_e (data (Binaries' out)) = col b_e (data Binaries) /\
   labels (data (Binaries' out)) = labels (data Binaries) /\
   List.length (data (Binaries' out)) = List.length (data Binaries)).
Proof.
  intros out. subst out.
  destruct (scaled_singles_rows Singles Binaries virial_radius central_bh_arg
              scale_with_central_bh) as (g & -> & Hid & Hk & Hbin & _).
  destruct (scaled_binaries_data Singles Binaries virial_radius central_bh_arg
              scale_with_central_bh) as (h & -> & Hix & H1 & H2 & Hk1 & Hk2 & He).
  autorewrite with frame.
  repeat split; auto using col_untouched.
Qed.

(** ** What the engine does to the attributes *)

Lemma ScaleToNBodyUnits_attrs `{NumpySqrt} Singles Binaries rvir bh flag :
  let out := ScaleToNBodyUnits Singles Binaries rvir bh flag in
  metallicity (attrs (Singles' out)) = metallicity (attrs Singles) /\
  mass_of_cluster (attrs (Singles' out)) = mass_of_cluster (attrs Singles) /\
  central_bh (attrs (Singles' out)) =
    central_bh (attrs Singles) / Np.py_sum (col s_m (data Singles)) /\
  (raised out = None -> scaled_to_nbody_units (attrs (Singles' out)) = true).
Proof.
  unfold ScaleToNBodyUnits. destruct rvir as [rv|]; [destruct (Qeq_bool rv 0)|];
    cbn; repeat split; intros; congruence.
Qed.

(** ** Sums *)

Lemma sum_nil : Np.sum [] = 0.
Proof. reflexivity. Qed.

Lemma sum_cons (x : Q) (a : list Q) : Np.sum (x :: a) = x + Np.sum a.
Proof. reflexivity. Qed.

(** Unfold the list functions without touching the rational arithmetic. *)
Ltac lists :=
  cbn [app map rev tl fold_left Np.map2 Np.cumsum_from gaps shell_sum next_inv fst snd];
  rewrite ?sum_cons, ?sum_nil.

Lemma sum_app (a b : list Q) : Np.sum (a ++ b) == Np.sum a + Np.sum b.
Proof.
  induction a as [|x a IH]; lists; [ring|].
  rewrite IH. ring.
Qed.

Lemma sum_rev (a : list Q) : Np.sum (rev a) == Np.sum a.
Proof.
  induction a as [|x a IH]; [reflexivity|].
  lists. rewrite sum_app, IH. lists. ring.
Qed.

Lemma fold_left_sum (a : list Q) (c : Q) : fold_left Qplus a c == c + Np.sum a.
Proof.
  revert c. induction a as [|x a IH]; intros c; lists; [ring|].
  rewrite IH. ring.
Qed.

Lemma py_sum_sum (a : list Q) : Np.py_sum a == Np.sum a.
Proof. unfold Np.py_sum. rewrite fold_left_sum. ring. Qed.



(** ** Cumulative sums *)

Lemma length_cumsum_from (c : Q) (a : list Q) :
  List.length (Np.cumsum_from c a) = List.length a.
Proof. revert c. induction a; intros; cbn; auto. Qed.

Lemma cumsum_from_snoc (c : Q) (a : list Q) (y : Q) :
  Np.cumsum_from c (a ++ [y]) = Np.cumsum_from c a ++ [fold_left Qplus a c + y].
Proof.
  revert c. induction a as [|x a IH]; intros c; [reflexivity|].
  cbn [app Np.cumsum_from fold_left]. rewrite IH. reflexivity.
Qed.

Lemma length_map2 {A B C : Type} (f : A -> B -> C) (a : list A) (b : list B) :
  List.length a = List.length b -> List.length (Np.map2 f a b) = List.length a.
Proof.
  revert b. induction a as [|x a IH]; intros [|y b] Hlen; cbn in *; try discriminate; auto.
Qed.

Lemma map2_snoc {A B C : Type} (f : A -> B -> C) (a : list A) (b : list B) (x : A) (y : B) :
  List.length a = List.length b ->
  Np.map2 f (a ++ [x]) (b ++ [y]) = Np.map2 f a b ++ [f x y].
Proof.
  revert b. induction a as [|x' a IH]; intros [|y' b] Hlen; cbn in *; try discriminate;
    [reflexivity|].
  rewrite IH by congruence. reflexivity.
Qed.

(** Weighting by a cumulative sum that starts at [c] instead of 0. *)
Lemma weighted_cumsum_from (c : Q) (a x : list Q) :
  List.length a = List.length x ->
  Np.sum (Np.map2 Qmult (Np.cumsum_from c a) x) ==
  c * Np.sum x + Np.sum (Np.map2 Qmult (Np.cumsum_from 0 a) x).
Proof.
  revert c x. induction a as [|a0 a IH]; intros c [|x0 x] Hlen; cbn in Hlen; try discriminate.
  - lists. ring.
  - lists. rewrite (IH (c + a0)), (IH (0 + a0)) by congruence. ring.
Qed.

(** Summation by parts: the reverse cumulative sum of line 129 against the
    reversed masses is the plain sum against the cumulative masses. *)
Lemma reverse_cumsum_by_parts (a x : list Q) :
  List.length a = List.length x ->
  Np.sum (Np.map2 Qmult (rev a) (Np.cumsum (rev x))) ==
  Np.sum (Np.map2 Qmult (Np.cumsum a) x).
Proof.
  unfold Np.cumsum. revert x.
  induction a as [|a0 a IH]; intros [|x0 x] Hlen; cbn in Hlen; try discriminate;
    [reflexivity|].
  lists. rewrite cumsum_from_snoc.
  rewrite map2_snoc by (rewrite length_cumsum_from, !length_rev; congruence).
  rewrite sum_app, IH by congruence.
  lists. rewrite (weighted_cumsum_from (0 + a0)) by congruence.
  rewrite fold_left_sum, sum_rev. ring.
Qed.

(** ** The potential energy in closed form *)

Lemma gaps_radius (o : Q) (l : list (Q * Q)) :
  Np.map2 Qminus (map (fun x => 1.0 / x) (map snd l))
                 (map (fun x => 1.0 / x) (tl (map snd l) ++ [o])) =
  gaps (1.0 / o) l.
Proof.
  induction l as [|p l IH]; [reflexivity|].
  cbn [map tl gaps]. destruct l as [|p' l].
  - reflexivity.
  - cbn [map tl app] in IH. cbn [map app Np.map2 next_inv]. f_equal. exact IH.
Qed.

Lemma length_gaps (s : Q) (l : list (Q * Q)) : List.length (gaps s l) = List.length l.
Proof. induction l; cbn; auto. Qed.

Lemma weighted_gaps (c s : Q) (l : list (Q * Q)) :
  Np.sum (Np.map2 Qmult (Np.cumsum_from c (map fst l))
            (Np.map2 Qmult (Np.cumsum_from c (map fst l)) (gaps s l))) =
  shell_sum c s l.
Proof.
  revert c. induction l as [|p l IH]; intros c; [reflexivity|].
  cbn [map Np.cumsum_from gaps Np.map2 shell_sum]. rewrite sum_cons, IH. reflexivity.
Qed.

Lemma central_term (bh : Q) (l : list (Q * Q)) :
  Np.sum (Np.map2 Qdiv (map (fun x => bh * x) (map fst l)) (map snd l)) ==
  bh * central_sum l.
Proof.
  unfold central_sum. induction l as [|p l IH]; lists; [ring|].
  rewrite IH. unfold Qdiv. ring.
Qed.

Lemma potential_energy_closed (l : list (Q * Q)) (bh : Q) (with_bh : bool) :
  potential_energy (map fst l) (map snd l) bh with_bh ==
  0.5 * shell_sum 0 (1.0 / outer_radius) l +
  (if with_bh then bh * central_sum l else 0).
Proof.
  unfold potential_energy. cbv zeta.
  rewrite gaps_radius.
  assert (Hself :
    Np.sum (Np.map2 Qmult (rev (map fst l))
              (Np.cumsum (rev (Np.map2 Qmult (Np.cumsum (map fst l)) (gaps (1.0 / outer_radius) l)))))
    == shell_sum 0 (1.0 / outer_radius) l).
  { rewrite reverse_cumsum_by_parts.
    - unfold Np.cumsum. rewrite weighted_gaps. reflexivity.
    - rewrite length_map2; unfold Np.cumsum;
        rewrite length_cumsum_from, ?length_gaps, !length_map; reflexivity. }
  destruct with_bh.
  - rewrite Hself, central_term. reflexivity.
  - rewrite Hself. ring.
Qed.

Lemma col_mass_radius (df : DataFrame SinglesRow) :
  col s_m df = map fst (mass_radius df) /\ col s_r df = map snd (mass_radius df).
Proof.
  unfold col, mass_radius. rewrite !map_map. split; reflexivity.
Qed.

Lemma PE_of_closed (Singles : InitialCMCTable SinglesRow) (with_bh : bool) :
  PE_of Singles with_bh ==
  0.5 * shell_sum 0 (1.0 / outer_radius) (mass_radius (data Singles)) +
  (if with_bh then central_bh (attrs Singles) * central_sum (mass_radius (data Singles))
   else 0).
Proof.
  unfold PE_of. destruct (col_mass_radius (data Singles)) as [-> ->].
  apply potential_energy_closed.
Qed.

(** ** How the shell sum scales *)




(** With positive masses on ascending positive radii inside the boundary the
    shell sum is positive. *)
Lemma shell_sum_positive (c s : Q) (l : list (Q * Q)) :
  0 <= c -> l <> [] ->
  Forall (fun p => 0 < fst p) l ->
  Forall (fun p => 0 < snd p /\ s < 1.0 / snd p) l ->
  ascending (map snd l) ->
  0 < shell_sum c s l.
Proof.
  revert c. induction l as [|p l IH]; intros c Hc Hne Hm Hr Hs; [contradiction|].
  inversion Hm as [|? ? Hmp Hm']; subst. inversion Hr as [|? ? [Hrp Hsp] Hr']; subst.
  cbn [map] in Hs. inversion Hs as [|? ? Hs' Hhd]; subst.
  assert (Hc' : 0 < c + fst p) by lra.
  destruct l as [|p' l]; lists.
  - assert (0 < 1.0 / snd p - s) by lra.
    assert (0 < (c + fst p) * (1.0 / snd p - s)) by (apply Qmult_lt_0_compat; assumption).
    assert (0 < (c + fst p) * ((c + fst p) * (1.0 / snd p - s)))
      by (apply Qmult_lt_0_compat; assumption).
    lra.
  - assert (Hrest : 0 < shell_sum (c + fst p) s (p' :: l)).
    { apply IH; try assumption; [lra | discriminate]. }
    inversion Hr' as [|? ? [Hrp' _] _]; subst.
    cbn [map] in Hhd. inversion Hhd as [|? ? Hle]; subst.
    assert (Hgap : 0 <= 1.0 / snd p - 1.0 / snd p').
    { setoid_replace (1.0 / snd p - 1.0 / snd p')
        with ((snd p' - snd p) / (snd p * snd p')) by (field; split; lra).
      apply Qle_shift_div_l; [apply Qmult_lt_0_compat; assumption | lra]. }
    assert (0 <= (c + fst p) * (1.0 / snd p - 1.0 / snd p'))
      by (apply Qmult_le_0_compat; [lra | assumption]).
    assert (0 <= (c + fst p) * ((c + fst p) * (1.0 / snd p - 1.0 / snd p')))
      by (apply Qmult_le_0_compat; [lra | assumption]).
    cbn [shell_sum next_inv] in Hrest. lra.
Qed.

Lemma central_sum_nonneg (l : list (Q * Q)) :
  Forall (fun p => 0 < fst p) l -> Forall (fun p => 0 < snd p) l -> 0 <= central_sum l.
Proof.
  unfold central_sum. induction l as [|p l IH]; intros Hm Hr; lists; [lra|].
  inversion Hm; inversion Hr; subst.
  assert (0 <= Np.sum (map (fun p => fst p / snd p) l)) by auto.
  assert (0 <= fst p / snd p) by (apply Qle_shift_div_l; lra).
  lra.
Qed.

(** ** The kinetic energy row by row *)

Lemma kinetic_energy_rows (df : DataFrame SinglesRow) :
  kinetic_energy (col s_m df) (col s_vr df) (col s_vt df) ==
  0.5 * Np.sum (map (fun p => s_m (snd p) * (s_vr (snd p) ^ 2 + s_vt (snd p) ^ 2)) df).
Proof.
  unfold kinetic_energy, col.
  assert (Hsum :
    Np.sum (Np.map2 Qmult (map (fun p => s_m (snd p)) df)
              (Np.map2 Qplus (map (fun v => v ^ 2) (map (fun p => s_vr (snd p)) df))
                             (map (fun v => v ^ 2) (map (fun p => s_vt (snd p)) df))))
    == Np.sum (map (fun p => s_m (snd p) * (s_vr (snd p) ^ 2 + s_vt (snd p) ^ 2)) df)).
  { induction df as [|p df IH]; lists; [reflexivity|]. rewrite IH. reflexivity. }
  rewrite Hsum. reflexivity.
Qed.

(** ** The scaled Singles table *)


Lemma outer_radius_positive : 0 < outer_radius.
Proof. unfold outer_radius. reflexivity. Qed.

Lemma sum_map_div (M : Q) (a : list Q) :
  Np.sum (map (fun x => x / M) a) == Np.sum a / M.
Proof.
  induction a as [|x a IH]; lists; [unfold Qdiv; ring|].
  rewrite IH. unfold Qdiv. ring.
Qed.

Lemma sum_normalized (a : list Q) :
  ~ Np.py_sum a == 0 -> Np.sum (map (fun x => x / Np.py_sum a) a) == 1.
Proof.
  intros HM. rewrite sum_map_div, <- py_sum_sum. field. assumption.
Qed.

Lemma ascending_scaled (k : Q) (a : list Q) :
  0 <= k -> ascending a -> ascending (map (fun x => x * k) a).
Proof.
  unfold ascending. intros Hk Ha. induction Ha as [|x a Ha IH Hhd]; cbn; constructor.
  - assumption.
  - destruct Hhd as [|y a Hxy]; cbn; constructor.
    apply Qmult_le_compat_r; assumption.
Qed.

Lemma py_sum_positive (a : list Q) :
  a <> [] -> Forall (fun x => 0 < x) a -> 0 < Np.py_sum a.
Proof.
  intros Hne Hpos. rewrite py_sum_sum.
  destruct a as [|x a]; [contradiction|]. inversion Hpos as [|? ? Hx Ha]; subst.
  assert (0 <= Np.sum a).
  { clear Hpos Hne. induction Ha as [|y a Hy Ha IH]; lists; lra. }
  lists. lra.
Qed.

(** The position scale factor is positive on a cluster of positive masses
    on ascending positive radii below the outer boundary. *)
Lemma rfac_positive (Singles : InitialCMCTable SinglesRow) (flag : bool) :
  data Singles <> [] ->
  sorted_by_r Singles ->
  Forall (fun x => 0 < x) (col s_m (data Singles)) ->
  Forall (fun x => 0 < x /\ x < outer_radius) (col s_r (data Singles)) ->
  0 <= central_bh (attrs Singles) ->
  0 < rfac_of Singles flag.
Proof.
  intros Hne Hs Hm Hr Hbh. unfold rfac_of. rewrite PE_of_closed.
  set (M := Np.py_sum (col s_m (data Singles))).
  assert (HM : 0 < M).
  { apply py_sum_positive; [|assumption]. unfold col. destruct (data Singles); [contradiction|discriminate]. }
  cbn [normalize_masses data attrs ScaleCentralBHMass set_central_bh central_bh]. fold M.
  set (l := mass_radius (on_rows (upd_m (fun x => x / M)) (data Singles))).
  assert (Hl : l = map (fun p => (s_m (snd p) / M, s_r (snd p))) (data Singles)).
  { unfold l, mass_radius, on_rows. rewrite map_map. reflexivity. }
  assert (Hlm : Forall (fun p => 0 < fst p) l).
  { rewrite Hl. apply Forall_map. unfold col in Hm. rewrite Forall_map in Hm.
    eapply Forall_impl; [|exact Hm]. intros p Hp. cbv beta in Hp. cbn [fst].
    apply Qlt_shift_div_l; lra. }
  assert (Hlr : Forall (fun p => 0 < snd p /\ 1.0 / outer_radius < 1.0 / snd p) l).
  { rewrite Hl. apply Forall_map. unfold col in Hr. rewrite Forall_map in Hr.
    eapply Forall_impl; [|exact Hr]. intros p [Hp Hpo]. cbn [snd]. split; [assumption|].
    pose proof outer_radius_positive as Ho.
    setoid_replace (1.0 / outer_radius) with (/ outer_radius) by (field; lra).
    setoid_replace (1.0 / s_r (snd p)) with (/ s_r (snd p)) by (field; lra).
    apply -> Qinv_lt_contravar; assumption. }
  assert (Hls : ascending (map snd l)).
  { rewrite Hl, map_map. exact Hs. }
  assert (Hself : 0 < shell_sum 0 (1.0 / outer_radius) l).
  { apply shell_sum_positive; try assumption; [lra|].
    rewrite Hl. destruct (data Singles); [contradiction|discriminate]. }
  destruct flag; [|lra].
  assert (0 <= central_sum l).
  { apply central_sum_nonneg; [assumption|].
    eapply Forall_impl; [|exact Hlr]. intros p [Hp _]. assumption. }
  assert (0 <= central_bh (attrs Singles) / M) by (apply Qle_shift_div_l; lra).
  assert (0 <= central_bh (attrs Singles) / M * central_sum l)
    by (apply Qmult_le_0_compat; assumption).
  lra.
Qed.

(** ** When the scale factors are finite *)

Lemma sum_nonneg {A : Type} (f : A -> Q) (l : list A) :
  (forall x, In x l -> 0 <= f x) -> 0 <= Np.sum (map f l).
Proof.
  induction l as [|x l IH]; intros Hf; lists; [lra|].
  assert (0 <= f x) by (apply Hf; left; reflexivity).
  assert (0 <= Np.sum (map f l)) by (apply IH; intros; apply Hf; right; assumption).
  lra.
Qed.

Lemma sum_positive {A : Type} (f : A -> Q) (l : list A) :
  (forall x, In x l -> 0 <= f x) -> Exists (fun x => 0 < f x) l -> 0 < Np.sum (map f l).
Proof.
  intros Hf Hex. induction Hex as [x l Hx|x l Hex IH]; lists.
  - assert (0 <= Np.sum (map f l)) by (apply sum_nonneg; intros; apply Hf; right; assumption).
    lra.
  - assert (0 <= f x) by (apply Hf; left; reflexivity).
    assert (0 < Np.sum (map f l)) by (apply IH; intros; apply Hf; right; assumption).
    lra.
Qed.

(** The kinetic energy the engine computes is positive on a cluster of
    positive masses in which some star moves. *)
Lemma KE_positive (Singles : InitialCMCTable SinglesRow) :
  Forall (fun x => 0 < x) (col s_m (data Singles)) ->
  Exists (fun p => ~ s_vr (snd p) == 0 \/ ~ s_vt (snd p) == 0) (data Singles) ->
  0 < KE_of (normalize_masses Singles).
Proof.
  intros Hm Hv. unfold KE_of. rewrite kinetic_energy_rows.
  unfold normalize_masses, on_rows. cbn [data]. rewrite map_map. cbn [snd upd_m s_m s_vr s_vt].
  set (M := Np.py_sum (col s_m (data Singles))).
  assert (HM : 0 < M).
  { apply py_sum_positive; [|assumption]. unfold col.
    destruct (data Singles); [inversion Hv | discriminate]. }
  unfold col in Hm. rewrite Forall_map, Forall_forall in Hm.
  assert (Hsq : forall v : Q, 0 <= v ^ 2) by (intros v; nra).
  assert (Hsq' : forall v : Q, ~ v == 0 -> 0 < v ^ 2) by (intros v Hv0; nra).
  assert (0 < Np.sum (map (fun p => s_m (snd p) / M * (s_vr (snd p) ^ 2 + s_vt (snd p) ^ 2))
                          (data Singles))).
  { apply sum_positive.
    - intros p Hp. apply Qmult_le_0_compat.
      + apply Qle_shift_div_l; [assumption|]. specialize (Hm p Hp). cbv beta in Hm. lra.
      + pose proof (Hsq (s_vr (snd p))). pose proof (Hsq (s_vt (snd p))). lra.
    - rewrite Exists_exists in *. destruct Hv as (p & Hp & Hv). exists p. split; [assumption|].
      apply Qmult_lt_0_compat.
      + apply Qlt_shift_div_l; [assumption|]. specialize (Hm p Hp). cbv beta in Hm. lra.
      + pose proof (Hsq (s_vr (snd p))). pose proof (Hsq (s_vt (snd p))).
        destruct Hv as [Hv|Hv]; apply Hsq' in Hv; lra. }
  lra.
Qed.

(** A cluster of positive masses on ascending positive radii below the outer
    boundary, with a central black hole of non-negative mass and some star
    that moves, has a non-zero total mass, non-zero radii and non-zero
    energies: the scale factors of the engine are finite and non-zero. *)
Lemma physical_cluster_scale_factors (Singles : InitialCMCTable SinglesRow) (flag : bool) :
  sorted_by_r Singles ->
  Forall (fun x => 0 < x) (col s_m (data Singles)) ->
  Forall (fun x => 0 < x /\ x < outer_radius) (col s_r (data Singles)) ->
  0 <= central_bh (attrs Singles) ->
  Exists (fun p => ~ s_vr (snd p) == 0 \/ ~ s_vt (snd p) == 0) (data Singles) ->
  ~ Np.py_sum (col s_m (data Singles)) == 0 /\
  Forall (fun x => ~ x == 0) (col s_r (data Singles)) /\
  ~ KE_of (normalize_masses Singles) == 0 /\
  ~ rfac_of Singles flag == 0.
Proof.
  intros Hs Hm Hr Hbh Hv.
  assert (Hne : data Singles <> []) by (destruct (data Singles); [inversion Hv | discriminate]).
  assert (HM : 0 < Np.py_sum (col s_m (data Singles))).
  { apply py_sum_positive; [|assumption]. unfold col. destruct (data Singles);
      [contradiction | discriminate]. }
  pose proof (KE_positive Singles Hm Hv) as HKE.
  pose proof (rfac_positive Singles flag Hne Hs Hm Hr Hbh) as Hrf.
  split; [lra|]. split; [|split; lra].
  eapply Forall_impl; [|exact Hr]. intros x [Hx _]. lra.
Qed.

(** ** Reaching N-body units *)



(** What else the figures depend on, each on two stars: a central black hole
    of one solar mass is not part of the mass sum of 1; a cluster at rest does
    not come out at a kinetic energy of 0.25; and neither does a moving one
    when the root of [4 * KE] = 39 is rounded. *)
Lemma nbody_figures_are_conditional :
  (let Singles := mkTable two_stars (set_central_bh 1 sampled_attributes) in
   let out := @ScaleToNBodyUnits rational_sqrt Singles sample_Binaries (Some 1) 0 true in
   Np.sum (col s_m (data (Singles' out))) == 1 /\
   ~ Np.sum (col s_m (data (Singles' out))) + central_bh (attrs (Singles' out)) == 1) /\
  (let Singles := mkTable [ (0%Z, mkSingle 1 1 1 1 1 0 0 0);
                            (1%Z, mkSingle 2 1 1 1 2 0 0 0) ] sampled_attributes in
   let out := @ScaleToNBodyUnits rational_sqrt Singles no_Binaries (Some 1) 0 false in
   ~ KE_of (Singles' out) == 0.25) /\
  (let out := @ScaleToNBodyUnits rounded_sqrt infalling_Singles no_Binaries (Some 1) 0 false in
   ~ KE_of (Singles' out) == 0.25).
Proof.
  cbv zeta. repeat split;
    try (apply Qeq_bool_iff; vm_compute; reflexivity);
    intros H0; apply Qeq_bool_iff in H0; vm_compute in H0; discriminate.
Qed.



(** * The black-hole injector *)

(** ** Sorting by radius *)

Lemma insert_by_r_perm (p : Z * SinglesRow) (df : DataFrame SinglesRow) :
  Permutation (insert_by_r p df) (p :: df).
Proof.
  induction df as [|q df IH]; cbn; [reflexivity|].
  destruct (Qle_bool (s_r (snd p)) (s_r (snd q))); [reflexivity|].
  rewrite IH. apply perm_swap.
Qed.

Lemma sort_values_by_r_perm (df : DataFrame SinglesRow) :
  Permutation (sort_values_by_r df) df.
Proof.
  induction df as [|p df IH]; cbn; [reflexivity|].
  rewrite insert_by_r_perm. constructor. assumption.
Qed.

Lemma insert_by_r_sorted (p : Z * SinglesRow) (df : DataFrame SinglesRow) :
  ascending (col s_r df) -> ascending (col s_r (insert_by_r p df)).
Proof.
  unfold ascending. induction df as [|q df IH]; cbn; intros Hs.
  - repeat constructor.
  - destruct (Qle_bool (s_r (snd p)) (s_r (snd q))) eqn:Hle; cbn.
    + apply Qle_bool_iff in Hle. constructor; [assumption|]. constructor. assumption.
    + assert (Hqp : s_r (snd q) <= s_r (snd p)).
      { apply Qlt_le_weak, Qnot_le_lt. rewrite <- Qle_bool_iff. congruence. }
      inversion Hs as [|? ? Hs' Hhd]; subst. constructor; [auto|].
      destruct df as [|q' df]; cbn.
      * constructor. assumption.
      * destruct (Qle_bool (s_r (snd p)) (s_r (snd q'))); cbn; constructor;
          [assumption | inversion Hhd; assumption].
Qed.

Lemma sort_values_by_r_sorted (df : DataFrame SinglesRow) :
  ascending (col s_r (sort_values_by_r df)).
Proof.
  induction df as [|p df IH]; cbn.
  - constructor.
  - apply insert_by_r_sorted. assumption.
Qed.

(** ** Appending the black holes *)

Lemma loc_set_fresh {R : Type} (df : DataFrame R) (p : Z * R) :
  ~ In (fst p) (labels df) -> loc_set df p = df ++ [p].
Proof.
  intros Hfresh. unfold loc_set.
  destruct (existsb (fun q => Z.eqb (fst q) (fst p)) df) eqn:Hex; [|reflexivity].
  exfalso. apply Hfresh. apply existsb_exists in Hex. destruct Hex as (q & Hq & Heq).
  apply Z.eqb_eq in Heq. rewrite <- Heq. unfold labels. apply in_map. assumption.
Qed.

Lemma fold_loc_set_fresh {R : Type} (new df : DataFrame R) :
  NoDup (labels new) ->
  (forall j, In j (labels new) -> ~ In j (labels df)) ->
  fold_left loc_set new df = df ++ new.
Proof.
  revert df. induction new as [|p new IH]; intros df Hnd Hfresh; cbn.
  - rewrite app_nil_r. reflexivity.
  - inversion Hnd as [|? ? Hp Hnd']; subst.
    rewrite loc_set_fresh by (apply Hfresh; left; reflexivity).
    rewrite IH; [rewrite <- app_assoc; reflexivity | assumption |].
    intros j Hj. unfold labels. rewrite map_app, in_app_iff. cbn.
    intros [Hin|[<-|[]]]; [|contradiction].
    apply (Hfresh j); [right|]; assumption.
Qed.

Lemma bh_frame_labels (label : Z) (ids masses radii : list Q) (v : Q) :
  NoDup (labels (bh_frame label ids masses radii v)) /\
  (forall j, In j (labels (bh_frame label ids masses radii v)) ->
     (label <= j < label + Z.of_nat (List.length masses))%Z).
Proof.
  revert label masses radii.
  induction ids as [|i ids IH]; intros label [|m masses] [|r radii]; cbn;
    try solve [split; [constructor | intros j []]].
  destruct (IH (label + 1)%Z masses radii) as [Hnd Hrange]. split.
  - constructor; [|assumption]. intros Hin. apply Hrange in Hin. lia.
  - intros j [<-|Hj]; [lia|]. apply Hrange in Hj. lia.
Qed.

Lemma length_arange (start : Q) (n : nat) : List.length (Np.arange start n) = n.
Proof. revert start. induction n; intros; cbn; auto. Qed.

Lemma length_bh_frame (label : Z) (ids masses radii : list Q) (v : Q) :
  List.length ids = List.length masses -> List.length masses = List.length radii ->
  List.length (bh_frame label ids masses radii v) = List.length masses.
Proof.
  revert label masses radii.
  induction ids as [|i ids IH]; intros label [|m masses] [|r radii]; cbn; try discriminate; auto.
Qed.

Lemma arange_nth (start : Q) (n i : nat) :
  (i < n)%nat ->
  exists x, nth_error (Np.arange start n) i = Some x /\
            x == start + inject_Z (Z.of_nat i).
Proof.
  revert start i. induction n as [|n IH]; intros start [|i] Hi; try lia.
  - exists start. split; [reflexivity|]. cbn. ring.
  - destruct (IH (start + 1) i) as (x & Hx & Heq); [lia|].
    exists x. split; [assumption|]. rewrite Heq, Nat2Z.inj_succ.
    unfold Z.succ. rewrite inject_Z_plus. ring.
Qed.

Lemma bh_frame_nth (label : Z) (ids masses radii : list Q) (v : Q) (i : nat) :
  List.length ids = List.length masses -> List.length masses = List.length radii ->
  (i < List.length masses)%nat ->
  exists id m r,
    nth_error ids i = Some id /\ nth_error masses i = Some m /\
    nth_error radii i = Some r /\
    nth_error (values (bh_frame label ids masses radii v)) i = Some (black_hole id m r v).
Proof.
  revert label masses radii i.
  induction ids as [|id ids IH]; intros label [|m masses] [|r radii] i H1 H2 Hi;
    cbn in *; try discriminate; try lia.
  destruct i as [|i].
  - exists id, m, r. repeat split.
  - apply (IH (label + 1)%Z masses radii i); lia.
Qed.

(** ** The default index *)

Lemma labels_combine {R : Type} (ix : list Z) (rows : list R) :
  List.length ix = List.length rows -> labels (combine ix rows) = ix.
Proof.
  unfold labels. revert rows.
  induction ix as [|i ix IH]; intros [|x rows] Hlen; cbn in *; try discriminate; [reflexivity|].
  f_equal. apply IH. congruence.
Qed.

Lemma labels_range_index {R : Type} (rows : list R) :
  labels (range_index rows) = map Z.of_nat (seq 0 (List.length rows)).
Proof.
  unfold range_index. apply labels_combine.
  rewrite length_map, length_seq. reflexivity.
Qed.

Lemma length_range_index {R : Type} (rows : list R) :
  List.length (range_index rows) = List.length rows.
Proof.
  unfold range_index. rewrite length_combine, length_map, length_seq. apply Nat.min_id.
Qed.

(** The constructor hands out the default index and the default attributes. *)
Lemma InitialCMCSingles_default_index (id_idx k m Reff r vr vt binind : list Q)
    (Singles : InitialCMCTable SinglesRow) :
  InitialCMCSingles id_idx k m Reff r vr vt binind = inl Singles ->
  default_index (data Singles) /\ attrs Singles = default_attributes.
Proof.
  unfold InitialCMCSingles.
  destruct (vstack_singles id_idx k m Reff r vr vt binind) as [rows|]; [|discriminate].
  intros [= <-]. cbn [data attrs]. split; [|reflexivity].
  unfold default_index. rewrite labels_range_index, length_range_index. reflexivity.
Qed.

(** On the default index the labels from the row count on are free. *)
Lemma default_index_fresh {R : Type} (df : DataFrame R) (j : Z) :
  default_index df -> (Z.of_nat (List.length df) <= j)%Z -> ~ In j (labels df).
Proof.
  unfold default_index. intros Hperm Hj Hin.
  apply (Permutation_in _ Hperm) in Hin. apply in_map_iff in Hin.
  destruct Hin as (i & <- & Hi). apply in_seq in Hi. lia.
Qed.

Lemma bh_frame_default_labels (n : nat) (ids masses radii : list Q) (v : Q) :
  List.length ids = List.length masses -> List.length masses = List.length radii ->
  labels (bh_frame (Z.of_nat n) ids masses radii v) =
  map Z.of_nat (seq n (List.length masses)).
Proof.
  revert n masses radii.
  induction ids as [|i ids IH]; intros n [|m masses] [|r radii] H1 H2;
    cbn in *; try discriminate; [reflexivity|].
  f_equal. replace (Z.of_nat n + 1)%Z with (Z.of_nat (S n)) by lia.
  apply IH; congruence.
Qed.

(** X3. A call of [AddBlackHoles] that raises nothing keeps the index a default
    index, so the next call finds its labels free again. *)
Theorem AddBlackHoles_default_index (Singles : InitialCMCTable SinglesRow)
    (Binaries : InitialCMCTable BinariesRow) (masses radii : PyArg) :
  default_index (data Singles) ->
  raised (AddBlackHoles Singles Binaries masses radii) = None ->
  default_index (data (Singles' (AddBlackHoles Singles Binaries masses radii))).
Proof.
  intros Hdi. unfold AddBlackHoles.
  destruct (check_masses masses) as [ms|e]; [|discriminate].
  destruct (check_radii radii) as [rs|e]; [|discriminate].
  destruct (Nat.eqb (List.length ms) (List.length rs)) eqn:Hlen; [|discriminate].
  apply Nat.eqb_eq in Hlen. cbn [negb].
  destruct (Np.series_max (col s_id (data Singles))) as [id_max|]; [|discriminate].
  destruct (Np.series_min (col s_vr (data Singles))) as [vr_min|]; [|discriminate].
  destruct (Np.series_min (col s_vt (data Singles))) as [vt_min|]; [|discriminate].
  destruct (mass_of_cluster (attrs Singles)) as [M|]; [|discriminate].
  intros _. cbn [Singles' data].
  set (bh := bh_frame _ _ _ _ _).
  assert (Hlab : labels bh = map Z.of_nat (seq (List.length (data Singles)) (List.length ms))).
  { apply bh_frame_default_labels; [apply length_arange | assumption]. }
  assert (Happ : fold_left loc_set bh (data Singles) = data Singles ++ bh).
  { apply fold_loc_set_fresh.
    - unfold bh. apply bh_frame_labels.
    - intros j Hj. apply default_index_fresh; [assumption|].
      rewrite Hlab in Hj. apply in_map_iff in Hj. destruct Hj as (i & <- & Hi).
      apply in_seq in Hi. lia. }
  rewrite Happ. unfold default_index in *.
  rewrite (Permutation_length (sort_values_by_r_perm _)).
  unfold labels at 1. rewrite (Permutation_map fst (sort_values_by_r_perm _)).
  rewrite map_app, length_app. fold (labels (data Singles)) (labels bh).
  rewrite Hlab, Hdi.
  assert (Hbh_len : List.length bh = List.length ms).
  { unfold bh. apply length_bh_frame; [apply length_arange | assumption]. }
  rewrite Hbh_len, seq_app, map_app. reflexivity.
Qed.

(** [AddBlackHoles] with the default index: the sample cluster. *)
Lemma AddBlackHoles_default_index_witness :
  default_index (data sample_Singles) /\
  default_index
    (data (Singles' (AddBlackHoles sample_Singles sample_Binaries
                       (ListLike [PyNum 10; PyNum 20]) (ListLike [PyNum 0.01; PyNum 0.02])))).
Proof.
  assert (Hdi : default_index (data sample_Singles)) by (unfold default_index; reflexivity).
  split; [exact Hdi|].
  apply (AddBlackHoles_default_index sample_Singles sample_Binaries
           (ListLike [PyNum 10; PyNum 20]) (ListLike [PyNum 0.01; PyNum 0.02]) Hdi).
  reflexivity.
Defined.

(** ** The injection *)

(** The calls that pass the validation of lines 478-505. *)
Lemma check_masses_positive (masses : PyArg) (ms : list Q) :
  check_masses masses = inl ms -> Forall (fun x => 0 < x) ms.
Proof.
  assert (Hpos : forall x, Qle_bool x 0 = false -> 0 < x).
  { intros x Hx. apply Qnot_le_lt. rewrite <- Qle_bool_iff. congruence. }
  destruct masses as [x|items]; cbn.
  - destruct (Qle_bool x 0) eqn:Hx; [discriminate|]. intros [= <-]. auto.
  - destruct (np_array_float items) as [arr|[]]; try discriminate.
    destruct (existsb (fun x => Qle_bool x 0) arr) eqn:Hex; [discriminate|].
    intros [= <-]. apply Forall_forall. intros x Hx. apply Hpos.
    destruct (Qle_bool x 0) eqn:Hle; [|reflexivity].
    assert (existsb (fun x => Qle_bool x 0) arr = true) by (apply existsb_exists; eauto).
    congruence.
Qed.

Lemma np_array_float_numbers (xs : list Q) : np_array_float (map PyNum xs) = inl xs.
Proof. induction xs as [|x xs IH]; cbn; [|rewrite IH]; reflexivity. Qed.

Lemma check_masses_numbers (ms : list Q) :
  Forall (fun x => 0 < x) ms -> check_masses (ListLike (map PyNum ms)) = inl ms.
Proof.
  intros Hpos. cbn. rewrite np_array_float_numbers.
  destruct (existsb (fun x => Qle_bool x 0) ms) eqn:Hex; [|reflexivity].
  apply existsb_exists in Hex. destruct Hex as (x & Hx & Hle).
  rewrite Forall_forall in Hpos. apply Hpos in Hx. apply Qle_bool_iff in Hle.
  exfalso. apply (Qlt_not_le _ _ Hx). assumption.
Qed.

Lemma check_radii_numbers (rs : list Q) :
  Forall (fun x => 0 < x) rs -> check_radii (ListLike (map PyNum rs)) = inl rs.
Proof.
  intros Hpos. cbn. rewrite np_array_float_numbers.
  destruct (existsb (fun x => Qle_bool x 0) rs) eqn:Hex; [|reflexivity].
  apply existsb_exists in Hex. destruct Hex as (x & Hx & Hle).
  rewrite Forall_forall in Hpos. apply Hpos in Hx. apply Qle_bool_iff in Hle.
  exfalso. apply (Qlt_not_le _ _ Hx). assumption.
Qed.

(** The frame [AddBlackHoles] leaves behind once the validation has passed
    on a table with at least one row. *)
Lemma AddBlackHoles_valid (Singles : InitialCMCTable SinglesRow)
    (Binaries : InitialCMCTable BinariesRow) (masses radii : PyArg) (ms rs : list Q) :
  check_masses masses = inl ms -> check_radii radii = inl rs ->
  List.length ms = List.length rs ->
  data Singles <> [] ->
  exists id_max vr_min vt_min,
    Np.series_max (col s_id (data Singles)) = Some id_max /\
    Np.series_min (col s_vr (data Singles)) = Some vr_min /\
    Np.series_min (col s_vt (data Singles)) = Some vt_min /\
    let starting_id :=
      Np.py_max (Np.py_max id_max (Np.series_max (col b_id1 (data Binaries))))
                (Np.series_max (col b_id2 (data Binaries))) + 1 in
    let singles_bh :=
      bh_frame (Z.of_nat (List.length (data Singles)))
               (Np.arange starting_id (List.length ms)) ms rs
               (0.01 * Np.py_min (Qabs vr_min) (Qabs vt_min)) in
    let sorted := sort_values_by_r (fold_left loc_set singles_bh (data Singles)) in
    AddBlackHoles Singles Binaries masses radii =
      match mass_of_cluster (attrs Singles) with
      | None =>
          mkMutation (mkTable sorted (attrs Singles)) Binaries
            (Some (TypeError "unsupported operand type(s) for +=: 'NoneType' and 'float'"))
      | Some M =>
          mkMutation
            (mkTable sorted (set_mass_of_cluster (Some (M + Np.sum ms)) (attrs Singles)))
            Binaries None
      end.
Proof.
  intros Hm Hr Hlen Hne. unfold AddBlackHoles. rewrite Hm, Hr, Hlen, Nat.eqb_refl.
  cbn [negb]. destruct (data Singles) as [|p df] eqn:Hd; [contradiction|].
  cbn [col map Np.series_max Np.series_min]. do 3 eexists.
  repeat split.
Qed.

(** Whatever [AddBlackHoles] does, a sorted table stays sorted. *)
Lemma AddBlackHoles_sorted (Singles : InitialCMCTable SinglesRow)
    (Binaries : InitialCMCTable BinariesRow) (masses radii : PyArg) :
  sorted_by_r Singles -> sorted_by_r (Singles' (AddBlackHoles Singles Binaries masses radii)).
Proof.
  intros Hs. unfold AddBlackHoles.
  destruct (check_masses masses) as [ms|e]; [|assumption].
  destruct (check_radii radii) as [rs|e]; [|assumption].
  destruct (negb (Nat.eqb (List.length ms) (List.length rs))); [assumption|].
  destruct (Np.series_max (col s_id (data Singles))); [|assumption].
  destruct (Np.series_min (col s_vr (data Singles))); [|assumption].
  destruct (Np.series_min (col s_vt (data Singles))); [|assumption].
  destruct (mass_of_cluster (attrs Singles)); apply sort_values_by_r_sorted.
Qed.

(** X1. Whenever [AddBlackHoles] raises a ValueError (a mass or a radius that
    is not positive, masses and radii of different lengths, a Singles table
    with no row), both tables are as they were before the call. *)
Theorem AddBlackHoles_ValueError_untouched (Singles : InitialCMCTable SinglesRow)
    (Binaries : InitialCMCTable BinariesRow) (masses radii : PyArg) (msg : string) :
  raised (AddBlackHoles Singles Binaries masses radii) = Some (ValueError msg) ->
  Singles' (AddBlackHoles Singles Binaries masses radii) = Singles /\
  Binaries' (AddBlackHoles Singles Binaries masses radii) = Binaries.
Proof.
  unfold AddBlackHoles.
  destruct (check_masses masses) as [ms|e]; [|auto].
  destruct (check_radii radii) as [rs|e]; [|auto].
  destruct (negb (Nat.eqb (List.length ms) (List.length rs))); [auto|].
  destruct (Np.series_max (col s_id (data Singles))); [|auto].
  destruct (Np.series_min (col s_vr (data Singles))); [|auto].
  destruct (Np.series_min (col s_vt (data Singles))); [|auto].
  destruct (mass_of_cluster (attrs Singles)); cbn; discriminate.
Qed.

(** [AddBlackHoles] with masses=[-1] raises a ValueError and leaves the
    tables untouched. *)
Lemma AddBlackHoles_ValueError_untouched_witness :
  raised (AddBlackHoles sample_Singles sample_Binaries (ListLike [PyNum (-1)])
            (ListLike [PyNum 1])) = Some (ValueError "Masses must be greater than 0") /\
  Singles' (AddBlackHoles sample_Singles sample_Binaries (ListLike [PyNum (-1)])
              (ListLike [PyNum 1])) = sample_Singles /\
  Binaries' (AddBlackHoles sample_Singles sample_Binaries (ListLike [PyNum (-1)])
               (ListLike [PyNum 1])) = sample_Binaries.
Proof.
  split; [reflexivity|].
  apply (AddBlackHoles_ValueError_untouched sample_Singles sample_Binaries
           (ListLike [PyNum (-1)]) (ListLike [PyNum 1]) "Masses must be greater than 0").
  reflexivity.
Defined.

(** Two clusters on which the call does not end with N+k rows and a grown
    [mass_of_cluster]: one with no star, where [np.arange] raises on a NaN
    id before anything is appended, and one fresh from the constructor, where
    the rows are appended and sorted and the closing [+=] on the unset
    [mass_of_cluster] raises. *)
Lemma AddBlackHoles_cannot_always_append :
  (let out := AddBlackHoles empty_Singles no_Binaries
                (ListLike [PyNum 10; PyNum 20]) (ListLike [PyNum 0.01; PyNum 0.02]) in
   raised out = Some (ValueError "arange: cannot compute length") /\
   List.length (data (Singles' out)) <> (List.length (data empty_Singles) + 2)%nat /\
   mass_of_cluster (attrs (Singles' out)) = mass_of_cluster (attrs empty_Singles)) /\
  (let out := AddBlackHoles fresh_Singles no_Binaries
                (ListLike [PyNum 10; PyNum 20]) (ListLike [PyNum 0.01; PyNum 0.02]) in
   (exists msg, raised out = Some (TypeError msg)) /\
   mass_of_cluster (attrs (Singles' out)) = None).
Proof.
  cbv zeta. split.
  - split; [reflexivity|]. split; [cbn; discriminate | reflexivity].
  - split; [eexists; reflexivity | reflexivity].
Qed.

(** C5 (amended). Let Singles have N >= 1 rows, index labels that do not yet
    hold N, ..., N+k-1 (as with the default index 0..N-1 of the constructor),
    and a recorded [mass_of_cluster]; let the call pass the validation with k
    masses and k radii.  Then [AddBlackHoles] raises nothing and Singles has
    N+k rows: the old rows and k new ones.  The i-th new row has id
    [max_id + 1 + i], where [max_id] is the largest id in Singles.id,
    Binaries.id1 and Binaries.id2, hence an id above every id in use; its
    stellar type is 14, its mass the i-th mass, its Reff 2 * mass * 2.122e-6,
    its r the i-th radius and its binind 0.  [mass_of_cluster] has grown by the
    sum of the masses, and Binaries is as it was. *)
Theorem AddBlackHoles_appends
    (Singles : InitialCMCTable SinglesRow) (Binaries : InitialCMCTable BinariesRow)
    (masses radii : PyArg) (ms rs : list Q) (M : Q) :
  check_masses masses = inl ms ->
  check_radii radii = inl rs ->
  List.length ms = List.length rs ->
  data Singles <> [] ->
  mass_of_cluster (attrs Singles) = Some M ->
  (forall j, (Z.of_nat (List.length (data Singles)) <= j
              < Z.of_nat (List.length (data Singles)) + Z.of_nat (List.length ms))%Z ->
             ~ In j (labels (data Singles))) ->
  let out := AddBlackHoles Singles Binaries masses radii in
  raised out = None /\
  List.length (data (Singles' out)) = (List.length (data Singles) + List.length ms)%nat /\
  mass_of_cluster (attrs (Singles' out)) = Some (M + Np.sum ms) /\
  Binaries' out = Binaries /\
  exists (new_rows : list SinglesRow) (max_id : Q),
    Permutation (values (data (Singles' out))) (values (data Singles) ++ new_rows) /\
    List.length new_rows = List.length ms /\
    In max_id (ids_in_use Singles Binaries) /\
    (forall x, In x (ids_in_use Singles Binaries) -> x <= max_id) /\
    forall i, (i < List.length ms)%nat ->
      exists row m r,
        nth_error new_rows i = Some row /\
        nth_error ms i = Some m /\ nth_error rs i = Some r /\
        s_id row == max_id + 1 + inject_Z (Z.of_nat i) /\
        (forall x, In x (ids_in_use Singles Binaries) -> x < s_id row) /\
        s_k row = 14 /\ s_m row = m /\ s_Reff row = 2 * m * 2.122e-6 /\
        s_r row = r /\ s_binind row = 0.
Proof.
  intros Hm Hr Hlen Hne HM Hfresh out.
  destruct (AddBlackHoles_valid Singles Binaries masses radii ms rs Hm Hr Hlen Hne)
    as (id_max & vr_min & vt_min & Hmax & _ & _ & Hout).
  cbv zeta in Hout. rewrite HM in Hout. subst out. rewrite Hout. clear Hout.
  destruct (starting_id_spec Singles Binaries id_max Hmax) as [Htop_in Htop_max].
  set (top := Np.py_max (Np.py_max id_max (Np.series_max (col b_id1 (data Binaries))))
                        (Np.series_max (col b_id2 (data Binaries)))) in *.
  set (v := 0.01 * Np.py_min (Qabs vr_min) (Qabs vt_min)).
  set (bh := bh_frame (Z.of_nat (List.length (data Singles)))
               (Np.arange (top + 1) (List.length ms)) ms rs v).
  assert (Hbh_len : List.length bh = List.length ms).
  { apply length_bh_frame; [apply length_arange | assumption]. }
  assert (Happ : fold_left loc_set bh (data Singles) = data Singles ++ bh).
  { destruct (bh_frame_labels (Z.of_nat (List.length (data Singles)))
                (Np.arange (top + 1) (List.length ms)) ms rs v) as [Hnd Hrange].
    apply fold_loc_set_fresh; [assumption|].
    intros j Hj. apply Hfresh, Hrange. assumption. }
  rewrite Happ. cbn [raised Singles' Binaries' data attrs mass_of_cluster set_mass_of_cluster].
  split; [reflexivity|]. split.
  { rewrite (Permutation_length (sort_values_by_r_perm _)), length_app, Hbh_len. reflexivity. }
  split; [reflexivity|]. split; [reflexivity|].
  exists (values bh), top. split.
  { unfold values. rewrite <- map_app. apply Permutation_map, sort_values_by_r_perm. }
  split; [unfold values; rewrite length_map; assumption|].
  split; [assumption|]. split; [assumption|].
  intros i Hi.
  destruct (bh_frame_nth (Z.of_nat (List.length (data Singles)))
              (Np.arange (top + 1) (List.length ms)) ms rs v i
              (length_arange _ _) Hlen Hi) as (id & m & r & Hid & Hmi & Hri & Hrow).
  destruct (arange_nth (top + 1) (List.length ms) i Hi) as (id' & Hid' & Heq).
  rewrite Hid in Hid'. injection Hid' as <-.
  exists (black_hole id m r v), m, r. fold bh in Hrow.
  repeat split; try assumption.
  intros x Hx. cbn [black_hole s_id]. rewrite Heq.
  apply Qle_lt_trans with top; [auto|].
  assert (0 <= inject_Z (Z.of_nat i)).
  { unfold Qle. cbn. lia. }
  lra.
Qed.

(** Two black holes of masses 10 and 20 added to the sample cluster. *)
Lemma AddBlackHoles_appends_witness :
  let out := AddBlackHoles sample_Singles sample_Binaries
               (ListLike [PyNum 10; PyNum 20]) (ListLike [PyNum 0.01; PyNum 0.02]) in
  raised out = None /\
  List.length (data (Singles' out)) = (List.length (data sample_Singles) + 2)%nat /\
  mass_of_cluster (attrs (Singles' out)) = Some (2 + Np.sum [10; 20]).
Proof.
  cbv zeta.
  destruct (AddBlackHoles_appends sample_Singles sample_Binaries
              (ListLike [PyNum 10; PyNum 20]) (ListLike [PyNum 0.01; PyNum 0.02])
              [10; 20] [0.01; 0.02] 2)
    as (H1 & H2 & H3 & _).
  - reflexivity.
  - reflexivity.
  - reflexivity.
  - discriminate.
  - reflexivity.
  - cbn. intros j Hj [H|[H|[]]]; lia.
  - auto.
Defined.

(** ** What the validation raises *)

Lemma AddBlackHoles_nonpositive_mass (Singles : InitialCMCTable SinglesRow)
    (Binaries : InitialCMCTable BinariesRow) (ms : list Q) (radii : PyArg) :
  Exists (fun x => x <= 0) ms ->
  AddBlackHoles Singles Binaries (ListLike (map PyNum ms)) radii =
    mkMutation Singles Binaries (Some (ValueError "Masses must be greater than 0")).
Proof.
  intros Hex. unfold AddBlackHoles, check_masses. rewrite np_array_float_numbers.
  assert (Hb : existsb (fun x => Qle_bool x 0) ms = true).
  { apply Exists_exists in Hex. destruct Hex as (x & Hx & Hle).
    apply existsb_exists. exists x. split; [assumption|]. apply Qle_bool_iff. assumption. }
  rewrite Hb. reflexivity.
Qed.

Lemma AddBlackHoles_nonpositive_radius (Singles : InitialCMCTable SinglesRow)
    (Binaries : InitialCMCTable BinariesRow) (masses : PyArg) (ms rs : list Q) :
  check_masses masses = inl ms ->
  Exists (fun x => x <= 0) rs ->
  AddBlackHoles Singles Binaries masses (ListLike (map PyNum rs)) =
    mkMutation Singles Binaries (Some (ValueError "Radii must be greater than 0")).
Proof.
  intros Hm Hex. unfold AddBlackHoles. rewrite Hm. unfold check_radii.
  rewrite np_array_float_numbers.
  assert (Hb : existsb (fun x => Qle_bool x 0) rs = true).
  { apply Exists_exists in Hex. destruct Hex as (x & Hx & Hle).
    apply existsb_exists. exists x. split; [assumption|]. apply Qle_bool_iff. assumption. }
  rewrite Hb. reflexivity.
Qed.

Lemma AddBlackHoles_length_mismatch (Singles : InitialCMCTable SinglesRow)
    (Binaries : InitialCMCTable BinariesRow) (masses radii : PyArg) (ms rs : list Q) :
  check_masses masses = inl ms -> check_radii radii = inl rs ->
  List.length ms <> List.length rs ->
  AddBlackHoles Singles Binaries masses radii =
    mkMutation Singles Binaries
      (Some (ValueError "masses and radii must be the same length")).
Proof.
  intros Hm Hr Hlen. unfold AddBlackHoles. rewrite Hm, Hr.
  apply Nat.eqb_neq in Hlen. rewrite Hlen. reflexivity.
Qed.

(** C6 (a defect of the code). A list of masses that holds the
    string abc makes [np.array] raise a ValueError; the handler of line 486
    waits for an AttributeError, so the ValueError leaves [AddBlackHoles] as
    it is, and no TypeError is raised.  Both tables are untouched. *)
Theorem AddBlackHoles_string_mass :
  let out := AddBlackHoles sample_Singles sample_Binaries
               (ListLike [PyStr "abc"]) (ListLike [PyNum 1]) in
  raised out = Some (ValueError "could not convert string to float: abc") /\
  (forall e, raised out = Some e -> is_TypeError e = false) /\
  Singles' out = sample_Singles /\ Binaries' out = sample_Binaries.
Proof.
  cbv zeta. split; [reflexivity|]. split; [|split; reflexivity].
  intros e. cbn. intros [= <-]. reflexivity.
Qed.

(** C9 (a defect of the code). On a cluster whose radial
    velocities are -5 and 1 and whose tangential velocities are 2 and 3, the
    smallest absolute velocity present is 1, and yet the injected black hole
    gets vr = vt = 0.02: the code takes the absolute value of each column's
    minimum, min(|-5|, |2|) = 2, and not the minimum of the absolute values. *)
Theorem AddBlackHoles_velocity_of_infalling_cluster :
  let out := AddBlackHoles infalling_Singles no_Binaries (Scalar 10) (Scalar 0.01) in
  raised out = None /\
  min_abs_velocity infalling_Singles = Some 1 /\
  exists bh : SinglesRow,
    In bh (values (data (Singles' out))) /\ s_k bh = 14 /\
    s_vr bh == 0.02 /\ s_vt bh == 0.02 /\ ~ s_vr bh == 0.01 * 1.
Proof.
  cbv zeta. split; [reflexivity|]. split; [reflexivity|].
  eexists. split; [left; reflexivity|].
  split; [reflexivity|]. repeat split; try reflexivity.
  cbn. unfold Qeq. cbn. lia.
Qed.

(** When a column's minimum is zero the injected velocities are zero. *)
Lemma AddBlackHoles_zero_velocity :
  let Singles := mkTable [ (0%Z, mkSingle 1 1 1 1 1 0 2 0) ] sampled_attributes in
  let out := AddBlackHoles Singles no_Binaries (Scalar 10) (Scalar 0.01) in
  raised out = None /\
  exists bh : SinglesRow,
    In bh (values (data (Singles' out))) /\ s_k bh = 14 /\ s_vr bh == 0 /\ s_vt bh == 0.
Proof.
  cbv zeta. split; [reflexivity|].
  eexists. split; [left; reflexivity|]. repeat split; reflexivity.
Qed.

(** ** Sortedness under the two mutations *)

(** Two stars on radii 2e100 and 3e100: sorted with positive masses and
    radii, and in descending order of r after the scaling. *)
Lemma far_cluster_is_reversed :
  sorted_by_r far_Singles /\
  Forall (fun x => 0 < x) (col s_m (data far_Singles)) /\
  Forall (fun x => 0 < x) (col s_r (data far_Singles)) /\
  ~ sorted_by_r (Singles' (@ScaleToNBodyUnits rational_sqrt far_Singles no_Binaries (Some 1) 0 false)).
Proof.
  split; [|split; [|split]].
  - unfold sorted_by_r, ascending. cbn [col data far_Singles map snd s_r].
    repeat (constructor; try qle).
  - cbn [col data far_Singles map snd s_m]. repeat (constructor; try qlt).
  - cbn [col data far_Singles map snd s_r]. repeat (constructor; try qlt).
  - unfold sorted_by_r, ascending. intros Hs.
    assert (Hcol : exists x y,
               col s_r (data (Singles' (@ScaleToNBodyUnits rational_sqrt far_Singles
                                           no_Binaries (Some 1) 0 false))) = [x; y] /\
               Qle_bool x y = false).
    { do 2 eexists. split; [vm_compute; reflexivity|]. vm_compute. reflexivity. }
    destruct Hcol as (x & y & Hcol & Hxy). rewrite Hcol in Hs.
    inversion Hs as [|? ? _ Hhd]; subst. inversion Hhd as [|? ? Hle]; subst.
    apply Qle_bool_iff in Hle. congruence.
Qed.

(** C4 (amended). [ScaleToNBodyUnits] keeps Singles sorted ascending by r
    when the masses are positive, the radii positive and below the outer
    boundary 1e100 of the potential sum, and the central black-hole mass not
    negative; this holds in every outcome of the call.  [AddBlackHoles] takes a
    sorted Singles to a sorted Singles on every call. *)
Theorem mutations_keep_sorted_by_r `{NumpySqrt} :
  (forall (Singles : InitialCMCTable SinglesRow) (Binaries : InitialCMCTable BinariesRow)
          (virial_radius : option Q) (central_bh_arg : Q) (scale_with_central_bh : bool),
     sorted_by_r Singles ->
     Forall (fun x => 0 < x) (col s_m (data Singles)) ->
     Forall (fun x => 0 < x /\ x < outer_radius) (col s_r (data Singles)) ->
     0 <= central_bh (attrs Singles) ->
     sorted_by_r (Singles' (ScaleToNBodyUnits Singles Binaries virial_radius central_bh_arg
                              scale_with_central_bh))) /\
  (forall (Singles : InitialCMCTable SinglesRow) (Binaries : InitialCMCTable BinariesRow)
          (masses radii : PyArg),
     sorted_by_r Singles ->
     sorted_by_r (Singles' (AddBlackHoles Singles Binaries masses radii))).
Proof.
  split; [|exact AddBlackHoles_sorted].
  intros Singles Binaries rvir bh flag Hs Hm Hr Hbh.
  destruct (scaled_singles_rows Singles Binaries rvir bh flag) as (g & Hd & _ & _ & _ & _ & Hgr & _).
  unfold sorted_by_r. rewrite Hd, col_on_rows.
  assert (Hcol : col (fun x => s_r (g x)) (data Singles) =
                 map (fun x => x * rfac_of Singles flag) (col s_r (data Singles))).
  { unfold col. rewrite map_map. apply map_ext. intros p. apply Hgr. }
  rewrite Hcol. destruct (data Singles) as [|p df] eqn:Hdata; [constructor|].
  rewrite <- Hdata in *. apply ascending_scaled; [|exact Hs].
  apply Qlt_le_weak, rfac_positive; try assumption. rewrite Hdata. discriminate.
Qed.

(** The sample cluster, scaled, and with two black holes added. *)
Lemma mutations_keep_sorted_by_r_witness :
  sorted_by_r (Singles' (@ScaleToNBodyUnits rational_sqrt sample_Singles sample_Binaries
                           (Some 1) 0 false)) /\
  sorted_by_r (Singles' (AddBlackHoles sample_Singles sample_Binaries
                           (ListLike [PyNum 10; PyNum 20]) (ListLike [PyNum 3; PyNum 0.02]))).
Proof.
  assert (Hs : sorted_by_r sample_Singles).
  { unfold sorted_by_r, ascending. cbn [col data sample_Singles two_stars map snd s_r].
    repeat (constructor; try qle). }
  split.
  - apply (proj1 (@mutations_keep_sorted_by_r rational_sqrt)).
    + exact Hs.
    + cbn [col data sample_Singles two_stars map snd s_m]. repeat (constructor; try qlt).
    + cbn [col data sample_Singles two_stars map snd s_r].
      repeat (constructor; try (split; qlt)).
    + qle.
  - apply (proj2 (@mutations_keep_sorted_by_r rational_sqrt)). exact Hs.
Defined.

(** * The serializer and the deserializer *)

(** ** The layout on disk *)

Lemma iloc_last_snoc {R : Type} (f : R -> R) (df : DataFrame R) (p : Z * R) :
  iloc_last f (df ++ [p]) = df ++ [(fst p, f (snd p))].
Proof.
  induction df as [|q df IH]; [reflexivity|].
  cbn [app iloc_last]. rewrite IH.
  destruct df; reflexivity.
Qed.

Lemma singles_block_rows (Singles : InitialCMCTable SinglesRow) :
  values (singles_block Singles) =
  inner_sentinel (central_bh (attrs Singles)) :: values (data Singles) ++ [outer_sentinel].
Proof.
  unfold singles_block.
  replace (([(0%Z, zero_single)] ++ data Singles) ++ [(0%Z, zero_single)])
    with (((0%Z, zero_single) :: data Singles) ++ [(0%Z, zero_single)]) by reflexivity.
  rewrite iloc_last_snoc. cbn [app iloc_first fst snd].
  unfold values. cbn [map snd]. rewrite map_app. reflexivity.
Qed.

Lemma binaries_block_rows (Binaries : InitialCMCTable BinariesRow) :
  values (binaries_block Binaries) = zero_binary :: values (data Binaries).
Proof. reflexivity. Qed.

Lemma encode_rows format singles binaries mclus rvir rtid z :
  let f := encode format singles binaries mclus rvir rtid z in
  disk_singles f = values singles /\
  disk_binaries f = values binaries /\
  NOBJ (disk_header f) = (Z.of_nat (List.length (values singles)) - 2)%Z /\
  NBINARY (disk_header f) = (Z.of_nat (List.length (values binaries)) - 1)%Z /\
  MCLUS (disk_header f) = mclus /\ RVIR (disk_header f) = rvir /\
  RTID (disk_header f) = rtid /\ Zmet (disk_header f) = z /\
  EXTNAME (disk_header f) = "CLUS_OBJ_DATA".
Proof.
  destruct format; cbn; unfold values; rewrite ?length_map; repeat split.
Qed.

Lemma store_same fs filename f : store fs filename f filename = Some f.
Proof. unfold store. rewrite String.eqb_refl. reflexivity. Qed.

(** A [write] that raises nothing went through the encoder. *)
Lemma write_success `{NumpySqrt} Singles Binaries fs filename kwargs :
  let out := write Singles Binaries fs filename kwargs in
  w_raised out = None ->
  exists format z,
    write_format filename = inl format /\
    metallicity (attrs (w_Singles out)) = Some z /\
    w_files out =
      store fs filename
        (encode format (singles_block (w_Singles out)) (binaries_block (w_Binaries out))
           (mass_of_cluster (attrs (w_Singles out)))
           (pop_opt (kw_virial_radius kwargs) (virial_radius (attrs Singles)))
           (pop_opt (kw_tidal_radius kwargs) (tidal_radius (attrs Singles)))
           (pop_opt (kw_metallicity kwargs) (metallicity (attrs Singles)))).
Proof.
  unfold write. destruct (write_format filename) as [format|e]; [|discriminate].
  cbv zeta.
  set (scaled := scale_before_write _ _ _ _ _).
  destruct (raised scaled); [discriminate|].
  destruct (metallicity (attrs (Singles' scaled))) as [z|] eqn:Hz; [|discriminate].
  intros _. exists format, z. cbn. auto.
Qed.

(** The tables [write] leaves behind are those its scaling step leaves. *)
Lemma write_tables `{NumpySqrt} Singles Binaries fs filename kwargs format :
  write_format filename = inl format ->
  let scaled :=
    scale_before_write Singles Binaries
      (pop_opt (kw_virial_radius kwargs) (virial_radius (attrs Singles)))
      (pop (kw_central_bh kwargs) (central_bh (attrs Singles)))
      (pop (kw_scale_with_central_bh kwargs) (scale_with_central_bh (attrs Singles))) in
  w_Singles (write Singles Binaries fs filename kwargs) = Singles' scaled /\
  w_Binaries (write Singles Binaries fs filename kwargs) = Binaries' scaled.
Proof.
  intros Hfmt. unfold write. rewrite Hfmt. cbv zeta.
  set (scaled := scale_before_write _ _ _ _ _).
  destruct (raised scaled); [split; reflexivity|].
  destruct (metallicity (attrs (Singles' scaled))); split; reflexivity.
Qed.

(** Whatever [write] raises, it raises before it reaches the encoder. *)
Lemma write_raise_no_file `{NumpySqrt} Singles Binaries fs filename kwargs e :
  w_raised (write Singles Binaries fs filename kwargs) = Some e ->
  w_files (write Singles Binaries fs filename kwargs) = fs.
Proof.
  unfold write. destruct (write_format filename) as [format|e']; [|reflexivity].
  cbv zeta.
  set (scaled := scale_before_write _ _ _ _ _).
  destruct (raised scaled); [reflexivity|].
  destruct (metallicity (attrs (Singles' scaled))); [discriminate|reflexivity].
Qed.

Lemma scale_before_write_attrs `{NumpySqrt} Singles Binaries rvir bh flag :
  let out := scale_before_write Singles Binaries rvir bh flag in
  metallicity (attrs (Singles' out)) = metallicity (attrs Singles) /\
  central_bh (attrs (Singles' out)) =
    (if scaled_to_nbody_units (attrs Singles) then central_bh (attrs Singles)
     else central_bh (attrs Singles) / Np.py_sum (col s_m (data Singles))) /\
  (scaled_to_nbody_units (attrs Singles) = true ->
   Singles' out = Singles /\ Binaries' out = Binaries).
Proof.
  unfold scale_before_write.
  destruct (scaled_to_nbody_units (attrs Singles)) eqn:Hs,
           (mass_of_cluster (attrs Singles)) eqn:Hm; cbv zeta.
  - cbn. auto.
  - cbn. auto.
  - destruct (ScaleToNBodyUnits_attrs Singles Binaries rvir bh flag) as (Hz & _ & Hbh & _).
    repeat split; try discriminate; assumption.
  - set (S0 := with_attrs Singles _).
    destruct (ScaleToNBodyUnits_attrs S0 Binaries rvir bh flag) as (Hz & _ & Hbh & _).
    repeat split; try discriminate; assumption.
Qed.

(** The rows a call of the engine that raises nothing leaves, from the rows
    it was handed. *)
Lemma ScaleToNBodyUnits_rows `{NumpySqrt} Singles Binaries (rvir : Q) bh flag :
  ~ rvir == 0 ->
  let out := ScaleToNBodyUnits Singles Binaries (Some rvir) bh flag in
  let M := Np.py_sum (col s_m (data Singles)) in
  data (Singles' out) =
    on_rows (scaled_single M (rfac_of Singles flag) (vfac_of Singles) (PARSEC_PER_RSUN / rvir))
            (data Singles) /\
  data (Binaries' out) = on_rows (scaled_binary M (PARSEC_PER_RSUN / rvir)) (data Binaries).
Proof.
  intros Hv out M. subst out.
  assert (Hq : Qeq_bool rvir 0 = false).
  { destruct (Qeq_bool rvir 0) eqn:Hb; [|reflexivity]. apply Qeq_bool_iff in Hb. contradiction. }
  unfold ScaleToNBodyUnits. rewrite Hq.
  cbn [Singles' Binaries' data normalize_masses]. fold M.
  unfold on_rows. rewrite !map_map. split; apply map_ext; intros [i x]; destruct x; reflexivity.
Qed.

(** The tables a [write] that raises nothing leaves, from the tables it was
    handed: as they were when the cluster came scaled, in N-body units
    otherwise. *)
Lemma write_rows `{NumpySqrt} Singles Binaries fs filename kwargs :
  let out := write Singles Binaries fs filename kwargs in
  let M := Np.py_sum (col s_m (data Singles)) in
  let flag := pop (kw_scale_with_central_bh kwargs) (scale_with_central_bh (attrs Singles)) in
  w_raised out = None ->
  if scaled_to_nbody_units (attrs Singles)
  then w_Singles out = Singles /\ w_Binaries out = Binaries
  else exists v,
         pop_opt (kw_virial_radius kwargs) (virial_radius (attrs Singles)) = Some v /\
         ~ v == 0 /\
         data (w_Singles out) =
           on_rows (scaled_single M (rfac_of Singles flag) (vfac_of Singles)
                                  (PARSEC_PER_RSUN / v)) (data Singles) /\
         data (w_Binaries out) =
           on_rows (scaled_binary M (PARSEC_PER_RSUN / v)) (data Binaries).
Proof.
  intros out M flag Hok.
  destruct (write_success Singles Binaries fs filename kwargs Hok)
    as (format & z & Hfmt & _ & _).
  destruct (write_tables Singles Binaries fs filename kwargs format Hfmt) as [HS HB].
  fold out flag in HS, HB.
  set (rvir := pop_opt (kw_virial_radius kwargs) (virial_radius (attrs Singles))) in *.
  set (bh := pop (kw_central_bh kwargs) (central_bh (attrs Singles))) in *.
  assert (Hraised : raised (scale_before_write Singles Binaries rvir bh flag) = None).
  { revert Hok. subst out. unfold write. rewrite Hfmt. cbv zeta. fold rvir bh flag.
    destruct (raised (scale_before_write _ _ _ _ _)); [discriminate | reflexivity]. }
  destruct (scaled_to_nbody_units (attrs Singles)) eqn:Hs.
  - destruct (scale_before_write_attrs Singles Binaries rvir bh flag) as (_ & _ & Hsame).
    destruct (Hsame Hs) as [H1 H2]. rewrite HS, HB. split; assumption.
  - rewrite HS, HB. revert Hraised. unfold scale_before_write. rewrite Hs.
    destruct (mass_of_cluster (attrs Singles)) as [M0|]; cbv zeta.
    + destruct rvir as [v|]; [|unfold ScaleToNBodyUnits; discriminate].
      destruct (Qeq_bool v 0) eqn:Hq;
        [unfold ScaleToNBodyUnits; rewrite Hq; discriminate|].
      apply Qeq_bool_neq in Hq. intros _. exists v. split; [reflexivity|]. split; [assumption|].
      apply (ScaleToNBodyUnits_rows Singles Binaries v bh flag Hq).
    + destruct rvir as [v|]; [|unfold ScaleToNBodyUnits; discriminate].
      destruct (Qeq_bool v 0) eqn:Hq;
        [unfold ScaleToNBodyUnits; rewrite Hq; discriminate|].
      apply Qeq_bool_neq in Hq. intros _. exists v. split; [reflexivity|]. split; [assumption|].
      apply (ScaleToNBodyUnits_rows
               (with_attrs Singles
                  (set_mass_of_cluster (Some (Np.sum (col s_m (data Singles)) + bh))
                     (attrs Singles)))
               Binaries v bh flag Hq).
Qed.

Lemma values_on_rows {R : Type} (g : R -> R) (df : DataFrame R) :
  values (on_rows g df) = map g (values df).
Proof. unfold values, on_rows. rewrite !map_map. reflexivity. Qed.

(** The radius of the inner sentinel, as a decimal, is nearer to 2^-1022, the
    smallest positive normal double, than to any other double (they are
    2^-1074 apart there); the smallest positive double, 2^-1074, lies below
    it. *)
Lemma tiny_radius_is_the_smallest_normal_double :
  Qabs (tiny_radius - (1 # 2 ^ 1022)) < (1 # 2 ^ 1075) /\ (1 # 2 ^ 1074) < tiny_radius.
Proof. split; qlt. Qed.




(** ** Writing without a metallicity *)

(** A not yet scaled cluster without metallicity: [write] raises, and has
    rescaled the masses by then. *)
Lemma write_without_metallicity_rescales :
  metallicity (attrs no_metallicity_Singles) = None /\
  ~ (let out := @write rational_sqrt no_metallicity_Singles sample_Binaries no_files
                  "input.hdf5" no_kwargs in
     (exists e, w_raised out = Some e) /\ w_files out = no_files /\
     w_Singles out = no_metallicity_Singles /\ w_Binaries out = sample_Binaries).
Proof.
  split; [reflexivity|].
  intros (_ & _ & HS & _).
  apply (f_equal (fun t => map (fun x => Qeq_bool x 1) (col s_m (data t)))) in HS.
  vm_compute in HS. discriminate.
Qed.

(** C7 (amended). A [write] on a Singles table whose metallicity is unset
    raises and stores no file.  When the table was already scaled, both
    tables are left exactly as they were. *)
Theorem write_without_metallicity `{NumpySqrt}
    (Singles : InitialCMCTable SinglesRow) (Binaries : InitialCMCTable BinariesRow)
    (fs : FileSystem) (filename : string) (kwargs : Kwargs) :
  metallicity (attrs Singles) = None ->
  let out := write Singles Binaries fs filename kwargs in
  (exists e, w_raised out = Some e) /\
  w_files out = fs /\
  (scaled_to_nbody_units (attrs Singles) = true ->
   w_Singles out = Singles /\ w_Binaries out = Binaries).
Proof.
  intros Hz out.
  assert (Hraise : exists e, w_raised out = Some e).
  { subst out. unfold write. destruct (write_format filename) as [format|e]; [|cbn; eauto].
    cbv zeta. set (scaled := scale_before_write _ _ _ _ _).
    destruct (raised scaled); [cbn; eauto|].
    assert (Hm : metallicity (attrs (Singles' scaled)) = None).
    { subst scaled. rewrite <- Hz. apply scale_before_write_attrs. }
    rewrite Hm. cbn. eauto. }
  split; [assumption|]. destruct Hraise as [e He].
  split; [exact (write_raise_no_file _ _ _ _ _ _ He)|].
  intros Hscaled. subst out.
  destruct (write_format filename) as [format|e'] eqn:Hfmt.
  - destruct (write_tables Singles Binaries fs filename kwargs format Hfmt) as [-> ->].
    apply scale_before_write_attrs. assumption.
  - unfold write. rewrite Hfmt. split; reflexivity.
Qed.

(** An already scaled cluster without metallicity, written to input.fits. *)
Lemma write_without_metallicity_witness :
  metallicity (attrs scaled_no_metallicity_Singles) = None /\
  let out := @write rational_sqrt scaled_no_metallicity_Singles sample_Binaries no_files
               "input.fits" no_kwargs in
  (exists e, w_raised out = Some e) /\
  w_files out = no_files /\
  (scaled_to_nbody_units (attrs scaled_no_metallicity_Singles) = true ->
   w_Singles out = scaled_no_metallicity_Singles /\ w_Binaries out = sample_Binaries).
Proof.
  split; [reflexivity|].
  apply (@write_without_metallicity rational_sqrt scaled_no_metallicity_Singles
           sample_Binaries no_files "input.fits" no_kwargs).
  reflexivity.
Defined.

(** ** Choice of the file kind *)

Lemma read_format_write_format (filename : string) :
  read_format filename = write_format filename.
Proof. reflexivity. Qed.

(** X2. A file name that holds none of .hdf5, .h5 and .fits makes [write] and
    [read] raise the same extension error; [write] then leaves the tables and
    the files as they were. *)
Theorem unrecognized_extension `{NumpySqrt}
    (Singles : InitialCMCTable SinglesRow) (Binaries : InitialCMCTable BinariesRow)
    (fs : FileSystem) (filename : string) (kwargs : Kwargs) :
  str_in ".hdf5" filename = false -> str_in ".h5" filename = false ->
  str_in ".fits" filename = false ->
  write Singles Binaries fs filename kwargs =
    mkWritten Singles Binaries fs (Some extension_error) /\
  read fs filename = inr extension_error.
Proof.
  intros H5 Hh5 Hfits. unfold write, read, write_format, read_format.
  rewrite H5, Hh5, Hfits. split; reflexivity.
Qed.

(** The file name input.csv. *)
Lemma unrecognized_extension_witness :
  @write rational_sqrt sample_Singles sample_Binaries no_files "input.csv" no_kwargs =
    mkWritten sample_Singles sample_Binaries no_files (Some extension_error) /\
  read no_files "input.csv" = inr extension_error.
Proof.
  apply (@unrecognized_extension rational_sqrt sample_Singles sample_Binaries no_files
           "input.csv" no_kwargs); reflexivity.
Defined.

(** C8 (a defect of the code). The file name table.h5.csv ends in
    .csv, and yet both [write] and [read] take it for an HDF5 file, because
    the name holds .h5 somewhere: [write] raises nothing and stores an HDF5
    file under that name. *)
Theorem write_accepts_h5_inside_name :
  write_format "table.h5.csv" = inl savehdf5 /\
  read_format "table.h5.csv" = inl savehdf5 /\
  let out := @write rational_sqrt sample_Singles sample_Binaries no_files
               "table.h5.csv" no_kwargs in
  w_raised out = None /\
  exists singles binaries header,
    w_files out "table.h5.csv" = Some (HDF5File singles binaries header).
Proof.
  split; [reflexivity|]. split; [reflexivity|].
  cbv zeta. split.
  - vm_compute. reflexivity.
  - destruct (@write_success rational_sqrt sample_Singles sample_Binaries no_files
                "table.h5.csv" no_kwargs) as (format & z & Hfmt & _ & Hfiles).
    + vm_compute. reflexivity.
    + rewrite Hfiles, store_same.
      assert (format = savehdf5) as -> by (cbv in Hfmt; congruence).
      cbn [encode]. eauto.
Qed.

(** ** Reading back what was written *)

Lemma values_combine {R : Type} (ix : list Z) (rows : list R) :
  List.length ix = List.length rows -> values (combine ix rows) = rows.
Proof.
  unfold values. revert rows.
  induction ix as [|i ix IH]; intros [|x rows] Hlen; try discriminate; [reflexivity|].
  cbn. f_equal. apply IH. cbn in Hlen. congruence.
Qed.

Lemma values_range_index {R : Type} (rows : list R) :
  values (range_index rows) = rows.
Proof.
  unfold range_index. apply values_combine.
  rewrite length_map, length_seq. reflexivity.
Qed.

Lemma read_of_encoded fs filename format singles binaries mclus rvir rtid z :
  read_format filename = inl format ->
  let f := encode format singles binaries mclus rvir rtid z in
  exists r, read (store fs filename f) filename = inl r /\
    read_singles r = values singles /\
    read_binaries r = values binaries /\
    (read_attributes r = None \/ read_attributes r = Some default_attributes).
Proof.
  intros Hfmt f. subst f. unfold read. rewrite Hfmt, store_same.
  destruct format; cbn [encode].
  - eexists. split; [reflexivity|]. cbn. auto.
  - eexists. split; [reflexivity|]. cbn [read_singles read_binaries read_attributes data attrs].
    rewrite !values_range_index. auto.
Qed.

(** The sample cluster written to input.fits and read back: Z = 0.02 is in
    the header on disk, and the table [read] returns has no metallicity. *)
Lemma read_forgets_the_header :
  let out := @write rational_sqrt sample_Singles sample_Binaries no_files "input.fits" no_kwargs in
  w_raised out = None /\
  exists f singles binaries,
    w_files out "input.fits" = Some f /\
    read (w_files out) "input.fits" = inl (CMCTables singles binaries) /\
    Zmet (disk_header f) = Some 0.02 /\
    metallicity (attrs singles) = None /\
    metallicity (attrs singles) <> Zmet (disk_header f) /\
    mass_of_cluster (attrs singles) <> MCLUS (disk_header f) /\
    metallicity (attrs singles) <> metallicity (attrs (w_Singles out)).
Proof.
  cbv zeta. split; [vm_compute; reflexivity|].
  destruct (@write_success rational_sqrt sample_Singles sample_Binaries no_files
              "input.fits" no_kwargs) as (format & z & Hfmt & Hz & Hfiles);
    [vm_compute; reflexivity|].
  assert (format = savefits) as -> by (cbv in Hfmt; congruence).
  rewrite Hfiles. unfold read. rewrite store_same. cbn [read_format encode].
  replace (read_format "input.fits") with (@inl Format PyExn savefits) by reflexivity.
  cbn [encode]. do 3 eexists. split; [reflexivity|]. split; [reflexivity|].
  cbn [disk_header Zmet MCLUS attrs metallicity mass_of_cluster default_attributes pop_opt
       kw_metallicity no_kwargs sample_Singles sampled_attributes].
  split; [reflexivity|]. split; [reflexivity|]. split; [discriminate|].
  split.
  - destruct (@write_tables rational_sqrt sample_Singles sample_Binaries no_files
                "input.fits" no_kwargs savefits eq_refl) as [-> _].
    vm_compute. discriminate.
  - rewrite Hz. discriminate.
Qed.

(** C2 (amended). Let a cluster that is still to be scaled have a total
    stellar mass other than zero.  After a [write] that raises nothing, [read]
    of the same file name succeeds, for both kinds of file, and returns the two
    blocks as they are on disk, sentinel rows included.  The Singles rows
    between the two sentinels are the rows of the Singles table handed to
    [write], as they were when the table came scaled and each converted to
    N-body units by [ScaleToNBodyUnits] otherwise; the Binaries rows behind
    the one sentinel are those of the Binaries table handed in, converted
    likewise; so the row counts are those of the tables handed in plus 2 and
    plus 1.  These are also the rows of the tables as [write] left them.  The
    header attributes stay in the file: [read] returns plain frames (HDF5) or
    tables with the default attributes (FITS). *)
Theorem read_after_write `{NumpySqrt}
    (Singles : InitialCMCTable SinglesRow) (Binaries : InitialCMCTable BinariesRow)
    (fs : FileSystem) (filename : string) (kwargs : Kwargs) :
  let out := write Singles Binaries fs filename kwargs in
  let M := Np.py_sum (col s_m (data Singles)) in
  let flag := pop (kw_scale_with_central_bh kwargs) (scale_with_central_bh (attrs Singles)) in
  (scaled_to_nbody_units (attrs Singles) = false -> ~ M == 0) ->
  w_raised out = None ->
  exists (f : StoredFile) (r : ReadResult)
         (singles : list SinglesRow) (binaries : list BinariesRow),
    w_files out filename = Some f /\
    read (w_files out) filename = inl r /\
    read_singles r = disk_singles f /\
    read_binaries r = disk_binaries f /\
    read_singles r =
      inner_sentinel (central_bh (attrs (w_Singles out))) :: singles ++ [outer_sentinel] /\
    read_binaries r = zero_binary :: binaries /\
    (if scaled_to_nbody_units (attrs Singles)
     then singles = values (data Singles) /\ binaries = values (data Binaries)
     else exists v,
            pop_opt (kw_virial_radius kwargs) (virial_radius (attrs Singles)) = Some v /\
            ~ v == 0 /\
            singles = map (scaled_single M (rfac_of Singles flag) (vfac_of Singles)
                                         (PARSEC_PER_RSUN / v)) (values (data Singles)) /\
            binaries = map (scaled_binary M (PARSEC_PER_RSUN / v)) (values (data Binaries))) /\
    singles = values (data (w_Singles out)) /\
    binaries = values (data (w_Binaries out)) /\
    List.length (read_singles r) = (List.length (data Singles) + 2)%nat /\
    List.length (read_binaries r) = (List.length (data Binaries) + 1)%nat /\
    List.length (read_singles r) = (List.length (data (w_Singles out)) + 2)%nat /\
    List.length (read_binaries r) = (List.length (data (w_Binaries out)) + 1)%nat /\
    (read_attributes r = None \/ read_attributes r = Some default_attributes).
Proof.
  intros out M flag _ Hok.
  destruct (write_success Singles Binaries fs filename kwargs Hok)
    as (format & z & Hfmt & Hz & Hfiles).
  fold out in Hz, Hfiles.
  rewrite <- read_format_write_format in Hfmt.
  set (f := encode _ _ _ _ _ _ _) in Hfiles.
  destruct (read_of_encoded fs filename format (singles_block (w_Singles out))
              (binaries_block (w_Binaries out))
              (mass_of_cluster (attrs (w_Singles out)))
              (pop_opt (kw_virial_radius kwargs) (virial_radius (attrs Singles)))
              (pop_opt (kw_tidal_radius kwargs) (tidal_radius (attrs Singles)))
              (pop_opt (kw_metallicity kwargs) (metallicity (attrs Singles))) Hfmt)
    as (r & Hread & Hrs & Hrb & Hattrs).
  destruct (encode_rows format (singles_block (w_Singles out))
              (binaries_block (w_Binaries out))
              (mass_of_cluster (attrs (w_Singles out)))
              (pop_opt (kw_virial_radius kwargs) (virial_radius (attrs Singles)))
              (pop_opt (kw_tidal_radius kwargs) (tidal_radius (attrs Singles)))
              (pop_opt (kw_metallicity kwargs) (metallicity (attrs Singles))))
    as (Hs & Hb & _).
  fold f in Hread, Hs, Hb.
  pose proof (write_rows Singles Binaries fs filename kwargs Hok) as Hrows.
  fold out M flag in Hrows.
  assert (Hlen : List.length (data (w_Singles out)) = List.length (data Singles) /\
                 List.length (data (w_Binaries out)) = List.length (data Binaries)).
  { destruct (scaled_to_nbody_units (attrs Singles)).
    - destruct Hrows as [-> ->]. split; reflexivity.
    - destruct Hrows as (v & _ & _ & -> & ->). rewrite !length_on_rows. split; reflexivity. }
  destruct Hlen as [HlenS HlenB].
  exists f, r, (values (data (w_Singles out))), (values (data (w_Binaries out))).
  rewrite Hfiles, store_same, Hs, Hb, Hrs, Hrb.
  rewrite singles_block_rows, binaries_block_rows.
  split; [reflexivity|]. split; [assumption|]. split; [reflexivity|]. split; [reflexivity|].
  split; [reflexivity|]. split; [reflexivity|]. split.
  { destruct (scaled_to_nbody_units (attrs Singles)).
    - destruct Hrows as [-> ->]. split; reflexivity.
    - destruct Hrows as (v & Hv & Hv0 & HdS & HdB). exists v.
      rewrite HdS, HdB, !values_on_rows. repeat split; assumption. }
  unfold values. cbn [List.length]. rewrite ?length_app, ?length_map. cbn [List.length].
  repeat split; try assumption; lia.
Qed.

(** The sample cluster written to input.fits and read back: the two stars,
    of mass 1 each before the scaling, between the two sentinels. *)
Lemma read_after_write_witness :
  let out := @write rational_sqrt sample_Singles sample_Binaries no_files "input.fits" no_kwargs in
  w_raised out = None /\
  exists r : ReadResult,
    read (w_files out) "input.fits" = inl r /\
    map s_id (read_singles r) = [0; 1; 2; 0] /\
    map s_m (read_singles r) = [0 / 2; 1 / 2; 1 / 2; 0] /\
    map b_id1 (read_binaries r) = [0; 3] /\
    (read_attributes r = None \/ read_attributes r = Some default_attributes).
Proof.
  cbv zeta.
  assert (Hok : w_raised (@write rational_sqrt sample_Singles sample_Binaries no_files
                            "input.fits" no_kwargs) = None) by (vm_compute; reflexivity).
  split; [exact Hok|].
  destruct (@read_after_write rational_sqrt sample_Singles sample_Binaries no_files
              "input.fits" no_kwargs)
    as (f & r & singles & binaries & _ & Hread & _ & _ & Hrs & Hrb & Hrows & _ & _ & _ & _ & _ & _
        & Hattrs).
  - intros _ H0. vm_compute in H0. discriminate.
  - exact Hok.
  - exists r. split; [exact Hread|].
    cbn [scaled_to_nbody_units attrs sample_Singles sampled_attributes] in Hrows.
    destruct Hrows as (v & Hv & _ & -> & ->).
    cbn in Hv. injection Hv as <-.
    rewrite Hrs, Hrb.
    destruct (@write_tables rational_sqrt sample_Singles sample_Binaries no_files
                "input.fits" no_kwargs savefits eq_refl) as [-> _].
    split; [reflexivity|]. split; [|split; [reflexivity | exact Hattrs]].
    cbn [map app values data sample_Singles two_stars snd inner_sentinel outer_sentinel
         scaled_single s_m col].
    vm_compute. reflexivity.
Defined.

(** * The table constructors *)

Lemma vstack_singles_columns (id_idx k m Reff r vr vt binind : list Q) (rows : list SinglesRow) :
  vstack_singles id_idx k m Reff r vr vt binind = Some rows ->
  map s_id rows = id_idx /\ map s_k rows = k /\ map s_m rows = m /\
  map s_Reff rows = Reff /\ map s_r rows = r /\ map s_vr rows = vr /\
  map s_vt rows = vt /\ map s_binind rows = binind.
Proof.
  revert k m Reff r vr vt binind rows.
  induction id_idx as [|x1 l1 IH];
    intros [|x2 l2] [|x3 l3] [|x4 l4] [|x5 l5] [|x6 l6] [|x7 l7] [|x8 l8] rows;
    cbn [vstack_singles]; try discriminate.
  - intros [= <-]. repeat split.
  - destruct (vstack_singles l1 l2 l3 l4 l5 l6 l7 l8) as [rows'|] eqn:Hrec; [|discriminate].
    cbn [option_map]. intros [= <-].
    destruct (IH _ _ _ _ _ _ _ _ Hrec) as (H1 & H2 & H3 & H4 & H5 & H6 & H7 & H8).
    cbn [map s_id s_k s_m s_Reff s_r s_vr s_vt s_binind].
    rewrite H1, H2, H3, H4, H5, H6, H7, H8. repeat split.
Qed.

Lemma vstack_singles_total (id_idx k m Reff r vr vt binind : list Q) :
  vstack_singles id_idx k m Reff r vr vt binind <> None <->
  List.length k = List.length id_idx /\ List.length m = List.length id_idx /\
  List.length Reff = List.length id_idx /\ List.length r = List.length id_idx /\
  List.length vr = List.length id_idx /\ List.length vt = List.length id_idx /\
  List.length binind = List.length id_idx.
Proof.
  revert k m Reff r vr vt binind.
  induction id_idx as [|x1 l1 IH];
    intros [|x2 l2] [|x3 l3] [|x4 l4] [|x5 l5] [|x6 l6] [|x7 l7] [|x8 l8];
    cbn [vstack_singles List.length];
    try (split; [intros H; now contradiction H | intros (? & ? & ? & ? & ? & ? & ?); discriminate]).
  - split; [intros _; repeat split | discriminate].
  - specialize (IH l2 l3 l4 l5 l6 l7 l8).
    destruct (vstack_singles l1 l2 l3 l4 l5 l6 l7 l8) as [rows'|]; cbn [option_map].
    + split; [intros _|discriminate].
      destruct IH as [IH _]. destruct IH as (? & ? & ? & ? & ? & ? & ?); [discriminate|].
      repeat split; congruence.
    + split; [intros H; now contradiction H|].
      intros (? & ? & ? & ? & ? & ? & ?). apply IH. repeat split; congruence.
Qed.

Lemma col_values {R : Type} (f : R -> Q) (df : DataFrame R) : col f df = map f (values df).
Proof. unfold col, values. rewrite map_map. reflexivity. Qed.

(** X4. [InitialCMCSingles] succeeds exactly when the eight arrays have one
    length.  The table it returns then reads back each array from the column
    of its name, row by row, carries the default index 0..N-1 and the class
    defaults as attributes (not scaled, no mass, radii or metallicity
    recorded); otherwise it raises a ValueError. *)
Theorem InitialCMCSingles_columns (id_idx k m Reff r vr vt binind : list Q) :
  let same_length :=
    List.length k = List.length id_idx /\ List.length m = List.length id_idx /\
    List.length Reff = List.length id_idx /\ List.length r = List.length id_idx /\
    List.length vr = List.length id_idx /\ List.length vt = List.length id_idx /\
    List.length binind = List.length id_idx in
  match InitialCMCSingles id_idx k m Reff r vr vt binind with
  | inl Singles =>
      same_length /\
      col s_id (data Singles) = id_idx /\ col s_k (data Singles) = k /\
      col s_m (data Singles) = m /\ col s_Reff (data Singles) = Reff /\
      col s_r (data Singles) = r /\ col s_vr (data Singles) = vr /\
      col s_vt (data Singles) = vt /\ col s_binind (data Singles) = binind /\
      labels (data Singles) = map Z.of_nat (seq 0 (List.length id_idx)) /\
      attrs Singles = default_attributes
  | inr e => ~ same_length /\ exists msg, e = ValueError msg
  end.
Proof.
  intros same_length. unfold InitialCMCSingles.
  pose proof (vstack_singles_total id_idx k m Reff r vr vt binind) as Htot.
  destruct (vstack_singles id_idx k m Reff r vr vt binind) as [rows|] eqn:Hrows.
  - destruct (vstack_singles_columns _ _ _ _ _ _ _ _ _ Hrows)
      as (H1 & H2 & H3 & H4 & H5 & H6 & H7 & H8).
    cbn [data attrs]. rewrite !col_values, values_range_index, labels_range_index.
    split; [apply Htot; discriminate|].
    assert (Hlen : List.length rows = List.length id_idx) by (rewrite <- H1, length_map; reflexivity).
    rewrite Hlen. repeat split; assumption.
  - split; [|eexists; reflexivity].
    intros Hsame. apply Htot in Hsame. apply Hsame. reflexivity.
Qed.

Lemma vstack_binaries_columns (index id1 k1 m1 Reff1 id2 k2 m2 Reff2 a e : list Q)
    (rows : list BinariesRow) :
  vstack_binaries index id1 k1 m1 Reff1 id2 k2 m2 Reff2 a e = Some rows ->
  map b_index rows = index /\ map b_id1 rows = id1 /\ map b_k1 rows = k1 /\
  map b_m1 rows = m1 /\ map b_Reff1 rows = Reff1 /\ map b_id2 rows = id2 /\
  map b_k2 rows = k2 /\ map b_m2 rows = m2 /\ map b_Reff2 rows = Reff2 /\
  map b_a rows = a /\ map b_e rows = e.
Proof.
  revert id1 k1 m1 Reff1 id2 k2 m2 Reff2 a e rows.
  induction index as [|x1 l1 IH];
    intros [|x2 l2] [|x3 l3] [|x4 l4] [|x5 l5] [|x6 l6] [|x7 l7] [|x8 l8]
           [|x9 l9] [|x10 l10] [|x11 l11] rows;
    cbn [vstack_binaries]; try discriminate.
  - intros [= <-]. repeat split.
  - destruct (vstack_binaries l1 l2 l3 l4 l5 l6 l7 l8 l9 l10 l11) as [rows'|] eqn:Hrec;
      [|discriminate].
    cbn [option_map]. intros [= <-].
    destruct (IH _ _ _ _ _ _ _ _ _ _ _ Hrec)
      as (H1 & H2 & H3 & H4 & H5 & H6 & H7 & H8 & H9 & H10 & H11).
    cbn [map b_index b_id1 b_k1 b_m1 b_Reff1 b_id2 b_k2 b_m2 b_Reff2 b_a b_e].
    rewrite H1, H2, H3, H4, H5, H6, H7, H8, H9, H10, H11. repeat split.
Qed.

Lemma vstack_binaries_total (index id1 k1 m1 Reff1 id2 k2 m2 Reff2 a e : list Q) :
  vstack_binaries index id1 k1 m1 Reff1 id2 k2 m2 Reff2 a e <> None <->
  List.length id1 = List.length index /\ List.length k1 = List.length index /\
  List.length m1 = List.length index /\ List.length Reff1 = List.length index /\
  List.length id2 = List.length index /\ List.length k2 = List.length index /\
  List.length m2 = List.length index /\ List.length Reff2 = List.length index /\
  List.length a = List.length index /\ List.length e = List.length index.
Proof.
  revert id1 k1 m1 Reff1 id2 k2 m2 Reff2 a e.
  induction index as [|x1 l1 IH];
    intros [|x2 l2] [|x3 l3] [|x4 l4] [|x5 l5] [|x6 l6] [|x7 l7] [|x8 l8]
           [|x9 l9] [|x10 l10] [|x11 l11];
    cbn [vstack_binaries List.length];
    try (split; [intros H; now contradiction H
                | intros (? & ? & ? & ? & ? & ? & ? & ? & ? & ?); discriminate]).
  - split; [intros _; repeat split | discriminate].
  - specialize (IH l2 l3 l4 l5 l6 l7 l8 l9 l10 l11).
    destruct (vstack_binaries l1 l2 l3 l4 l5 l6 l7 l8 l9 l10 l11) as [rows'|];
      cbn [option_map].
    + split; [intros _|discriminate].
      destruct IH as [IH _].
      destruct IH as (? & ? & ? & ? & ? & ? & ? & ? & ? & ?); [discriminate|].
      repeat split; congruence.
    + split; [intros H; now contradiction H|].
      intros (? & ? & ? & ? & ? & ? & ? & ? & ? & ?). apply IH. repeat split; congruence.
Qed.

(** X5. [InitialCMCBinaries] succeeds exactly when the eleven arrays have
    one length.  The table it returns then reads back each array from the
    column of its name, row by row, with the default index 0..N-1 and the class
    defaults as attributes; otherwise it raises a ValueError. *)
Theorem InitialCMCBinaries_columns (index id1 k1 m1 Reff1 id2 k2 m2 Reff2 a e : list Q) :
  let same_length :=
    List.length id1 = List.length index /\ List.length k1 = List.length index /\
    List.length m1 = List.length index /\ List.length Reff1 = List.length index /\
    List.length id2 = List.length index /\ List.length k2 = List.length index /\
    List.length m2 = List.length index /\ List.length Reff2 = List.length index /\
    List.length a = List.length index /\ List.length e = List.length index in
  match InitialCMCBinaries index id1 k1 m1 Reff1 id2 k2 m2 Reff2 a e with
  | inl Binaries =>
      same_length /\
      col b_index (data Binaries) = index /\ col b_id1 (data Binaries) = id1 /\
      col b_k1 (data Binaries) = k1 /\ col b_m1 (data Binaries) = m1 /\
      col b_Reff1 (data Binaries) = Reff1 /\ col b_id2 (data Binaries) = id2 /\
      col b_k2 (data Binaries) = k2 /\ col b_m2 (data Binaries) = m2 /\
      col b_Reff2 (data Binaries) = Reff2 /\ col b_a (data Binaries) = a /\
      col b_e (data Binaries) = e /\
      labels (data Binaries) = map Z.of_nat (seq 0 (List.length index)) /\
      attrs Binaries = default_attributes
  | inr exn => ~ same_length /\ exists msg, exn = ValueError msg
  end.
Proof.
  intros same_length. unfold InitialCMCBinaries.
  pose proof (vstack_binaries_total index id1 k1 m1 Reff1 id2 k2 m2 Reff2 a e) as Htot.
  destruct (vstack_binaries index id1 k1 m1 Reff1 id2 k2 m2 Reff2 a e) as [rows|] eqn:Hrows.
  - destruct (vstack_binaries_columns _ _ _ _ _ _ _ _ _ _ _ _ Hrows)
      as (H1 & H2 & H3 & H4 & H5 & H6 & H7 & H8 & H9 & H10 & H11).
    cbn [data attrs]. rewrite !col_values, values_range_index, labels_range_index.
    split; [apply Htot; discriminate|].
    assert (Hlen : List.length rows = List.length index) by (rewrite <- H1, length_map; reflexivity).
    rewrite Hlen. repeat split; assumption.
  - split; [|eexists; reflexivity].
    intros Hsame. apply Htot in Hsame. apply Hsame. reflexivity.
Qed.

(** * More on the unit-scaling engine *)

(** Skip the row updates that do not write the column read. *)
Ltac untouched := repeat (rewrite col_untouched by (intros; reflexivity)).

Lemma col_updated {R : Type} (f : R -> Q) (g : R -> R) (h : Q -> Q) (df : DataFrame R) :
  (forall x, f (g x) = h (f x)) -> col f (on_rows g df) = map h (col f df).
Proof.
  intros Hfg. rewrite col_on_rows. unfold col. rewrite map_map.
  apply map_ext. intros p. apply Hfg.
Qed.

(** X6. With a total mass other than zero, [ScaleToNBodyUnits] raises
    nothing exactly when the virial radius is a number other than zero; it
    raises a TypeError on an unset virial radius and a ZeroDivisionError on
    zero.  When it returns, both tables are flagged as scaled; when it raises,
    both flags stay as they were and the stellar radii and separations (Reff,
    a, Reff1, Reff2) are untouched, although the masses have been normalized by
    then.  Of the attributes only [central_bh] and the flag are ever
    written. *)
Theorem ScaleToNBodyUnits_outcome `{NumpySqrt}
    (Singles : InitialCMCTable SinglesRow) (Binaries : InitialCMCTable BinariesRow)
    (virial_radius_arg : option Q) (central_bh_arg : Q) (scale_with_central_bh_arg : bool) :
  ~ Np.py_sum (col s_m (data Singles)) == 0 ->
  let out := ScaleToNBodyUnits Singles Binaries virial_radius_arg central_bh_arg
               scale_with_central_bh_arg in
  let M := Np.py_sum (col s_m (data Singles)) in
  (raised out = None <-> exists v, virial_radius_arg = Some v /\ ~ v == 0) /\
  (virial_radius_arg = None -> exists msg, raised out = Some (TypeError msg)) /\
  (forall v, virial_radius_arg = Some v -> v == 0 ->
             exists msg, raised out = Some (ZeroDivisionError msg)) /\
  (raised out = None ->
   scaled_to_nbody_units (attrs (Singles' out)) = true /\
   scaled_to_nbody_units (attrs (Binaries' out)) = true) /\
  (raised out <> None ->
   scaled_to_nbody_units (attrs (Singles' out)) = scaled_to_nbody_units (attrs Singles) /\
   attrs (Binaries' out) = attrs Binaries /\
   col s_m (data (Singles' out)) = map (fun x => x / M) (col s_m (data Singles)) /\
   col s_Reff (data (Singles' out)) = col s_Reff (data Singles) /\
   col b_a (data (Binaries' out)) = col b_a (data Binaries) /\
   col b_Reff1 (data (Binaries' out)) = col b_Reff1 (data Binaries) /\
   col b_Reff2 (data (Binaries' out)) = col b_Reff2 (data Binaries)) /\
  metallicity (attrs (Singles' out)) = metallicity (attrs Singles) /\
  mass_of_cluster (attrs (Singles' out)) = mass_of_cluster (attrs Singles) /\
  virial_radius (attrs (Singles' out)) = virial_radius (attrs Singles) /\
  tidal_radius (attrs (Singles' out)) = tidal_radius (attrs Singles) /\
  scale_with_central_bh (attrs (Singles' out)) = scale_with_central_bh (attrs Singles).
Proof.
  intros _ out M. subst out. unfold ScaleToNBodyUnits.
  destruct virial_radius_arg as [v|]; [destruct (Qeq_bool v 0) eqn:Hv|];
    cbn [Singles' Binaries' raised data attrs normalize_masses].
  - apply Qeq_bool_iff in Hv.
    split; [split; [discriminate | intros (v' & [= <-] & Hne); contradiction]|].
    split; [discriminate|]. split; [intros v' _ _; eexists; reflexivity|].
    split; [discriminate|]. split; [|repeat split].
    intros _. repeat split; untouched; try reflexivity.
    fold M. apply col_updated. reflexivity.
  - apply Qeq_bool_neq in Hv.
    split; [split; [intros _; exists v; split; [reflexivity|assumption] | reflexivity]|].
    split; [discriminate|]. split; [intros v' [= <-] Hz; contradiction|].
    split; [intros _; split; reflexivity|]. split; [intros Hr; now contradiction Hr|].
    repeat split.
  - split; [split; [discriminate | intros (v' & Hv' & _); discriminate]|].
    split; [intros _; eexists; reflexivity|]. split; [discriminate|].
    split; [discriminate|]. split; [|repeat split].
    intros _. repeat split; untouched; try reflexivity.
    fold M. apply col_updated. reflexivity.
Qed.

(** A cluster with no virial radius handed over. *)
Lemma ScaleToNBodyUnits_outcome_witness :
  ~ Np.py_sum (col s_m (data sample_Singles)) == 0 /\
  exists msg,
    raised (@ScaleToNBodyUnits rational_sqrt sample_Singles sample_Binaries None 0 false)
    = Some (TypeError msg).
Proof.
  assert (HM : ~ Np.py_sum (col s_m (data sample_Singles)) == 0).
  { intros H0. vm_compute in H0. discriminate. }
  split; [exact HM|].
  apply (@ScaleToNBodyUnits_outcome rational_sqrt sample_Singles sample_Binaries
           None 0 false HM).
  reflexivity.
Defined.

(** What a call with a usable virial radius does to the lengths given in
    solar radii. *)
Lemma ScaleToNBodyUnits_lengths `{NumpySqrt} Singles Binaries (rvir : Q) bh flag :
  ~ rvir == 0 ->
  let out := ScaleToNBodyUnits Singles Binaries (Some rvir) bh flag in
  let DistConv := PARSEC_PER_RSUN / rvir in
  raised out = None /\
  scaled_to_nbody_units (attrs (Singles' out)) = true /\
  col s_m (data (Singles' out)) =
    map (fun x => x / Np.py_sum (col s_m (data Singles))) (col s_m (data Singles)) /\
  col s_Reff (data (Singles' out)) = map (fun x => x * DistConv) (col s_Reff (data Singles)) /\
  col b_a (data (Binaries' out)) = map (fun x => x * DistConv) (col b_a (data Binaries)) /\
  col b_Reff1 (data (Binaries' out)) = map (fun x => x * DistConv) (col b_Reff1 (data Binaries)) /\
  col b_Reff2 (data (Binaries' out)) = map (fun x => x * DistConv) (col b_Reff2 (data Binaries)).
Proof.
  intros Hv out DistConv. subst out.
  assert (Hq : Qeq_bool rvir 0 = false).
  { destruct (Qeq_bool rvir 0) eqn:Hb; [|reflexivity]. apply Qeq_bool_iff in Hb. contradiction. }
  unfold ScaleToNBodyUnits. rewrite Hq.
  cbn [Singles' Binaries' raised data attrs normalize_masses]. fold DistConv.
  repeat split; untouched;
    first [ apply col_updated; reflexivity
          | rewrite (col_updated _ _ (fun x => x * DistConv)) by reflexivity;
            untouched; reflexivity ].
Qed.

(** X7. [ScaleToNBodyUnits] does not look at [scaled_to_nbody_units]: a
    second call on its own result raises nothing either, finds a total mass of
    1, and multiplies Reff, a, Reff1 and Reff2 by the length conversion factor
    a second time. *)
Theorem ScaleToNBodyUnits_twice `{NumpySqrt}
    (Singles : InitialCMCTable SinglesRow) (Binaries : InitialCMCTable BinariesRow)
    (rvir : Q) (central_bh_arg : Q) (scale_with_central_bh_arg : bool) :
  ~ Np.py_sum (col s_m (data Singles)) == 0 ->
  ~ rvir == 0 ->
  let once := ScaleToNBodyUnits Singles Binaries (Some rvir) central_bh_arg
                scale_with_central_bh_arg in
  let twice := ScaleToNBodyUnits (Singles' once) (Binaries' once) (Some rvir) central_bh_arg
                 scale_with_central_bh_arg in
  let DistConv := PARSEC_PER_RSUN / rvir in
  raised once = None /\ scaled_to_nbody_units (attrs (Singles' once)) = true /\
  Np.py_sum (col s_m (data (Singles' once))) == 1 /\
  raised twice = None /\
  col s_Reff (data (Singles' twice)) =
    map (fun x => x * DistConv * DistConv) (col s_Reff (data Singles)) /\
  col b_a (data (Binaries' twice)) =
    map (fun x => x * DistConv * DistConv) (col b_a (data Binaries)) /\
  col b_Reff1 (data (Binaries' twice)) =
    map (fun x => x * DistConv * DistConv) (col b_Reff1 (data Binaries)) /\
  col b_Reff2 (data (Binaries' twice)) =
    map (fun x => x * DistConv * DistConv) (col b_Reff2 (data Binaries)).
Proof.
  intros HM Hv once twice DistConv.
  destruct (ScaleToNBodyUnits_lengths Singles Binaries rvir central_bh_arg
              scale_with_central_bh_arg Hv) as (Hr1 & Hf1 & Hm1 & HR1 & Ha1 & H11 & H21).
  destruct (ScaleToNBodyUnits_lengths (Singles' once) (Binaries' once) rvir central_bh_arg
              scale_with_central_bh_arg Hv) as (Hr2 & _ & _ & HR2 & Ha2 & H12 & H22).
  fold once in Hr1, Hf1, Hm1, HR1, Ha1, H11, H21. fold twice in Hr2, HR2, Ha2, H12, H22.
  fold DistConv in HR1, Ha1, H11, H21, HR2, Ha2, H12, H22.
  split; [assumption|]. split; [assumption|].
  split; [rewrite Hm1, py_sum_sum; apply sum_normalized; assumption|].
  split; [assumption|].
  rewrite HR2, Ha2, H12, H22, HR1, Ha1, H11, H21, !map_map. repeat split.
Qed.

(** The sample cluster scaled twice with a virial radius of 1. *)
Lemma ScaleToNBodyUnits_twice_witness :
  let once := @ScaleToNBodyUnits rational_sqrt sample_Singles sample_Binaries (Some 1) 0 false in
  let twice := @ScaleToNBodyUnits rational_sqrt (Singles' once) (Binaries' once) (Some 1) 0 false in
  raised once = None /\ raised twice = None /\
  col b_a (data (Binaries' twice)) =
    map (fun x => x * (PARSEC_PER_RSUN / 1) * (PARSEC_PER_RSUN / 1))
        (col b_a (data sample_Binaries)).
Proof.
  cbv zeta.
  destruct (@ScaleToNBodyUnits_twice rational_sqrt sample_Singles sample_Binaries 1 0 false)
    as (H1 & _ & _ & H2 & _ & H3 & _).
  - intros H0. vm_compute in H0. discriminate.
  - intros H0. vm_compute in H0. discriminate.
  - auto.
Defined.

(** X8. On a cluster of positive masses on ascending positive radii below
    the outer boundary, with a central black hole of non-negative mass,
    [ScaleToNBodyUnits] leaves every mass and every radius positive, in every
    outcome of the call. *)
Theorem ScaleToNBodyUnits_keeps_positive `{NumpySqrt}
    (Singles : InitialCMCTable SinglesRow) (Binaries : InitialCMCTable BinariesRow)
    (virial_radius_arg : option Q) (central_bh_arg : Q) (scale_with_central_bh_arg : bool) :
  sorted_by_r Singles ->
  Forall (fun x => 0 < x) (col s_m (data Singles)) ->
  Forall (fun x => 0 < x /\ x < outer_radius) (col s_r (data Singles)) ->
  0 <= central_bh (attrs Singles) ->
  let out := ScaleToNBodyUnits Singles Binaries virial_radius_arg central_bh_arg
               scale_with_central_bh_arg in
  Forall (fun x => 0 < x) (col s_m (data (Singles' out))) /\
  Forall (fun x => 0 < x) (col s_r (data (Singles' out))).
Proof.
  intros Hs Hm Hr Hbh out. subst out.
  destruct (scaled_singles_rows Singles Binaries virial_radius_arg central_bh_arg
              scale_with_central_bh_arg) as (g & -> & _ & _ & _ & Hgm & Hgr & _).
  rewrite (col_updated s_m g (fun x => x / Np.py_sum (col s_m (data Singles))) _ Hgm),
          (col_updated s_r g (fun x => x * rfac_of Singles scale_with_central_bh_arg) _ Hgr).
  destruct (data Singles) as [|p df] eqn:Hdata; [split; constructor|].
  rewrite <- Hdata in *.
  assert (Hne : data Singles <> []) by (rewrite Hdata; discriminate).
  assert (HM : 0 < Np.py_sum (col s_m (data Singles))).
  { apply py_sum_positive; [|assumption]. unfold col. rewrite Hdata. discriminate. }
  pose proof (rfac_positive Singles scale_with_central_bh_arg Hne Hs Hm Hr Hbh) as Hrf.
  split; apply Forall_map.
  - eapply Forall_impl; [|exact Hm]. intros x Hx. cbv beta in *.
    apply Qlt_shift_div_l; lra.
  - eapply Forall_impl; [|exact Hr]. intros x [Hx _]. cbv beta.
    apply Qmult_lt_0_compat; assumption.
Qed.

(** The sample cluster. *)
Lemma ScaleToNBodyUnits_keeps_positive_witness :
  let out := @ScaleToNBodyUnits rational_sqrt sample_Singles sample_Binaries (Some 1) 0 false in
  Forall (fun x => 0 < x) (col s_m (data (Singles' out))) /\
  Forall (fun x => 0 < x) (col s_r (data (Singles' out))).
Proof.
  apply (@ScaleToNBodyUnits_keeps_positive rational_sqrt sample_Singles sample_Binaries
           (Some 1) 0 false).
  - unfold sorted_by_r, ascending. cbn [col data sample_Singles two_stars map snd s_r].
    repeat (constructor; try qle).
  - cbn [col data sample_Singles two_stars map snd s_m]. repeat (constructor; try qlt).
  - cbn [col data sample_Singles two_stars map snd s_r].
    repeat (constructor; try (split; qlt)).
  - qle.
Defined.

(** * More on the serializer *)

Lemma prefix_append (s t : string) : String.prefix s (s ++ t)%string = true.
Proof.
  induction s as [|c s IH]; cbn; [destruct t; reflexivity|].
  destruct (Ascii.ascii_dec c c) as [_|Hc]; [assumption | now contradiction Hc].
Qed.

(** [str_in] finds a string wherever it stands. *)
Lemma str_in_middle (a sub b : string) : str_in sub (a ++ sub ++ b)%string = true.
Proof.
  induction a as [|c a IH].
  - cbn [String.append]. destruct (sub ++ b)%string eqn:Hs; cbn [str_in];
      rewrite <- Hs, prefix_append; reflexivity.
  - cbn [String.append str_in]. rewrite IH. apply orb_true_r.
Qed.

(** X9. A file name that holds .hdf5 or .h5 anywhere is written and read
    as HDF5, whatever follows; a name that holds .fits and neither of the two
    is written and read as FITS.  In particular a name that ends in .hdf5 or
    .h5 is always accepted. *)
Theorem format_of_file_name :
  (forall a b : string,
     write_format (a ++ ".hdf5" ++ b)%string = inl savehdf5 /\
     read_format (a ++ ".hdf5" ++ b)%string = inl savehdf5 /\
     write_format (a ++ ".h5" ++ b)%string = inl savehdf5 /\
     read_format (a ++ ".h5" ++ b)%string = inl savehdf5) /\
  (forall a b : string,
     str_in ".hdf5" (a ++ ".fits" ++ b)%string = false ->
     str_in ".h5" (a ++ ".fits" ++ b)%string = false ->
     write_format (a ++ ".fits" ++ b)%string = inl savefits /\
     read_format (a ++ ".fits" ++ b)%string = inl savefits).
Proof.
  split.
  - intros a b. unfold write_format, read_format.
    rewrite !(str_in_middle a ".hdf5" b), !(str_in_middle a ".h5" b), !orb_true_r.
    cbn [orb]. repeat split.
  - intros a b H5 Hh5. unfold write_format, read_format.
    rewrite H5, Hh5, (str_in_middle a ".fits" b). split; reflexivity.
Qed.

(** The names input.hdf5, input.h5 and input.fits. *)
Lemma format_of_file_name_witness :
  write_format "input.hdf5" = inl savehdf5 /\ write_format "input.h5" = inl savehdf5 /\
  write_format "input.fits" = inl savefits /\ read_format "input.fits" = inl savefits.
Proof.
  destruct format_of_file_name as [Hh Hf].
  destruct (Hh "input" ""%string) as (H1 & _ & H2 & _).
  destruct (Hf "input" ""%string) as (H3 & H4); [reflexivity | reflexivity |].
  cbn [String.append] in *. auto.
Defined.

Lemma ScaleToNBodyUnits_keeps_attrs `{NumpySqrt} Singles Binaries rvir bh flag :
  let out := ScaleToNBodyUnits Singles Binaries rvir bh flag in
  virial_radius (attrs (Singles' out)) = virial_radius (attrs Singles) /\
  tidal_radius (attrs (Singles' out)) = tidal_radius (attrs Singles) /\
  scale_with_central_bh (attrs (Singles' out)) = scale_with_central_bh (attrs Singles) /\
  (raised out <> None ->
   scaled_to_nbody_units (attrs (Singles' out)) = scaled_to_nbody_units (attrs Singles)).
Proof.
  unfold ScaleToNBodyUnits. destruct rvir as [rv|]; [destruct (Qeq_bool rv 0)|];
    cbn; repeat split; intros Hr; now contradiction Hr.
Qed.

(** The attributes behind the scaling step of [write]. *)
Lemma scale_before_write_record `{NumpySqrt} Singles Binaries rvir bh flag :
  let out := scale_before_write Singles Binaries rvir bh flag in
  virial_radius (attrs (Singles' out)) = virial_radius (attrs Singles) /\
  tidal_radius (attrs (Singles' out)) = tidal_radius (attrs Singles) /\
  scale_with_central_bh (attrs (Singles' out)) = scale_with_central_bh (attrs Singles) /\
  (scaled_to_nbody_units (attrs Singles) = false ->
   mass_of_cluster (attrs (Singles' out)) =
     match mass_of_cluster (attrs Singles) with
     | Some M => Some M
     | None => Some (Np.sum (col s_m (data Singles)) + bh)
     end) /\
  (raised out = None ->
   scaled_to_nbody_units (attrs (Singles' out)) = true /\
   exists M, mass_of_cluster (attrs (Singles' out)) = Some M).
Proof.
  unfold scale_before_write.
  destruct (scaled_to_nbody_units (attrs Singles)) eqn:Hs,
           (mass_of_cluster (attrs Singles)) as [M|] eqn:Hm; cbv zeta.
  - cbn. repeat split; try discriminate; eauto.
  - cbn. repeat split; discriminate.
  - destruct (ScaleToNBodyUnits_keeps_attrs Singles Binaries rvir bh flag) as (Hv & Ht & Hw & _).
    destruct (ScaleToNBodyUnits_attrs Singles Binaries rvir bh flag) as (_ & HM & _ & Hf).
    repeat split; try assumption; try congruence; auto.
    exists M. congruence.
  - set (S0 := with_attrs Singles _).
    destruct (ScaleToNBodyUnits_keeps_attrs S0 Binaries rvir bh flag) as (Hv & Ht & Hw & _).
    destruct (ScaleToNBodyUnits_attrs S0 Binaries rvir bh flag) as (_ & HM & _ & Hf).
    repeat split; try assumption; auto.
    eexists. rewrite HM. reflexivity.
Qed.

(** ** When [write] goes through *)

(** X10. Let the virial radius and the tidal radius handed to [write]
    (keyword, else attribute) be numbers, and the total mass of a cluster that
    is still to be scaled not be zero.  Then [write] raises nothing exactly
    when the file name is recognised, the metallicity attribute is set (a
    metallicity keyword does not stand in for it), and either the cluster is
    already scaled and its [mass_of_cluster] is recorded, or it is not scaled
    and the virial radius is not zero.  Whenever [write] raises, no file is
    stored. *)
Theorem write_raises_nothing_iff `{NumpySqrt}
    (Singles : InitialCMCTable SinglesRow) (Binaries : InitialCMCTable BinariesRow)
    (fs : FileSystem) (filename : string) (kwargs : Kwargs) (rvir rtid : Q) :
  (scaled_to_nbody_units (attrs Singles) = false ->
   ~ Np.py_sum (col s_m (data Singles)) == 0) ->
  pop_opt (kw_virial_radius kwargs) (virial_radius (attrs Singles)) = Some rvir ->
  pop_opt (kw_tidal_radius kwargs) (tidal_radius (attrs Singles)) = Some rtid ->
  let out := write Singles Binaries fs filename kwargs in
  (w_raised out = None <->
     (exists format, write_format filename = inl format) /\
     (exists z, metallicity (attrs Singles) = Some z) /\
     (if scaled_to_nbody_units (attrs Singles)
      then exists M, mass_of_cluster (attrs Singles) = Some M
      else ~ rvir == 0)) /\
  (w_raised out <> None -> w_files out = fs).
Proof.
  intros _ Hv _ out. split.
  - subst out. unfold write.
    destruct (write_format filename) as [format|e];
      [|split; [discriminate | intros ((f & Hf) & _); discriminate]].
    cbv zeta. rewrite Hv.
    pose proof (scale_before_write_attrs Singles Binaries (Some rvir)
                  (pop (kw_central_bh kwargs) (central_bh (attrs Singles)))
                  (pop (kw_scale_with_central_bh kwargs) (scale_with_central_bh (attrs Singles))))
      as (Hz & _).
    set (scaled := scale_before_write _ _ _ _ _) in *.
    rewrite Hz.
    assert (Hscaled : raised scaled = None <->
              if scaled_to_nbody_units (attrs Singles)
              then exists M, mass_of_cluster (attrs Singles) = Some M
              else ~ rvir == 0).
    { subst scaled. unfold scale_before_write, ScaleToNBodyUnits.
      destruct (scaled_to_nbody_units (attrs Singles)),
               (mass_of_cluster (attrs Singles)) as [M|]; cbv zeta;
        try (destruct (Qeq_bool rvir 0) eqn:Hq;
             [apply Qeq_bool_iff in Hq | apply Qeq_bool_neq in Hq]);
        cbn [raised]; split; try discriminate; try reflexivity; eauto;
        try (intros [M' HM']; discriminate); intros Hne; contradiction. }
    destruct (raised scaled) as [e|].
    + split; [discriminate|]. intros (_ & _ & Hok). apply Hscaled in Hok. discriminate.
    + destruct (metallicity (attrs Singles)) as [z|]; cbn [w_raised].
      * split; [|reflexivity]. intros _. split; [eauto|]. split; [eauto|].
        apply Hscaled. reflexivity.
      * split; [discriminate|]. intros (_ & (z & Hz') & _). discriminate.
  - intros Hr. destruct (w_raised out) as [e|] eqn:He; [|now contradiction Hr].
    exact (write_raise_no_file _ _ _ _ _ _ He).
Qed.

(** The sample cluster written to input.hdf5. *)
Lemma write_raises_nothing_iff_witness :
  w_raised (@write rational_sqrt sample_Singles sample_Binaries no_files "input.hdf5" no_kwargs)
  = None.
Proof.
  destruct (@write_raises_nothing_iff rational_sqrt sample_Singles sample_Binaries no_files
              "input.hdf5" no_kwargs 1 1e6) as [Hiff _].
  - intros _ H0. vm_compute in H0. discriminate.
  - reflexivity.
  - reflexivity.
  - apply Hiff. split; [eexists; reflexivity|]. split; [eexists; reflexivity|].
    cbn. intros H0. vm_compute in H0. discriminate.
Defined.

(** X11. The header of a file [write] has stored: EXTNAME is CLUS_OBJ_DATA;
    RVIR, RTID and Z are the keyword values where passed and the attributes
    of Singles otherwise; MCLUS is the [mass_of_cluster] Singles came with,
    and, where it came with none, the sum of the masses before the scaling
    plus the central black-hole mass (keyword, else attribute).  That mass is
    also what [write] leaves in the attribute. *)
Theorem write_header `{NumpySqrt}
    (Singles : InitialCMCTable SinglesRow) (Binaries : InitialCMCTable BinariesRow)
    (fs : FileSystem) (filename : string) (kwargs : Kwargs) :
  let out := write Singles Binaries fs filename kwargs in
  w_raised out = None ->
  exists f : StoredFile,
    w_files out filename = Some f /\
    EXTNAME (disk_header f) = "CLUS_OBJ_DATA" /\
    RVIR (disk_header f) = pop_opt (kw_virial_radius kwargs) (virial_radius (attrs Singles)) /\
    RTID (disk_header f) = pop_opt (kw_tidal_radius kwargs) (tidal_radius (attrs Singles)) /\
    Zmet (disk_header f) = pop_opt (kw_metallicity kwargs) (metallicity (attrs Singles)) /\
    (exists z, Zmet (disk_header f) = Some z) /\
    MCLUS (disk_header f) =
      match mass_of_cluster (attrs Singles) with
      | Some M => Some M
      | None => Some (Np.sum (col s_m (data Singles)) +
                      pop (kw_central_bh kwargs) (central_bh (attrs Singles)))
      end /\
    mass_of_cluster (attrs (w_Singles out)) = MCLUS (disk_header f).
Proof.
  intros out Hok.
  destruct (write_success Singles Binaries fs filename kwargs Hok)
    as (format & z & Hfmt & Hz & Hfiles).
  fold out in Hz, Hfiles.
  set (f := encode _ _ _ _ _ _ _) in Hfiles.
  destruct (encode_rows format (singles_block (w_Singles out))
              (binaries_block (w_Binaries out))
              (mass_of_cluster (attrs (w_Singles out)))
              (pop_opt (kw_virial_radius kwargs) (virial_radius (attrs Singles)))
              (pop_opt (kw_tidal_radius kwargs) (tidal_radius (attrs Singles)))
              (pop_opt (kw_metallicity kwargs) (metallicity (attrs Singles))))
    as (_ & _ & _ & _ & HM & Hv & Ht & HZ & Hext).
  fold f in HM, Hv, Ht, HZ, Hext.
  exists f. rewrite Hfiles, store_same, HM, Hv, Ht, HZ, Hext.
  repeat split.
  - assert (Hattr : metallicity (attrs Singles) = Some z).
    { rewrite <- Hz. subst out.
      destruct (write_tables Singles Binaries fs filename kwargs format Hfmt) as [-> _].
      symmetry. apply scale_before_write_attrs. }
    rewrite Hattr. destruct (kw_metallicity kwargs); cbn; eauto.
  - subst out.
    destruct (write_tables Singles Binaries fs filename kwargs format Hfmt) as [HS _].
    rewrite HS.
    assert (Hraised : raised (scale_before_write Singles Binaries
                (pop_opt (kw_virial_radius kwargs) (virial_radius (attrs Singles)))
                (pop (kw_central_bh kwargs) (central_bh (attrs Singles)))
                (pop (kw_scale_with_central_bh kwargs) (scale_with_central_bh (attrs Singles))))
              = None).
    { revert Hok. unfold write. rewrite Hfmt. cbv zeta.
      destruct (raised (scale_before_write _ _ _ _ _)); [discriminate | reflexivity]. }
    destruct (scale_before_write_record Singles Binaries
                (pop_opt (kw_virial_radius kwargs) (virial_radius (attrs Singles)))
                (pop (kw_central_bh kwargs) (central_bh (attrs Singles)))
                (pop (kw_scale_with_central_bh kwargs) (scale_with_central_bh (attrs Singles))))
      as (_ & _ & _ & Hunscaled & _).
    destruct (scaled_to_nbody_units (attrs Singles)) eqn:Hs.
    + destruct (scale_before_write_attrs Singles Binaries
                (pop_opt (kw_virial_radius kwargs) (virial_radius (attrs Singles)))
                (pop (kw_central_bh kwargs) (central_bh (attrs Singles)))
                (pop (kw_scale_with_central_bh kwargs) (scale_with_central_bh (attrs Singles))))
        as (_ & _ & Hsame).
      rewrite Hs in Hsame. destruct (Hsame eq_refl) as [HSame _].
      rewrite HSame.
      destruct (mass_of_cluster (attrs Singles)) as [M|] eqn:HMass; [reflexivity|].
      exfalso. revert Hraised. unfold scale_before_write. rewrite Hs, HMass. discriminate.
    + apply Hunscaled. reflexivity.
Qed.

(** The header of the sample cluster, written with a metallicity keyword. *)
Lemma write_header_witness :
  let out := @write rational_sqrt sample_Singles sample_Binaries no_files "input.fits"
               (mkKwargs None None (Some 0.001) None None) in
  w_raised out = None /\
  exists f : StoredFile,
    w_files out "input.fits" = Some f /\
    Zmet (disk_header f) = Some 0.001 /\ MCLUS (disk_header f) = Some 2.
Proof.
  cbv zeta. split; [vm_compute; reflexivity|].
  destruct (@write_header rational_sqrt sample_Singles sample_Binaries no_files "input.fits"
              (mkKwargs None None (Some 0.001) None None))
    as (f & Hf & _ & _ & _ & HZ & _ & HM & _).
  - vm_compute. reflexivity.
  - exists f. auto.
Defined.

(** ** Writing the same tables again *)

Lemma encode_header_any_format format format' singles binaries mclus rvir rtid z :
  disk_header (encode format singles binaries mclus rvir rtid z) =
  disk_header (encode format' singles binaries mclus rvir rtid z).
Proof.
  destruct format, format'; cbn [encode disk_header]; unfold values;
    rewrite ?length_map; reflexivity.
Qed.

(** X12. Let the virial radius and the tidal radius handed to [write]
    (keyword, else attribute) be numbers, and the total mass of a cluster that
    is still to be scaled not be zero.  The tables a [write] has gone through
    can then be written again, under any recognised file name and in either
    kind of file, with the same keywords: the second [write] raises nothing,
    leaves both tables as the first one left them (it does not scale a second
    time), and stores the same rows and the same header. *)
Theorem write_again `{NumpySqrt}
    (Singles : InitialCMCTable SinglesRow) (Binaries : InitialCMCTable BinariesRow)
    (fs : FileSystem) (filename filename' : string) (format' : Format) (kwargs : Kwargs)
    (rvir rtid : Q) :
  let out := write Singles Binaries fs filename kwargs in
  let out' := write (w_Singles out) (w_Binaries out) (w_files out) filename' kwargs in
  (scaled_to_nbody_units (attrs Singles) = false ->
   ~ Np.py_sum (col s_m (data Singles)) == 0) ->
  pop_opt (kw_virial_radius kwargs) (virial_radius (attrs Singles)) = Some rvir ->
  pop_opt (kw_tidal_radius kwargs) (tidal_radius (attrs Singles)) = Some rtid ->
  w_raised out = None ->
  write_format filename' = inl format' ->
  w_raised out' = None /\
  w_Singles out' = w_Singles out /\ w_Binaries out' = w_Binaries out /\
  exists f f' : StoredFile,
    w_files out filename = Some f /\ w_files out' filename' = Some f' /\
    disk_singles f' = disk_singles f /\ disk_binaries f' = disk_binaries f /\
    disk_header f' = disk_header f.
Proof.
  intros out out' _ _ _ Hok Hfmt'. clear rvir rtid.
  destruct (write_success Singles Binaries fs filename kwargs Hok)
    as (format & z & Hfmt & Hz & Hfiles).
  fold out in Hz, Hfiles.
  set (rvir := pop_opt (kw_virial_radius kwargs) (virial_radius (attrs Singles))) in *.
  set (rtid := pop_opt (kw_tidal_radius kwargs) (tidal_radius (attrs Singles))) in *.
  set (bh := pop (kw_central_bh kwargs) (central_bh (attrs Singles))).
  set (flag := pop (kw_scale_with_central_bh kwargs) (scale_with_central_bh (attrs Singles))).
  destruct (write_tables Singles Binaries fs filename kwargs format Hfmt) as [HS HB].
  fold out rvir bh flag in HS, HB.
  assert (Hraised : raised (scale_before_write Singles Binaries rvir bh flag) = None).
  { revert Hok. subst out. unfold write. rewrite Hfmt. cbv zeta. fold rvir bh flag.
    destruct (raised (scale_before_write _ _ _ _ _)); [discriminate | reflexivity]. }
  destruct (scale_before_write_record Singles Binaries rvir bh flag)
    as (Hv & Ht & _ & _ & Hdone).
  destruct (Hdone Hraised) as (Hflag & M & HM).
  destruct (scale_before_write_attrs Singles Binaries rvir bh flag) as (Hmet & _).
  rewrite <- HS in Hv, Ht, Hflag, HM, Hmet.
  (* the second call finds the cluster scaled and its mass recorded *)
  assert (Hout' : out' =
            mkWritten (w_Singles out) (w_Binaries out)
              (store (w_files out) filename'
                 (encode format' (singles_block (w_Singles out)) (binaries_block (w_Binaries out))
                    (mass_of_cluster (attrs (w_Singles out))) rvir rtid
                    (pop_opt (kw_metallicity kwargs) (metallicity (attrs Singles)))))
              None).
  { subst out'. unfold write. rewrite Hfmt'. cbv zeta.
    unfold scale_before_write. rewrite Hflag, HM.
    cbn [Singles' Binaries' raised].
    pose proof Hz as Hz'. rewrite Hmet in Hz'.
    rewrite Hv, Ht, Hmet, Hz', ?HM. reflexivity. }
  rewrite Hout'. cbn [w_raised w_Singles w_Binaries w_files].
  repeat split.
  exists (encode format (singles_block (w_Singles out)) (binaries_block (w_Binaries out))
            (mass_of_cluster (attrs (w_Singles out))) rvir rtid
            (pop_opt (kw_metallicity kwargs) (metallicity (attrs Singles)))),
         (encode format' (singles_block (w_Singles out)) (binaries_block (w_Binaries out))
            (mass_of_cluster (attrs (w_Singles out))) rvir rtid
            (pop_opt (kw_metallicity kwargs) (metallicity (attrs Singles)))).
  split; [rewrite Hfiles; apply store_same|]. split; [apply store_same|].
  destruct (encode_rows format (singles_block (w_Singles out)) (binaries_block (w_Binaries out))
              (mass_of_cluster (attrs (w_Singles out))) rvir rtid
              (pop_opt (kw_metallicity kwargs) (metallicity (attrs Singles))))
    as (Hs1 & Hb1 & _).
  destruct (encode_rows format' (singles_block (w_Singles out)) (binaries_block (w_Binaries out))
              (mass_of_cluster (attrs (w_Singles out))) rvir rtid
              (pop_opt (kw_metallicity kwargs) (metallicity (attrs Singles))))
    as (Hs2 & Hb2 & _).
  rewrite Hs1, Hs2, Hb1, Hb2.
  repeat split. apply encode_header_any_format.
Qed.

(** The sample cluster written to input.hdf5 and then to input.fits. *)
Lemma write_again_witness :
  let out := @write rational_sqrt sample_Singles sample_Binaries no_files "input.hdf5" no_kwargs in
  let out' := @write rational_sqrt (w_Singles out) (w_Binaries out) (w_files out)
                "input.fits" no_kwargs in
  w_raised out = None /\ w_raised out' = None /\ w_Singles out' = w_Singles out.
Proof.
  cbv zeta.
  assert (Hok : w_raised (@write rational_sqrt sample_Singles sample_Binaries no_files
                            "input.hdf5" no_kwargs) = None) by (vm_compute; reflexivity).
  split; [exact Hok|].
  destruct (@write_again rational_sqrt sample_Singles sample_Binaries no_files
              "input.hdf5" "input.fits" savefits no_kwargs 1 1e6) as (H1 & H2 & _).
  - intros _ H0. vm_compute in H0. discriminate.
  - reflexivity.
  - reflexivity.
  - exact Hok.
  - reflexivity.
  - auto.
Defined.

(** ** The order of the rows on disk *)

Lemma ascending_strongly (a : list Q) : ascending a <-> StronglySorted Qle a.
Proof.
  unfold ascending. split.
  - apply Sorted_StronglySorted. intros x y z. apply Qle_trans.
  - apply StronglySorted_Sorted.
Qed.

Lemma strongly_sorted_snoc (a : list Q) (top : Q) :
  StronglySorted Qle (a ++ [top]) <-> StronglySorted Qle a /\ Forall (fun x => x <= top) a.
Proof.
  induction a as [|x a IH]; cbn [app].
  - split; [intros _; split; constructor | intros _; repeat constructor].
  - split.
    + intros Hs. inversion Hs as [|? ? Hs' Hall]; subst.
      apply IH in Hs'. destruct Hs' as [Hs' Hb].
      apply Forall_app in Hall. destruct Hall as [Hall Htop].
      inversion Htop; subst.
      split; constructor; assumption.
    + intros [Hs Hb]. inversion Hs as [|? ? Hs' Hall]; subst.
      inversion Hb as [|? ? Hx Hb']; subst.
      constructor; [apply IH; split; assumption|].
      apply Forall_app. split; [assumption | repeat constructor; assumption].
Qed.

Lemma tiny_radius_below_huge_radius : tiny_radius <= huge_radius.
Proof. qle. Qed.

Lemma ascending_between (a : list Q) :
  ascending (tiny_radius :: a ++ [huge_radius]) <->
  ascending a /\ Forall (fun x => tiny_radius <= x /\ x <= huge_radius) a.
Proof.
  rewrite !ascending_strongly. split.
  - intros Hs. inversion Hs as [|? ? Hs' Hall]; subst.
    apply strongly_sorted_snoc in Hs'. destruct Hs' as [Hs' Hb].
    apply Forall_app in Hall. destruct Hall as [Hall _].
    split; [assumption|].
    apply Forall_forall. intros x Hx. rewrite Forall_forall in Hall, Hb. auto.
  - intros [Hs Hb]. constructor.
    + apply strongly_sorted_snoc. split; [assumption|].
      eapply Forall_impl; [|exact Hb]. intros x [_ Hx]. assumption.
    + apply Forall_app. split.
      * eapply Forall_impl; [|exact Hb]. intros x [Hx _]. assumption.
      * repeat constructor. apply tiny_radius_below_huge_radius.
Qed.

(** X13. In a file [write] has stored, the r column of the Singles block,
    the two sentinels included, is in ascending order exactly when the Singles
    table as [write] left it is sorted by r and each of its radii lies between
    the two sentinel radii 2.2250738585072014e-308 and 1e40. *)
Theorem disk_singles_ascending `{NumpySqrt}
    (Singles : InitialCMCTable SinglesRow) (Binaries : InitialCMCTable BinariesRow)
    (fs : FileSystem) (filename : string) (kwargs : Kwargs) :
  let out := write Singles Binaries fs filename kwargs in
  w_raised out = None ->
  exists f : StoredFile,
    w_files out filename = Some f /\
    (ascending (map s_r (disk_singles f)) <->
     sorted_by_r (w_Singles out) /\
     Forall (fun x => tiny_radius <= x /\ x <= huge_radius) (col s_r (data (w_Singles out)))).
Proof.
  intros out Hok.
  destruct (write_success Singles Binaries fs filename kwargs Hok)
    as (format & z & Hfmt & Hz & Hfiles).
  fold out in Hz, Hfiles.
  set (f := encode _ _ _ _ _ _ _) in Hfiles.
  destruct (encode_rows format (singles_block (w_Singles out))
              (binaries_block (w_Binaries out))
              (mass_of_cluster (attrs (w_Singles out)))
              (pop_opt (kw_virial_radius kwargs) (virial_radius (attrs Singles)))
              (pop_opt (kw_tidal_radius kwargs) (tidal_radius (attrs Singles)))
              (pop_opt (kw_metallicity kwargs) (metallicity (attrs Singles))))
    as (Hs & _).
  fold f in Hs.
  exists f. rewrite Hfiles, store_same, Hs, singles_block_rows.
  split; [reflexivity|].
  cbn [map inner_sentinel s_r]. rewrite map_app. cbn [map outer_sentinel s_r].
  rewrite <- col_values. apply ascending_between.
Qed.

(** The sample cluster: its rows on disk are in ascending order of r. *)
Lemma disk_singles_ascending_witness :
  let out := @write rational_sqrt sample_Singles sample_Binaries no_files "input.hdf5" no_kwargs in
  w_raised out = None /\
  exists f : StoredFile, w_files out "input.hdf5" = Some f /\ ascending (map s_r (disk_singles f)).
Proof.
  cbv zeta.
  assert (Hok : w_raised (@write rational_sqrt sample_Singles sample_Binaries no_files
                            "input.hdf5" no_kwargs) = None) by (vm_compute; reflexivity).
  split; [exact Hok|].
  destruct (@disk_singles_ascending rational_sqrt sample_Singles sample_Binaries no_files
              "input.hdf5" no_kwargs Hok) as (f & Hf & Hiff).
  exists f. split; [exact Hf|]. apply Hiff.
  assert (Hcol : exists x y,
             col s_r (data (w_Singles (@write rational_sqrt sample_Singles sample_Binaries
                                          no_files "input.hdf5" no_kwargs))) = [x; y] /\
             Qle_bool x y = true /\
             Qle_bool tiny_radius x = true /\ Qle_bool x huge_radius = true /\
             Qle_bool tiny_radius y = true /\ Qle_bool y huge_radius = true).
  { do 2 eexists. split; [vm_compute; reflexivity|]. repeat split; vm_compute; reflexivity. }
  destruct Hcol as (x & y & Hcol & Hxy & H1 & H2 & H3 & H4).
  unfold sorted_by_r, ascending. rewrite Hcol.
  apply Qle_bool_iff in Hxy, H1, H2, H3, H4.
  split; repeat constructor; assumption.
Defined.

(** ** The masses [write] leaves and stores *)

(** The mass column behind the scaling step of [write] on a cluster that is
    still to be scaled. *)
Lemma scale_before_write_masses `{NumpySqrt} Singles Binaries rvir bh flag :
  scaled_to_nbody_units (attrs Singles) = false ->
  let out := scale_before_write Singles Binaries rvir bh flag in
  col s_m (data (Singles' out)) =
    map (fun x => x / Np.py_sum (col s_m (data Singles))) (col s_m (data Singles)) /\
  col s_Reff (data (Singles' out)) =
    match rvir with
    | Some v => if Qeq_bool v 0 then col s_Reff (data Singles)
                else map (fun x => x * (PARSEC_PER_RSUN / v)) (col s_Reff (data Singles))
    | None => col s_Reff (data Singles)
    end /\
  (raised out <> None ->
   scaled_to_nbody_units (attrs (Singles' out)) = false).
Proof.
  intros Hs out. subst out. unfold scale_before_write. rewrite Hs.
  destruct (mass_of_cluster (attrs Singles)) as [M|]; cbv zeta;
    unfold ScaleToNBodyUnits;
    (destruct rvir as [v|]; [destruct (Qeq_bool v 0)|]);
    cbn [Singles' raised data attrs normalize_masses with_attrs ScaleCentralBHMass
         set_central_bh set_mass_of_cluster set_scaled_to_nbody_units scaled_to_nbody_units];
    (split; [untouched; apply col_updated; reflexivity|]);
    (split;
     [first [ untouched; reflexivity
            | rewrite (col_updated _ _ (fun x => x * (PARSEC_PER_RSUN / v))) by reflexivity;
              untouched; reflexivity ]
     | first [intros _; assumption | intros Hr; now contradiction Hr]]).
Qed.

(** X14. When [write] does the scaling itself (the cluster comes unscaled,
    with a total mass other than zero) and raises nothing, the masses of the
    table it leaves sum to 1, and the m column of the Singles block on disk,
    sentinels included, sums to 1 plus the central black-hole mass divided by
    the total mass of the stars. *)
Theorem write_normalized_masses `{NumpySqrt}
    (Singles : InitialCMCTable SinglesRow) (Binaries : InitialCMCTable BinariesRow)
    (fs : FileSystem) (filename : string) (kwargs : Kwargs) :
  scaled_to_nbody_units (attrs Singles) = false ->
  ~ Np.py_sum (col s_m (data Singles)) == 0 ->
  let out := write Singles Binaries fs filename kwargs in
  w_raised out = None ->
  Np.sum (col s_m (data (w_Singles out))) == 1 /\
  exists f : StoredFile,
    w_files out filename = Some f /\
    Np.sum (map s_m (disk_singles f)) ==
      1 + central_bh (attrs Singles) / Np.py_sum (col s_m (data Singles)).
Proof.
  intros Hs HM out Hok.
  destruct (write_success Singles Binaries fs filename kwargs Hok)
    as (format & z & Hfmt & Hz & Hfiles).
  fold out in Hz, Hfiles.
  set (f := encode _ _ _ _ _ _ _) in Hfiles.
  destruct (encode_rows format (singles_block (w_Singles out))
              (binaries_block (w_Binaries out))
              (mass_of_cluster (attrs (w_Singles out)))
              (pop_opt (kw_virial_radius kwargs) (virial_radius (attrs Singles)))
              (pop_opt (kw_tidal_radius kwargs) (tidal_radius (attrs Singles)))
              (pop_opt (kw_metallicity kwargs) (metallicity (attrs Singles))))
    as (Hrows & _).
  fold f in Hrows.
  destruct (write_tables Singles Binaries fs filename kwargs format Hfmt) as [HS _].
  fold out in HS.
  set (rvir := pop_opt (kw_virial_radius kwargs) (virial_radius (attrs Singles))) in *.
  set (bh := pop (kw_central_bh kwargs) (central_bh (attrs Singles))) in *.
  set (flag := pop (kw_scale_with_central_bh kwargs) (scale_with_central_bh (attrs Singles))) in *.
  destruct (scale_before_write_masses Singles Binaries rvir bh flag Hs) as (Hm & _).
  destruct (scale_before_write_attrs Singles Binaries rvir bh flag) as (_ & Hbh & _).
  rewrite Hs in Hbh. rewrite <- HS in Hm, Hbh.
  assert (Hone : Np.sum (col s_m (data (w_Singles out))) == 1).
  { rewrite Hm. apply sum_normalized. assumption. }
  split; [exact Hone|].
  exists f. split; [rewrite Hfiles; apply store_same|].
  rewrite Hrows, singles_block_rows.
  cbn [map inner_sentinel s_m]. rewrite map_app, <- col_values. cbn [map outer_sentinel s_m].
  rewrite sum_cons, sum_app, Hone, Hbh. lists. ring.
Qed.

(** The sample cluster written to input.hdf5. *)
Lemma write_normalized_masses_witness :
  let out := @write rational_sqrt sample_Singles sample_Binaries no_files "input.hdf5" no_kwargs in
  w_raised out = None /\ Np.sum (col s_m (data (w_Singles out))) == 1.
Proof.
  cbv zeta.
  assert (Hok : w_raised (@write rational_sqrt sample_Singles sample_Binaries no_files
                            "input.hdf5" no_kwargs) = None) by (vm_compute; reflexivity).
  split; [exact Hok|].
  destruct (@write_normalized_masses rational_sqrt sample_Singles sample_Binaries no_files
              "input.hdf5" no_kwargs) as (Hone & _).
  - reflexivity.
  - intros H0. vm_compute in H0. discriminate.
  - exact Hok.
  - exact Hone.
Defined.

(** X15. A [write] of a cluster that is still to be scaled, under a
    recognised file name and with no virial radius to go by (neither keyword
    nor attribute), raises a TypeError and stores no file; the call is not
    without effect for that: the masses of Singles are normalized by then,
    [mass_of_cluster] is recorded where it was not, and the table is still
    flagged as not scaled, with Reff in solar radii. *)
Theorem write_without_virial_radius `{NumpySqrt}
    (Singles : InitialCMCTable SinglesRow) (Binaries : InitialCMCTable BinariesRow)
    (fs : FileSystem) (filename : string) (format : Format) (kwargs : Kwargs) :
  write_format filename = inl format ->
  scaled_to_nbody_units (attrs Singles) = false ->
  ~ Np.py_sum (col s_m (data Singles)) == 0 ->
  pop_opt (kw_virial_radius kwargs) (virial_radius (attrs Singles)) = None ->
  let out := write Singles Binaries fs filename kwargs in
  (exists msg, w_raised out = Some (TypeError msg)) /\
  w_files out = fs /\
  col s_m (data (w_Singles out)) =
    map (fun x => x / Np.py_sum (col s_m (data Singles))) (col s_m (data Singles)) /\
  Np.sum (col s_m (data (w_Singles out))) == 1 /\
  col s_Reff (data (w_Singles out)) = col s_Reff (data Singles) /\
  scaled_to_nbody_units (attrs (w_Singles out)) = false /\
  mass_of_cluster (attrs (w_Singles out)) =
    match mass_of_cluster (attrs Singles) with
    | Some M => Some M
    | None => Some (Np.sum (col s_m (data Singles)) +
                    pop (kw_central_bh kwargs) (central_bh (attrs Singles)))
    end.
Proof.
  intros Hfmt Hs HM Hv out.
  destruct (write_tables Singles Binaries fs filename kwargs format Hfmt) as [HS _].
  fold out in HS. rewrite Hv in HS.
  set (bh := pop (kw_central_bh kwargs) (central_bh (attrs Singles))) in *.
  set (flag := pop (kw_scale_with_central_bh kwargs) (scale_with_central_bh (attrs Singles))) in *.
  assert (Hraised : exists msg,
            raised (scale_before_write Singles Binaries None bh flag) = Some (TypeError msg)).
  { unfold scale_before_write. rewrite Hs.
    destruct (mass_of_cluster (attrs Singles)); cbn; eexists; reflexivity. }
  destruct Hraised as [msg Hraised].
  assert (Hout : w_raised out = Some (TypeError msg)).
  { subst out. unfold write. rewrite Hfmt. cbv zeta. rewrite Hv. fold bh flag.
    rewrite Hraised. reflexivity. }
  destruct (scale_before_write_masses Singles Binaries None bh flag Hs) as (Hm & HR & Hflag).
  destruct (scale_before_write_record Singles Binaries None bh flag) as (_ & _ & _ & Hmass & _).
  rewrite <- HS in Hm, HR, Hflag, Hmass.
  split; [eauto|].
  split; [exact (write_raise_no_file _ _ _ _ _ _ Hout)|].
  split; [exact Hm|].
  split; [rewrite Hm; apply sum_normalized; assumption|].
  split; [exact HR|].
  split; [apply Hflag; rewrite Hraised; discriminate|].
  apply Hmass. assumption.
Qed.

(** A cluster fresh from the constructor, where no virial radius is set. *)
Lemma write_without_virial_radius_witness :
  let out := @write rational_sqrt fresh_Singles no_Binaries no_files "input.hdf5" no_kwargs in
  (exists msg, w_raised out = Some (TypeError msg)) /\
  w_files out = no_files /\
  scaled_to_nbody_units (attrs (w_Singles out)) = false.
Proof.
  cbv zeta.
  destruct (@write_without_virial_radius rational_sqrt fresh_Singles no_Binaries no_files
              "input.hdf5" savehdf5 no_kwargs) as (H1 & H2 & _ & _ & _ & H3 & _).
  - reflexivity.
  - reflexivity.
  - intros H0. vm_compute in H0. discriminate.
  - reflexivity.
  - auto.
Defined.

(** * More on the black-hole injector *)

(** ** What the call never writes *)

Lemma length_loc_set {R : Type} (df : DataFrame R) (p : Z * R) :
  (List.length df <= List.length (loc_set df p) <= S (List.length df))%nat.
Proof.
  unfold loc_set. destruct (existsb _ df);
    [rewrite length_map | rewrite length_app; cbn [List.length]]; lia.
Qed.

Lemma length_fold_loc_set {R : Type} (new df : DataFrame R) :
  (List.length df <= List.length (fold_left loc_set new df)
   <= List.length df + List.length new)%nat.
Proof.
  revert df. induction new as [|p new IH]; intros df; cbn [fold_left List.length]; [lia|].
  pose proof (length_loc_set df p). pose proof (IH (loc_set df p)). lia.
Qed.

(** X16. Whatever the arguments and whatever the outcome, [AddBlackHoles]
    leaves Binaries as it was, writes no attribute of Singles other than
    [mass_of_cluster], and leaves Singles with at least as many rows as it
    had.  [mass_of_cluster] changes only when the call raises nothing, and
    then grows by the sum of the masses handed in. *)
Theorem AddBlackHoles_frame (Singles : InitialCMCTable SinglesRow)
    (Binaries : InitialCMCTable BinariesRow) (masses radii : PyArg) :
  let out := AddBlackHoles Singles Binaries masses radii in
  Binaries' out = Binaries /\
  (scaled_to_nbody_units (attrs (Singles' out)) = scaled_to_nbody_units (attrs Singles) /\
   metallicity (attrs (Singles' out)) = metallicity (attrs Singles) /\
   virial_radius (attrs (Singles' out)) = virial_radius (attrs Singles) /\
   tidal_radius (attrs (Singles' out)) = tidal_radius (attrs Singles) /\
   central_bh (attrs (Singles' out)) = central_bh (attrs Singles) /\
   scale_with_central_bh (attrs (Singles' out)) = scale_with_central_bh (attrs Singles)) /\
  (List.length (data Singles) <= List.length (data (Singles' out)))%nat /\
  match raised out with
  | Some _ => mass_of_cluster (attrs (Singles' out)) = mass_of_cluster (attrs Singles)
  | None =>
      exists M ms,
        mass_of_cluster (attrs Singles) = Some M /\ check_masses masses = inl ms /\
        mass_of_cluster (attrs (Singles' out)) = Some (M + Np.sum ms)
  end.
Proof.
  intros out. subst out. unfold AddBlackHoles.
  destruct (check_masses masses) as [ms|e]; [|cbn; repeat split; lia].
  destruct (check_radii radii) as [rs|e]; [|cbn; repeat split; lia].
  destruct (negb (Nat.eqb (List.length ms) (List.length rs))); [cbn; repeat split; lia|].
  destruct (Np.series_max (col s_id (data Singles))); [|cbn; repeat split; lia].
  destruct (Np.series_min (col s_vr (data Singles))); [|cbn; repeat split; lia].
  destruct (Np.series_min (col s_vt (data Singles))); [|cbn; repeat split; lia].
  cbv zeta. set (bh := bh_frame _ _ _ _ _).
  assert (Hlen : (List.length (data Singles)
                  <= List.length (sort_values_by_r (fold_left loc_set bh (data Singles))))%nat).
  { rewrite (Permutation_length (sort_values_by_r_perm _)). apply length_fold_loc_set. }
  destruct (mass_of_cluster (attrs Singles)) as [M|] eqn:HM;
    cbn [Singles' Binaries' raised data attrs set_mass_of_cluster scaled_to_nbody_units
         metallicity virial_radius tidal_radius central_bh scale_with_central_bh
         mass_of_cluster];
    repeat split; try assumption.
  exists M, ms. repeat split.
Qed.

(** ** The rows of [singles_bh] *)

Lemma bh_frame_rows (label : Z) (ids masses radii : list Q) (v : Q) :
  Forall (fun q => s_k (snd q) = 14 /\ s_vr (snd q) = v /\ s_vt (snd q) = v /\
                   s_binind (snd q) = 0)
         (bh_frame label ids masses radii v).
Proof.
  revert label masses radii.
  induction ids as [|i ids IH]; intros label [|m masses] [|r radii]; cbn [bh_frame];
    constructor; [cbn; auto | apply IH].
Qed.

Lemma col_bh_frame (label : Z) (ids masses radii : list Q) (v : Q) :
  List.length ids = List.length masses -> List.length masses = List.length radii ->
  col s_id (bh_frame label ids masses radii v) = ids /\
  col s_m (bh_frame label ids masses radii v) = masses /\
  col s_r (bh_frame label ids masses radii v) = radii.
Proof.
  revert label masses radii.
  induction ids as [|i ids IH]; intros label [|m masses] [|r radii] H1 H2;
    cbn in H1, H2; try discriminate; [repeat split|].
  destruct (IH (label + 1)%Z masses radii) as (Hi & Hm & Hr); [congruence | congruence |].
  cbn [bh_frame]. unfold col in *. cbn [map snd black_hole s_id s_m s_r].
  rewrite Hi, Hm, Hr. repeat split.
Qed.

(** X17. On a Singles table whose [mass_of_cluster] is not recorded (as it
    comes from the constructor), a call that passes the validation raises a
    TypeError at its last statement, and has changed the table by then: the k
    black holes (stellar type 14, with the masses and radii handed in) are
    among its N+k rows, which are sorted by r.  The attributes and Binaries
    are as they were. *)
Theorem AddBlackHoles_unrecorded_mass
    (Singles : InitialCMCTable SinglesRow) (Binaries : InitialCMCTable BinariesRow)
    (masses radii : PyArg) (ms rs : list Q) :
  check_masses masses = inl ms ->
  check_radii radii = inl rs ->
  List.length ms = List.length rs ->
  data Singles <> [] ->
  mass_of_cluster (attrs Singles) = None ->
  default_index (data Singles) ->
  let out := AddBlackHoles Singles Binaries masses radii in
  (exists msg, raised out = Some (TypeError msg)) /\
  List.length (data (Singles' out)) = (List.length (data Singles) + List.length ms)%nat /\
  sorted_by_r (Singles' out) /\
  attrs (Singles' out) = attrs Singles /\
  Binaries' out = Binaries /\
  exists new_rows : DataFrame SinglesRow,
    Permutation (data (Singles' out)) (data Singles ++ new_rows) /\
    Forall (fun row => s_k row = 14) (values new_rows) /\
    col s_m new_rows = ms /\ col s_r new_rows = rs.
Proof.
  intros Hm Hr Hlen Hne HM Hdi out.
  destruct (AddBlackHoles_valid Singles Binaries masses radii ms rs Hm Hr Hlen Hne)
    as (id_max & vr_min & vt_min & _ & _ & _ & Hout).
  cbv zeta in Hout. rewrite HM in Hout. subst out. rewrite Hout. clear Hout.
  set (top := Np.py_max (Np.py_max id_max (Np.series_max (col b_id1 (data Binaries))))
                        (Np.series_max (col b_id2 (data Binaries)))).
  set (v := 0.01 * Np.py_min (Qabs vr_min) (Qabs vt_min)).
  set (bh := bh_frame (Z.of_nat (List.length (data Singles)))
               (Np.arange (top + 1) (List.length ms)) ms rs v).
  assert (Hbh_len : List.length bh = List.length ms).
  { apply length_bh_frame; [apply length_arange | assumption]. }
  assert (Happ : fold_left loc_set bh (data Singles) = data Singles ++ bh).
  { destruct (bh_frame_labels (Z.of_nat (List.length (data Singles)))
                (Np.arange (top + 1) (List.length ms)) ms rs v) as [Hnd Hrange].
    apply fold_loc_set_fresh; [assumption|].
    intros j Hj. apply default_index_fresh; [assumption|]. apply Hrange in Hj. lia. }
  rewrite Happ. cbn [raised Singles' Binaries' data attrs].
  split; [eexists; reflexivity|]. split.
  { rewrite (Permutation_length (sort_values_by_r_perm _)), length_app, Hbh_len. reflexivity. }
  split; [apply sort_values_by_r_sorted|]. split; [reflexivity|]. split; [reflexivity|].
  exists bh. split; [apply sort_values_by_r_perm|].
  destruct (col_bh_frame (Z.of_nat (List.length (data Singles)))
              (Np.arange (top + 1) (List.length ms)) ms rs v (length_arange _ _) Hlen)
    as (_ & Hcm & Hcr).
  fold bh in Hcm, Hcr. repeat split; try assumption.
  unfold values. apply Forall_map.
  eapply Forall_impl; [|apply bh_frame_rows]. intros q (Hk & _). exact Hk.
Qed.

(** Two black holes added to a cluster fresh from the constructor. *)
Lemma AddBlackHoles_unrecorded_mass_witness :
  let out := AddBlackHoles fresh_Singles no_Binaries
               (ListLike [PyNum 10; PyNum 20]) (ListLike [PyNum 0.01; PyNum 0.02]) in
  (exists msg, raised out = Some (TypeError msg)) /\
  List.length (data (Singles' out)) = (List.length (data fresh_Singles) + 2)%nat.
Proof.
  cbv zeta.
  destruct (AddBlackHoles_unrecorded_mass fresh_Singles no_Binaries
              (ListLike [PyNum 10; PyNum 20]) (ListLike [PyNum 0.01; PyNum 0.02])
              [10; 20] [0.01; 0.02])
    as (H1 & H2 & _).
  - reflexivity.
  - reflexivity.
  - reflexivity.
  - discriminate.
  - reflexivity.
  - unfold default_index. reflexivity.
  - auto.
Defined.

(** ** The ids stay distinct *)

Lemma arange_above (start : Q) (n : nat) :
  Forall (fun x => start <= x) (Np.arange start n).
Proof.
  revert start. induction n as [|n IH]; intros start; cbn [Np.arange]; constructor.
  - apply Qle_refl.
  - eapply Forall_impl; [|apply (IH (start + 1))]. intros x Hx. cbv beta in Hx. lra.
Qed.

Lemma arange_distinct (start : Q) (n : nat) : NoDupA Qeq (Np.arange start n).
Proof.
  revert start. induction n as [|n IH]; intros start; cbn [Np.arange]; constructor.
  - intros Hin. apply InA_alt in Hin. destruct Hin as (y & Heq & Hy).
    pose proof (arange_above (start + 1) n) as Hall. rewrite Forall_forall in Hall.
    apply Hall in Hy. lra.
  - apply IH.
Qed.

(** X18. On a Singles table with the default index, [AddBlackHoles] keeps
    the ids distinct: when no two of the ids in Singles.id, Binaries.id1 and
    Binaries.id2 are equal before the call, no two are equal after it,
    whatever the call did. *)
Theorem AddBlackHoles_ids_stay_distinct
    (Singles : InitialCMCTable SinglesRow) (Binaries : InitialCMCTable BinariesRow)
    (masses radii : PyArg) :
  NoDupA Qeq (ids_in_use Singles Binaries) ->
  default_index (data Singles) ->
  let out := AddBlackHoles Singles Binaries masses radii in
  NoDupA Qeq (ids_in_use (Singles' out) (Binaries' out)).
Proof.
  intros Hnd Hdi out. subst out. unfold AddBlackHoles.
  destruct (check_masses masses) as [ms|e]; [|assumption].
  destruct (check_radii radii) as [rs|e]; [|assumption].
  destruct (Nat.eqb (List.length ms) (List.length rs)) eqn:Hlen; [|assumption].
  apply Nat.eqb_eq in Hlen. cbn [negb].
  destruct (Np.series_max (col s_id (data Singles))) as [id_max|] eqn:Hmax; [|assumption].
  destruct (Np.series_min (col s_vr (data Singles))) as [vr_min|]; [|assumption].
  destruct (Np.series_min (col s_vt (data Singles))) as [vt_min|]; [|assumption].
  cbv zeta.
  destruct (starting_id_spec Singles Binaries id_max Hmax) as [_ Htop].
  set (top := Np.py_max (Np.py_max id_max (Np.series_max (col b_id1 (data Binaries))))
                        (Np.series_max (col b_id2 (data Binaries)))) in *.
  set (v := 0.01 * Np.py_min (Qabs vr_min) (Qabs vt_min)).
  set (bh := bh_frame (Z.of_nat (List.length (data Singles)))
               (Np.arange (top + 1) (List.length ms)) ms rs v).
  assert (Happ : fold_left loc_set bh (data Singles) = data Singles ++ bh).
  { destruct (bh_frame_labels (Z.of_nat (List.length (data Singles)))
                (Np.arange (top + 1) (List.length ms)) ms rs v) as [Hnd' Hrange].
    apply fold_loc_set_fresh; [assumption|].
    intros j Hj. apply default_index_fresh; [assumption|]. apply Hrange in Hj. lia. }
  destruct (col_bh_frame (Z.of_nat (List.length (data Singles)))
              (Np.arange (top + 1) (List.length ms)) ms rs v (length_arange _ _) Hlen)
    as (Hids & _).
  fold bh in Hids.
  assert (Hgoal : NoDupA Qeq
            (col s_id (sort_values_by_r (fold_left loc_set bh (data Singles)))
               ++ col b_id1 (data Binaries) ++ col b_id2 (data Binaries))).
  { rewrite Happ.
    apply (PermutationA_preserves_NoDupA Q_Setoid)
      with (l₁ := ids_in_use Singles Binaries ++ Np.arange (top + 1) (List.length ms)).
    - apply (Permutation_PermutationA Q_Setoid). unfold ids_in_use.
      rewrite <- Hids. unfold col at 4.
      rewrite (Permutation_map (fun p => s_id (snd p)) (sort_values_by_r_perm (data Singles ++ bh))).
      rewrite map_app. fold (col s_id (data Singles)) (col s_id bh).
      rewrite <- !app_assoc. apply Permutation_app_head.
      rewrite (app_assoc (col b_id1 (data Binaries))). apply Permutation_app_comm.
    - apply (NoDupA_app Q_Setoid); [assumption | apply arange_distinct |].
      intros x Hold Hnew. apply InA_alt in Hold, Hnew.
      destruct Hold as (y & Hxy & Hy). destruct Hnew as (z & Hxz & Hz).
      apply Htop in Hy.
      pose proof (arange_above (top + 1) (List.length ms)) as Hall.
      rewrite Forall_forall in Hall. apply Hall in Hz. lra. }
  destruct (mass_of_cluster (attrs Singles)); exact Hgoal.
Qed.

(** The sample cluster, whose ids are 1, 2, 3 and 4. *)
Lemma AddBlackHoles_ids_stay_distinct_witness :
  NoDupA Qeq
    (ids_in_use
       (Singles' (AddBlackHoles sample_Singles sample_Binaries
                    (ListLike [PyNum 10; PyNum 20]) (ListLike [PyNum 0.01; PyNum 0.02])))
       (Binaries' (AddBlackHoles sample_Singles sample_Binaries
                    (ListLike [PyNum 10; PyNum 20]) (ListLike [PyNum 0.01; PyNum 0.02])))).
Proof.
  apply (AddBlackHoles_ids_stay_distinct sample_Singles sample_Binaries
           (ListLike [PyNum 10; PyNum 20]) (ListLike [PyNum 0.01; PyNum 0.02])).
  - cbn [ids_in_use col data sample_Singles sample_Binaries two_stars one_binary map snd
         s_id b_id1 b_id2 app].
    repeat (constructor;
            [intros Hin;
             repeat (apply InA_cons in Hin; destruct Hin as [Hin|Hin];
                     [vm_compute in Hin; discriminate|]);
             apply InA_nil in Hin; exact Hin|]).
    constructor.
  - unfold default_index. reflexivity.
Defined.

(** ** Labels that are taken *)

Lemma loc_set_labels {R : Type} (df : DataFrame R) (p : Z * R) (j : Z) :
  In j (labels df) -> In j (labels (loc_set df p)).
Proof.
  unfold loc_set, labels. intros Hj.
  destruct (existsb _ df).
  - rewrite map_map.
    replace (map (fun x => fst (if (fst x =? fst p)%Z then (fst x, snd p) else x)) df)
      with (map fst df); [assumption|].
    apply map_ext. intros q. destruct (fst q =? fst p)%Z; reflexivity.
  - rewrite map_app. apply in_or_app. left. assumption.
Qed.

Lemma loc_set_taken {R : Type} (df : DataFrame R) (p : Z * R) :
  In (fst p) (labels df) -> List.length (loc_set df p) = List.length df.
Proof.
  intros Hin. unfold loc_set.
  destruct (existsb (fun q => (fst q =? fst p)%Z) df) eqn:Hex; [apply length_map|].
  exfalso. unfold labels in Hin. apply in_map_iff in Hin. destruct Hin as (q & Hq & Hin).
  assert (Htrue : existsb (fun q => (fst q =? fst p)%Z) df = true).
  { apply existsb_exists. exists q. split; [assumption | apply Z.eqb_eq; assumption]. }
  congruence.
Qed.

(** One taken label is enough for the table to end up short of a row. *)
Lemma fold_loc_set_taken {R : Type} (new df : DataFrame R) (j : Z) :
  In j (labels new) -> In j (labels df) ->
  (List.length (fold_left loc_set new df) < List.length df + List.length new)%nat.
Proof.
  revert df. induction new as [|p new IH]; intros df Hnew Hold; [destruct Hnew|].
  cbn [fold_left List.length]. cbn [labels map] in Hnew.
  destruct (Z.eq_dec (fst p) j) as [Heq|Hne].
  - subst j. pose proof (loc_set_taken df p Hold).
    pose proof (length_fold_loc_set new (loc_set df p)). lia.
  - destruct Hnew as [Heq|Hnew]; [contradiction|].
    pose proof (IH (loc_set df p) Hnew (loc_set_labels df p j Hold)).
    pose proof (length_loc_set df p). lia.
Qed.

(** Rows written under a label hold what was written. *)
Lemma loc_set_keeps {R : Type} (P : R -> Prop) (df : DataFrame R) (p : Z * R) (j : Z) :
  P (snd p) ->
  (forall q, In q df -> fst q = j -> P (snd q)) ->
  forall q, In q (loc_set df p) -> fst q = j -> P (snd q).
Proof.
  intros Hp Hdf q. unfold loc_set. destruct (existsb _ df).
  - intros Hq Hj. apply in_map_iff in Hq. destruct Hq as (q0 & Hq0 & Hin).
    destruct (fst q0 =? fst p)%Z; subst q; [exact Hp | apply Hdf; assumption].
  - intros Hq Hj. apply in_app_or in Hq. destruct Hq as [Hq|[<-|[]]]; [apply Hdf|]; assumption.
Qed.

Lemma loc_set_written {R : Type} (P : R -> Prop) (df : DataFrame R) (p : Z * R) :
  P (snd p) ->
  forall q, In q (loc_set df p) -> fst q = fst p -> P (snd q).
Proof.
  intros Hp q. unfold loc_set.
  destruct (existsb (fun q => (fst q =? fst p)%Z) df) eqn:Hex.
  - intros Hq Hj. apply in_map_iff in Hq. destruct Hq as (q0 & Hq0 & Hin).
    destruct (fst q0 =? fst p)%Z eqn:Hq0p; subst q; [exact Hp|].
    apply Z.eqb_neq in Hq0p. contradiction.
  - intros Hq Hj. apply in_app_or in Hq. destruct Hq as [Hq|[<-|[]]]; [|assumption].
    exfalso. assert (Htrue : existsb (fun q => (fst q =? fst p)%Z) df = true).
    { apply existsb_exists. exists q. split; [assumption | apply Z.eqb_eq; assumption]. }
    congruence.
Qed.

Lemma fold_loc_set_keeps {R : Type} (P : R -> Prop) (new df : DataFrame R) (j : Z) :
  Forall (fun p => P (snd p)) new ->
  (forall q, In q df -> fst q = j -> P (snd q)) ->
  forall q, In q (fold_left loc_set new df) -> fst q = j -> P (snd q).
Proof.
  revert df. induction new as [|p new IH]; intros df Hnew Hdf; [exact Hdf|].
  inversion Hnew as [|? ? Hp Hnew']; subst. cbn [fold_left].
  apply IH; [assumption|]. apply loc_set_keeps; assumption.
Qed.

Lemma fold_loc_set_written {R : Type} (P : R -> Prop) (new df : DataFrame R) (j : Z) :
  Forall (fun p => P (snd p)) new ->
  In j (labels new) ->
  forall q, In q (fold_left loc_set new df) -> fst q = j -> P (snd q).
Proof.
  revert df. induction new as [|p new IH]; intros df Hnew Hj; [destruct Hj|].
  inversion Hnew as [|? ? Hp Hnew']; subst. cbn [fold_left]. cbn [labels map] in Hj.
  destruct (Z.eq_dec (fst p) j) as [Heq|Hne].
  - subst j. apply fold_loc_set_keeps; [assumption|]. apply loc_set_written. assumption.
  - destruct Hj as [Heq|Hj]; [contradiction|]. apply IH; assumption.
Qed.

(** X19. [AddBlackHoles] labels the k new rows N, ..., N+k-1, with N the
    number of rows of Singles, and writes each with [Singles.loc].  Where one
    of these labels is already in the index (as after rows were selected out
    of a larger table), the call that passes the validation does not append
    that black hole but overwrites: afterwards every row under that label is a
    black hole (stellar type 14), and Singles has fewer than N+k rows. *)
Theorem AddBlackHoles_overwrites_taken_label
    (Singles : InitialCMCTable SinglesRow) (Binaries : InitialCMCTable BinariesRow)
    (masses radii : PyArg) (ms rs : list Q) (j : Z) :
  check_masses masses = inl ms ->
  check_radii radii = inl rs ->
  List.length ms = List.length rs ->
  data Singles <> [] ->
  (Z.of_nat (List.length (data Singles)) <= j
   < Z.of_nat (List.length (data Singles)) + Z.of_nat (List.length ms))%Z ->
  In j (labels (data Singles)) ->
  let out := AddBlackHoles Singles Binaries masses radii in
  (forall msg, raised out <> Some (ValueError msg)) /\
  (List.length (data (Singles' out)) < List.length (data Singles) + List.length ms)%nat /\
  In j (labels (data (Singles' out))) /\
  forall q, In q (data (Singles' out)) -> fst q = j -> s_k (snd q) = 14.
Proof.
  intros Hm Hr Hlen Hne Hrange Htaken out.
  destruct (AddBlackHoles_valid Singles Binaries masses radii ms rs Hm Hr Hlen Hne)
    as (id_max & vr_min & vt_min & _ & _ & _ & Hout).
  cbv zeta in Hout.
  set (top := Np.py_max (Np.py_max id_max (Np.series_max (col b_id1 (data Binaries))))
                        (Np.series_max (col b_id2 (data Binaries)))) in *.
  set (v := 0.01 * Np.py_min (Qabs vr_min) (Qabs vt_min)) in *.
  set (bh := bh_frame (Z.of_nat (List.length (data Singles)))
               (Np.arange (top + 1) (List.length ms)) ms rs v) in *.
  assert (Hbh_len : List.length bh = List.length ms).
  { apply length_bh_frame; [apply length_arange | assumption]. }
  assert (Hj : In j (labels bh)).
  { unfold bh. rewrite bh_frame_default_labels by (try apply length_arange; assumption).
    apply in_map_iff. exists (Z.to_nat j). split; [lia|]. apply in_seq. lia. }
  assert (Hdata : data (Singles' out) = sort_values_by_r (fold_left loc_set bh (data Singles))).
  { subst out. rewrite Hout. destruct (mass_of_cluster (attrs Singles)); reflexivity. }
  split.
  { intros msg. subst out. rewrite Hout.
    destruct (mass_of_cluster (attrs Singles)); cbn [raised]; discriminate. }
  rewrite Hdata. split.
  { rewrite (Permutation_length (sort_values_by_r_perm _)), <- Hbh_len.
    apply fold_loc_set_taken with j; assumption. }
  split.
  { unfold labels. rewrite (Permutation_map fst (sort_values_by_r_perm _)).
    clear Hdata. fold (labels (fold_left loc_set bh (data Singles))).
    generalize (data Singles) Htaken. clear.
    induction bh as [|p new IH]; intros df Hdf; [assumption|].
    cbn [fold_left]. apply IH, loc_set_labels. assumption. }
  intros q Hq Hqj.
  apply (Permutation_in _ (sort_values_by_r_perm _)) in Hq.
  apply (fold_loc_set_written (fun row => s_k row = 14) bh (data Singles) j);
    try assumption.
  eapply Forall_impl; [|apply bh_frame_rows]. intros p (Hk & _). exact Hk.
Qed.

(** A black hole added to the cluster that has lost its middle star: the
    star labelled 2 is overwritten. *)
Lemma AddBlackHoles_overwrites_taken_label_witness :
  let out := AddBlackHoles thinned_Singles no_Binaries (Scalar 10) (Scalar 0.01) in
  (List.length (data (Singles' out)) < List.length (data thinned_Singles) + 1)%nat /\
  forall q, In q (data (Singles' out)) -> fst q = 2%Z -> s_k (snd q) = 14.
Proof.
  cbv zeta.
  destruct (AddBlackHoles_overwrites_taken_label thinned_Singles no_Binaries
              (Scalar 10) (Scalar 0.01) [10] [0.01] 2%Z)
    as (_ & H1 & _ & H2).
  - reflexivity.
  - reflexivity.
  - reflexivity.
  - discriminate.
  - cbn. lia.
  - cbn. auto.
  - auto.
Defined.

(** * A table fresh from the constructor *)

(** X20. A Singles table as [InitialCMCSingles] returns it carries the
    default attributes, and with them neither of the two calls goes through:
    [AddBlackHoles] raises on every choice of Binaries, masses and radii, and
    [write] raises on every choice of Binaries, file name and keywords, and
    stores no file.  The metallicity (for [write]) and [mass_of_cluster]
    (for [AddBlackHoles]) have to be set on the table first. *)
Theorem fresh_table_needs_attributes `{NumpySqrt}
    (id_idx k m Reff r vr vt binind : list Q) (Singles : InitialCMCTable SinglesRow) :
  InitialCMCSingles id_idx k m Reff r vr vt binind = inl Singles ->
  (forall (Binaries : InitialCMCTable BinariesRow) (masses radii : PyArg),
     exists e, raised (AddBlackHoles Singles Binaries masses radii) = Some e) /\
  (forall (Binaries : InitialCMCTable BinariesRow) (fs : FileSystem) (filename : string)
          (kwargs : Kwargs),
     (exists e, w_raised (write Singles Binaries fs filename kwargs) = Some e) /\
     w_files (write Singles Binaries fs filename kwargs) = fs).
Proof.
  intros Hctor.
  destruct (InitialCMCSingles_default_index _ _ _ _ _ _ _ _ _ Hctor) as [_ Hattrs].
  split.
  - intros Binaries masses radii. unfold AddBlackHoles.
    destruct (check_masses masses) as [ms|e]; [|cbn; eauto].
    destruct (check_radii radii) as [rs|e]; [|cbn; eauto].
    destruct (negb (Nat.eqb (List.length ms) (List.length rs))); [cbn; eauto|].
    destruct (Np.series_max (col s_id (data Singles))); [|cbn; eauto].
    destruct (Np.series_min (col s_vr (data Singles))); [|cbn; eauto].
    destruct (Np.series_min (col s_vt (data Singles))); [|cbn; eauto].
    rewrite Hattrs. cbn. eauto.
  - intros Binaries fs filename kwargs.
    assert (Hraise : exists e, w_raised (write Singles Binaries fs filename kwargs) = Some e).
    { unfold write. destruct (write_format filename) as [format|e]; [|cbn; eauto].
      cbv zeta. set (scaled := scale_before_write _ _ _ _ _).
      destruct (raised scaled); [cbn; eauto|].
      assert (Hz : metallicity (attrs (Singles' scaled)) = None).
      { subst scaled.
        replace (@None Q) with (metallicity (attrs Singles)) by (rewrite Hattrs; reflexivity).
        apply scale_before_write_attrs. }
      rewrite Hz. cbn. eauto. }
    split; [assumption|]. destruct Hraise as [e He].
    exact (write_raise_no_file _ _ _ _ _ _ He).
Qed.

(** Two stars handed to the constructor. *)
Lemma fresh_table_needs_attributes_witness :
  InitialCMCSingles [1; 2] [1; 1] [1; 1] [1; 1] [1; 2] [1; (-1)] [1; 1] [0; 0] = inl fresh_Singles /\
  (exists e, raised (AddBlackHoles fresh_Singles no_Binaries (Scalar 10) (Scalar 0.01)) = Some e) /\
  (exists e, w_raised (@write rational_sqrt fresh_Singles no_Binaries no_files "input.hdf5"
                         (mkKwargs (Some 1) (Some 1e6) (Some 0.02) None None)) = Some e).
Proof.
  assert (Hctor : InitialCMCSingles [1; 2] [1; 1] [1; 1] [1; 1] [1; 2] [1; (-1)] [1; 1] [0; 0]
                  = inl fresh_Singles) by reflexivity.
  split; [exact Hctor|].
  destruct (@fresh_table_needs_attributes rational_sqrt _ _ _ _ _ _ _ _ _ Hctor) as [Hbh Hw].
  split; [apply Hbh | apply Hw].
Defined.
